(** * LoveACE: the AUFE connection engine ([src/provider/aufe/client.py])

    A shallow embedding of the authenticated-connection engine: the
    exception taxonomy, the retry executor, the per-connection health
    record, the two login handshakes with their password encryption, the
    typed request executor and the identity-keyed connection pool.

    Conventions of the embedding.
    - A Python [str] is a Rocq [string], read as the UTF-8 byte sequence
      of the text, so [s.encode("utf-8")] is the list of its bytes.
    - A Python [int] is a [Z]; a [float] duration is a rational [Q]; a
      reading of [time.time()] is a [Z] number of clock ticks.
    - An [async def] is a state-and-exception computation: it takes the
      mutable objects it can reach and the counters of the effects done
      so far, and returns either a value or a raised exception together
      with the new state.  What the outside world answers (HTTP
      responses, clock readings, random draws) is read from oracles
      indexed by those counters.
    - Operations run to their end one after the other: the interleaving
      of the monitor with a caller inside one operation and the
      cancellation of a task are outside the embedding. *)

From Stdlib Require Import ZArith QArith List String Ascii Bool Lia.
From stdpp Require Import base option gmap strings.
Import ListNotations.
Local Open Scope string_scope.
Local Open Scope Z_scope.

(** ** Exceptions *)

Module Exn.

(** The classes of exception the engine distinguishes.  [Exception_]
    is any [Exception] that is none of the others (a [ValueError] of a
    parser, an [AttributeError], ...); as the class of an [except]
    clause it is [Exception] itself. *)
Inductive ExnClass : Type :=
| Exception_
| AUFEError
| AUFELoginError
| AUFEConnectionError
| AUFETimeoutError
| AUFEParseError
| RequestError.

Definition ExnClass_eqb (a b : ExnClass) : bool :=
  match a, b with
  | Exception_, Exception_ | AUFEError, AUFEError
  | AUFELoginError, AUFELoginError
  | AUFEConnectionError, AUFEConnectionError
  | AUFETimeoutError, AUFETimeoutError
  | AUFEParseError, AUFEParseError
  | RequestError, RequestError => true
  | _, _ => false
  end.

(** [issubclass c d]: the four AUFE errors derive from [AUFEError], and
    everything derives from [Exception]. *)
Definition issubclass (c d : ExnClass) : bool :=
  match d with
  | Exception_ => true
  | AUFEError =>
      match c with
      | AUFEError | AUFELoginError | AUFEConnectionError
      | AUFETimeoutError | AUFEParseError => true
      | _ => false
      end
  | _ => ExnClass_eqb c d
  end.

(** [isinstance(e, classes)] for a tuple of classes, as an [except]
    clause with a tuple tests it. *)
Definition isinstance (e : ExnClass) (classes : list ExnClass) : bool :=
  existsb (issubclass e) classes.


End Exn.
Export Exn.

(** ** Health record: [class ConnectionHealth] *)

Module Health.

Record ConnectionHealth : Type := mkHealth {
  is_healthy : bool;
  last_error : option ExnClass;
  error_count : Z;
  last_check : Z
}.

(** [ConnectionHealth.__init__], at clock reading [now]. *)
Definition init (now : Z) : ConnectionHealth :=
  {| is_healthy := true; last_error := None; error_count := 0;
     last_check := now |}.

Definition mark_error (error : ExnClass) (now : Z) (h : ConnectionHealth)
  : ConnectionHealth :=
  {| is_healthy := false;
     last_error := Some error;
     error_count := error_count h + 1;
     last_check := now |}.

Definition mark_healthy (now : Z) (h : ConnectionHealth) : ConnectionHealth :=
  {| is_healthy := true;
     last_error := None;
     error_count := 0;
     last_check := now |}.

Definition should_reconnect (h : ConnectionHealth) : bool :=
  negb (is_healthy h) || (3 <=? error_count h).

(** [n] consecutive [mark_error] calls, the k-th with error [errs k] at
    clock reading [times k]. *)
Fixpoint mark_errors (n : nat) (errs : nat -> ExnClass) (times : nat -> Z)
  (h : ConnectionHealth) : ConnectionHealth :=
  match n with
  | O => h
  | S k => mark_error (errs k) (times k) (mark_errors k errs times h)
  end.

End Health.
Export Health.

(** ** Retry executor: [RetryConfig], [_calculate_delay], [retry_async] *)

Module Retry.

Inductive RetryStrategy : Type :=
| IMMEDIATE
| FIXED_DELAY
| EXPONENTIAL_BACKOFF
| LINEAR_BACKOFF.

Record RetryConfig : Type := mkRetryConfig {
  max_attempts : Z;
  strategy : RetryStrategy;
  base_delay : Q;
  max_delay : Q;
  exponential_base : Q;
  jitter : bool;
  retry_on_exceptions : list ExnClass
}.

(** Python's [min(a, b)]: the first argument unless the second is
    strictly smaller. *)
Definition py_min (a b : Q) : Q := if Qle_bool a b then a else b.

(** The delay of a strategy before jitter. *)
Definition base_delay_of (attempt : Z) (config : RetryConfig) : Q :=
  match strategy config with
  | IMMEDIATE => 0%Q
  | FIXED_DELAY => base_delay config
  | EXPONENTIAL_BACKOFF =>
      py_min (base_delay config * (exponential_base config ^ attempt))%Q
             (max_delay config)
  | LINEAR_BACKOFF =>
      py_min (base_delay config * inject_Z (attempt + 1))%Q (max_delay config)
  end.

(** Whether [_calculate_delay] draws from [random.random()]. *)
Definition draws_jitter (attempt : Z) (config : RetryConfig) : bool :=
  jitter config && negb (Qle_bool (base_delay_of attempt config) 0%Q).

(** [_calculate_delay(attempt, config)]; [r] is the value
    [random.random()] returns if it is called. *)
Definition _calculate_delay (attempt : Z) (config : RetryConfig) (r : Q) : Q :=
  let delay := base_delay_of attempt config in
  if draws_jitter attempt config
  then (delay * ((1 # 2) + r * (1 # 2)))%Q
  else delay.

End Retry.
Export Retry.

(** ** Effects: the world an [async def] runs in *)

Module Effects.

(** What [httpx] gives back for a request.  Header names are in the
    spelling the code asks for them. *)
Record Response : Type := mkResponse {
  status_code : Z;
  text : string;
  headers : gmap string string;
  cookies : gmap string string
}.

(** A request put on the wire: method, URL, form data, cookies, and
    the text of the other keyword arguments the caller passed on. *)
Record Request : Type := mkRequest {
  req_method : string;
  req_url : string;
  req_data : list (string * string);
  req_cookies : list (string * string);
  req_kwargs : string
}.

(** A value returned or an exception raised. *)
Inductive Res (A : Type) : Type :=
| Ret (a : A)
| Raise (e : ExnClass).
Arguments Ret {A} a.
Arguments Raise {A} e.

(** The outside world.  [net k] is what the k-th request put on the wire
    meets: a response, or the exception the transport raises;
    [aclose k] is the exception the k-th [session.aclose()] raises, if
    any; [clock k] is the k-th reading of [time.time()]; [random k] is
    the k-th value of [random.random()]. *)
Record Env : Type := mkEnv {
  net : nat -> Res Response;
  aclose : nat -> option ExnClass;
  clock : nat -> Z;
  random : nat -> Q
}.

(** The effects done so far: the requests sent (latest first), the
    sessions closed, the clock readings and random draws taken, and the
    delays slept (latest first). *)
Record IO : Type := mkIO {
  wire : list Request;
  closes : nat;
  ticks : nat;
  draws : nat;
  sleeps : list Q
}.

Definition io0 : IO :=
  {| wire := []; closes := 0; ticks := 0; draws := 0; sleeps := [] |}.

(** The record of one more effect of each kind. *)
Definition ticked (i : IO) : IO :=
  {| wire := wire i; closes := closes i; ticks := Datatypes.S (ticks i);
     draws := draws i; sleeps := sleeps i |}.

Definition drawn (i : IO) : IO :=
  {| wire := wire i; closes := closes i; ticks := ticks i;
     draws := Datatypes.S (draws i); sleeps := sleeps i |}.

Definition slept (delay : Q) (i : IO) : IO :=
  {| wire := wire i; closes := closes i; ticks := ticks i;
     draws := draws i; sleeps := delay :: sleeps i |}.

Definition sent (r : Request) (i : IO) : IO :=
  {| wire := r :: wire i; closes := closes i; ticks := ticks i;
     draws := draws i; sleeps := sleeps i |}.

Definition closed_session (i : IO) : IO :=
  {| wire := wire i; closes := Datatypes.S (closes i); ticks := ticks i;
     draws := draws i; sleeps := sleeps i |}.

(** A computation over the mutable state [S]. *)
Definition M (S A : Type) : Type := S * IO -> Res A * (S * IO).

Section Monad.
Context {S : Type}.

Definition ret {A} (a : A) : M S A := fun s => (Ret a, s).

Definition raise {A} (e : ExnClass) : M S A := fun s => (Raise e, s).

Definition bind {A B} (m : M S A) (k : A -> M S B) : M S B :=
  fun s =>
    match m s with
    | (Ret a, s') => k a s'
    | (Raise e, s') => (Raise e, s')
    end.

(** [try: body except Exception as e: handler(e)]. *)
Definition try_except {A} (body : M S A) (handler : ExnClass -> M S A)
  : M S A :=
  fun s =>
    match body s with
    | (Ret a, s') => (Ret a, s')
    | (Raise e, s') => handler e s'
    end.

(** The outcome of [m] as a value: what a [try] statement sees of
    its block before it chooses a handler. *)
Definition outcome {A} (m : M S A) : M S (Res A) :=
  fun s => (Ret (fst (m s)), snd (m s)).

Definition get : M S S := fun s => (Ret (fst s), s).

Definition modify (f : S -> S) : M S unit :=
  fun s => (Ret tt, (f (fst s), snd s)).

Section WithEnv.
Variable E : Env.

(** [time.time()]. *)
Definition time_time : M S Z :=
  fun s => (Ret (clock E (ticks (snd s))), (fst s, ticked (snd s))).

(** [random.random()]. *)
Definition random_random : M S Q :=
  fun s => (Ret (random E (draws (snd s))), (fst s, drawn (snd s))).

(** [await asyncio.sleep(delay)]. *)
Definition sleep (delay : Q) : M S unit :=
  fun s => (Ret tt, (fst s, slept delay (snd s))).

(** One request on the wire: [await session.get(...)] and the
    like. *)
Definition send (r : Request) : M S Response :=
  fun s => (net E (length (wire (snd s))), (fst s, sent r (snd s))).

(** [await session.aclose()]. *)
Definition session_aclose : M S unit :=
  fun s =>
    (match aclose E (closes (snd s)) with
     | Some e => Raise e
     | None => Ret tt
     end,
     (fst s, closed_session (snd s))).
End WithEnv.
End Monad.

(** [respects R m]: whatever [m] does and however it ends, the state it
    leaves is related by [R] to the state it started from. *)
Definition respects {S A : Type} (R : S -> S -> Prop) (m : M S A) : Prop :=
  forall s r s', m s = (r, s') -> R (fst s) (fst s').

(** The result and the final state of a run. *)
Definition result_of {S A : Type} (r : Res A * (S * IO)) : Res A := fst r.
Definition state_of {S A : Type} (r : Res A * (S * IO)) : S := fst (snd r).
Definition io_of {S A : Type} (r : Res A * (S * IO)) : IO := snd (snd r).

Declare Scope eff_scope.
Delimit Scope eff_scope with eff.
Notation "x <- m ;; k" := (bind m (fun x => k))
  (at level 100, m at next level, right associativity) : eff_scope.
Notation "m ;; k" := (bind m (fun _ => k))
  (at level 100, right associativity) : eff_scope.

End Effects.
Export Effects.
Local Open Scope eff_scope.

(** ** The retry decorator *)

Module Executor.

Section RetryAsync.
Context {S A : Type}.
Variable E : Env.
Variable config : RetryConfig.
Variable func : M S A.

(** The delay before the next attempt, with its jitter draw. *)
Definition next_delay (attempt : Z) : M S Q :=
  if draws_jitter attempt config
  then (r <- random_random E ;; ret (_calculate_delay attempt config r))
  else ret (_calculate_delay attempt config 0%Q).

(** The [for attempt in range(config.max_attempts)] loop of the
    wrapper, with [n] iterations left, followed by the code after the
    loop.  The wrapper returns what [func] returns, or [None] when the
    loop ends without an exception recorded. *)
Fixpoint retry_loop (n : nat) (attempt : Z) (last_exception : option ExnClass)
  : M S (option A) :=
  match n with
  | O =>
      match last_exception with
      | Some e => raise e
      | None => ret None
      end
  | Datatypes.S n' =>
      try_except
        (a <- func ;; ret (Some a))
        (fun e =>
           if isinstance e (retry_on_exceptions config) then
             if attempt =? max_attempts config - 1 then
               (* break; last_exception is set, so it is raised *)
               raise e
             else
               (delay <- next_delay attempt ;;
                sleep delay ;;
                retry_loop n' (attempt + 1) (Some e))
           else
             raise e)
  end.

(** [retry_async(config)(func)]. *)
Definition retry_async : M S (option A) :=
  retry_loop (Z.to_nat (max_attempts config)) 0 None.

(** [func] with a count of its runs kept beside the state. *)
Definition counted : M (S * nat) A :=
  fun s =>
    let r := func (fst (fst s), snd s) in
    (fst r, ((fst (snd r), Datatypes.S (snd (fst s))), snd (snd r))).
End RetryAsync.

End Executor.
Export Executor.

(** ** Password encryption for the SSO form: [_encrypt_password] *)

Module Crypto.

Import Byte.

(** [bytes] objects. *)
Definition bytes : Type := list byte.

(** [s.encode("utf-8")]. *)
Definition encode_utf8 (s : string) : bytes := list_byte_of_string s.

(** The DES block primitive of the cipher library: encryption and
    decryption of one 8-byte block under an 8-byte key. *)
Class BlockCipher : Type := {
  encrypt_block : bytes -> bytes -> bytes;
  decrypt_block : bytes -> bytes -> bytes
}.

(** [symmetric_padding.PKCS7(64)]: pad to the next multiple of 8 bytes
    with [n] bytes of value [n], a whole block when the List.length is
    already a multiple. *)
Definition pkcs7_pad (data : bytes) : bytes :=
  let n := (8 - (List.length data) mod 8)%nat in
  (data ++ repeat (default x00 (of_N (N.of_nat n))) n)%list.

(** The blocks of 8 bytes of [data], in order; [fuel] bounds their
    number. *)
Fixpoint blocks (fuel : nat) (data : bytes) : list bytes :=
  match fuel with
  | O => []
  | Datatypes.S fuel' =>
      match data with
      | [] => []
      | _ => firstn 8 data :: blocks fuel' (skipn 8 data)
      end
  end.

(** [modes.ECB()]: every block is encrypted on its own. *)
Definition ecb (f : bytes -> bytes) (data : bytes) : bytes :=
  concat (map f (blocks (List.length data) data)).

(** [b64encode]. *)
Definition b64_alphabet : string :=
  "ABCDEFGHIJKLMNOPQRSTUVWXYZabcdefghijklmnopqrstuvwxyz0123456789+/".

Definition b64_digit (n : N) : ascii :=
  default "="%char (String.get (N.to_nat n) b64_alphabet).

Fixpoint b64encode (data : bytes) : string :=
  match data with
  | [] => ""
  | [a] =>
      let x := to_N a in
      String (b64_digit (x / 4))
        (String (b64_digit ((x mod 4) * 16)) "==")
  | [a; b] =>
      let x := to_N a in
      let y := to_N b in
      String (b64_digit (x / 4))
        (String (b64_digit ((x mod 4) * 16 + y / 16))
           (String (b64_digit ((y mod 16) * 4)) "="))
  | a :: b :: c :: rest =>
      let x := to_N a in
      let y := to_N b in
      let z := to_N c in
      String (b64_digit (x / 4))
        (String (b64_digit ((x mod 4) * 16 + y / 16))
           (String (b64_digit ((y mod 16) * 4 + z / 64))
              (String (b64_digit (z mod 64)) (b64encode rest))))
  end%N.

Section WithCipher.
Context `{BlockCipher}.

(** [algorithms.TripleDES(key)] keeps a 24-byte key: an 8-byte key is
    repeated three times and a 16-byte key is followed by its first
    half. *)
Definition TripleDES_key (key : bytes) : bytes :=
  if (List.length key =? 8)%nat then (key ++ key ++ key)%list
  else if (List.length key =? 16)%nat then (key ++ firstn 8 key)%list
  else key.

(** Triple DES on one block: encrypt under the first key, decrypt
    under the second, encrypt under the third. *)
Definition TripleDES_encrypt_block (key24 block : bytes) : bytes :=
  let k1 := firstn 8 key24 in
  let k2 := firstn 8 (skipn 8 key24) in
  let k3 := firstn 8 (skipn 16 key24) in
  encrypt_block k3 (decrypt_block k2 (encrypt_block k1 block)).

(** The 8 key bytes taken from the [lt] token. *)
Definition key_bytes_of (key : string) : bytes :=
  let key_bytes := firstn 8 (encode_utf8 key) in
  if (List.length key_bytes <? 8)%nat
  then (key_bytes ++ repeat x00 (8 - List.length key_bytes))%list
  else key_bytes.

(** [AUFEConnection._encrypt_password(password, key)]. *)
Definition _encrypt_password (password key : string) : string :=
  let key_bytes := key_bytes_of key in
  let password_bytes := encode_utf8 password in
  let padded_data := pkcs7_pad password_bytes in
  let encrypted :=
    ecb (TripleDES_encrypt_block (TripleDES_key key_bytes)) padded_data in
  b64encode encrypted.

(** The encryption as the specification words it: single DES in ECB
    mode over the PKCS7-padded UTF-8 password, keyed by the first 8
    bytes of [lt] zero-padded on the right, base64-encoded. *)
Definition des_ecb_reference (password lt : string) : string :=
  let key8 := firstn 8 (encode_utf8 lt ++ repeat x00 8)%list in
  b64encode (ecb (encrypt_block key8) (pkcs7_pad (encode_utf8 password))).
End WithCipher.

End Crypto.
Export Crypto.

(** ** Text matching on response bodies *)

Module Text.

Definition newline : ascii := "010"%char.

(** [needle in s]. *)
Fixpoint contains (needle s : string) : bool :=
  String.prefix needle s
  || match s with
     | EmptyString => false
     | String _ s' => contains needle s'
     end.

(** [s[n:]]. *)
Fixpoint drop (n : nat) (s : string) : string :=
  match n, s with
  | O, _ => s
  | Datatypes.S n', String _ s' => drop n' s'
  | Datatypes.S _, EmptyString => EmptyString
  end.

(** What the greedy any-character group captures at the start of [s]
    when [closer] must follow it: the
    longest run of characters other than a newline that is followed by
    [closer], if there is one. *)
Fixpoint greedy_until (closer s : string) : option string :=
  match s with
  | EmptyString => if String.prefix closer s then Some EmptyString else None
  | String c s' =>
      match (if Ascii.eqb c newline then None else greedy_until closer s') with
      | Some p => Some (String c p)
      | None => if String.prefix closer s then Some EmptyString else None
      end
  end.

(** [re.search] for [opener], a greedy any-character group and
    [closer], and the [group(1)] of its match: the leftmost position
    where [opener] starts a match. *)
Fixpoint re_search_between (opener closer s : string) : option string :=
  match (if String.prefix opener s
         then greedy_until closer (drop (String.length opener) s)
         else None) with
  | Some g => Some g
  | None =>
      match s with
      | EmptyString => None
      | String _ s' => re_search_between opener closer s'
      end
  end.

(** [re.search] for the element [tag] with a greedy any-character
    group as its content. *)
Definition re_search_tag (tag content : string) : option string :=
  re_search_between ("<" ++ tag ++ ">") ("</" ++ tag ++ ">") content.

Definition RESULT_OK : string := "<Result>1</Result>".

End Text.
Export Text.

(** ** The connection: [class AUFEConnection] *)

Module Conn.

(** The values of the configuration file the engine reads
    ([AUFEConfig]). *)
Record Settings : Type := mkSettings {
  MAX_RETRIES : Z;
  ACTIVITY_TIMEOUT : Z;
  RETRY_BASE_DELAY : Q;
  RETRY_MAX_DELAY : Q;
  RETRY_EXPONENTIAL_BASE : Q;
  UAAP_LOGIN_URL : string
}.

(** [RetryConfig()] with the defaults of the dataclass. *)
Definition default_retry_config (cfg : Settings) : RetryConfig :=
  {| max_attempts := MAX_RETRIES cfg;
     strategy := EXPONENTIAL_BACKOFF;
     base_delay := RETRY_BASE_DELAY cfg;
     max_delay := RETRY_MAX_DELAY cfg;
     exponential_base := RETRY_EXPONENTIAL_BASE cfg;
     jitter := true;
     retry_on_exceptions :=
       [AUFEConnectionError; AUFETimeoutError; RequestError] |}.

(** What the engine uses of its libraries besides the DES primitive.
    - [rsa_encrypt_hex exp key plain]: the hex text of the PKCS#1 v1.5
      encryption of [plain] under the public key parsed from the decimal
      exponent and the hexadecimal modulus; [None] when parsing, key
      construction or encryption raises.
    - [find_input name html]: [soup.find("input", {"name": name})] on
      the parsed page, [None] when there is no such element, and
      otherwise the element's [value] attribute, if it has one.
    - [decode text]: [model.parse_obj(response.json())], [None] when
      either step raises.
    - [kwargs_hash kwargs]: the text of [hash(str(kwargs))]. *)
Class Portal (Model : Type) : Type := {
  rsa_encrypt_hex : string -> string -> string -> option string;
  find_input : string -> string -> option (option string);
  decode : string -> option Model;
  kwargs_hash : string -> string
}.

Record Connection (Model : Type) : Type := mkConnection {
  server_url : string;
  retry_config : RetryConfig;
  (* the httpx client in use, by the number of clients created so far *)
  session : nat;
  twf_id : option string;
  _logged_in : bool;
  student_id : option string;
  last_activity : Z;
  _is_closed : bool;
  _health : ConnectionHealth;
  (* cache key -> (response, timestamp) *)
  _request_cache : gmap string (Model * Z);
  _cache_ttl : Z;
  uaap_login_url : string;
  uaap_cookies : option (gmap string string);
  _uaap_logged_in : bool
}.
Arguments mkConnection {Model}.
Arguments server_url {Model} c.
Arguments retry_config {Model} c.
Arguments session {Model} c.
Arguments twf_id {Model} c.
Arguments _logged_in {Model} c.
Arguments student_id {Model} c.
Arguments last_activity {Model} c.
Arguments _is_closed {Model} c.
Arguments _health {Model} c.
Arguments _request_cache {Model} c.
Arguments _cache_ttl {Model} c.
Arguments uaap_login_url {Model} c.
Arguments uaap_cookies {Model} c.
Arguments _uaap_logged_in {Model} c.

Section Fields.
Context {Model : Type}.
Definition set_session v (c : Connection Model) : Connection Model :=
  mkConnection (server_url c) (retry_config c) v (twf_id c) (_logged_in c)
    (student_id c) (last_activity c) (_is_closed c) (_health c)
    (_request_cache c) (_cache_ttl c) (uaap_login_url c) (uaap_cookies c)
    (_uaap_logged_in c).
Definition set_twf_id v (c : Connection Model) : Connection Model :=
  mkConnection (server_url c) (retry_config c) (session c) v (_logged_in c)
    (student_id c) (last_activity c) (_is_closed c) (_health c)
    (_request_cache c) (_cache_ttl c) (uaap_login_url c) (uaap_cookies c)
    (_uaap_logged_in c).
Definition set_logged_in v (c : Connection Model) : Connection Model :=
  mkConnection (server_url c) (retry_config c) (session c) (twf_id c) v
    (student_id c) (last_activity c) (_is_closed c) (_health c)
    (_request_cache c) (_cache_ttl c) (uaap_login_url c) (uaap_cookies c)
    (_uaap_logged_in c).
Definition set_last_activity v (c : Connection Model) : Connection Model :=
  mkConnection (server_url c) (retry_config c) (session c) (twf_id c)
    (_logged_in c) (student_id c) v (_is_closed c) (_health c)
    (_request_cache c) (_cache_ttl c) (uaap_login_url c) (uaap_cookies c)
    (_uaap_logged_in c).
Definition set_is_closed v (c : Connection Model) : Connection Model :=
  mkConnection (server_url c) (retry_config c) (session c) (twf_id c)
    (_logged_in c) (student_id c) (last_activity c) v (_health c)
    (_request_cache c) (_cache_ttl c) (uaap_login_url c) (uaap_cookies c)
    (_uaap_logged_in c).
Definition set_health v (c : Connection Model) : Connection Model :=
  mkConnection (server_url c) (retry_config c) (session c) (twf_id c)
    (_logged_in c) (student_id c) (last_activity c) (_is_closed c) v
    (_request_cache c) (_cache_ttl c) (uaap_login_url c) (uaap_cookies c)
    (_uaap_logged_in c).
Definition set_request_cache v (c : Connection Model) : Connection Model :=
  mkConnection (server_url c) (retry_config c) (session c) (twf_id c)
    (_logged_in c) (student_id c) (last_activity c) (_is_closed c)
    (_health c) v (_cache_ttl c) (uaap_login_url c) (uaap_cookies c)
    (_uaap_logged_in c).
Definition set_uaap_cookies v (c : Connection Model) : Connection Model :=
  mkConnection (server_url c) (retry_config c) (session c) (twf_id c)
    (_logged_in c) (student_id c) (last_activity c) (_is_closed c)
    (_health c) (_request_cache c) (_cache_ttl c) (uaap_login_url c) v
    (_uaap_logged_in c).
Definition set_uaap_logged_in v (c : Connection Model) : Connection Model :=
  mkConnection (server_url c) (retry_config c) (session c) (twf_id c)
    (_logged_in c) (student_id c) (last_activity c) (_is_closed c)
    (_health c) (_request_cache c) (_cache_ttl c) (uaap_login_url c)
    (uaap_cookies c) v.

(** [AUFEConnection.__init__] without its registration in the pool:
    the fields of a new connection; [t_health] and [t_activity] are
    the two clock readings it takes. *)
Definition new_connection (cfg : Settings) (server : string)
    (sid : option string) (rc : option RetryConfig)
    (t_health t_activity : Z) : Connection Model :=
  {| server_url := "https://" ++ server;
     retry_config := default (default_retry_config cfg) rc;
     session := 0;
     twf_id := None;
     _logged_in := false;
     student_id := sid;
     last_activity := t_activity;
     _is_closed := false;
     _health := Health.init t_health;
     _request_cache := ∅;
     _cache_ttl := 300;
     uaap_login_url := UAAP_LOGIN_URL cfg;
     uaap_cookies := None;
     _uaap_logged_in := false |}.
End Fields.

(** The operations that callers and the monitor run on a connection. *)
Inductive Call : Type :=
| CallLogin (username password : string)
| CallUaapLogin (username password : string)
| CallModelRequest (url method : string) (use_cache force_reconnect : bool)
    (kwargs : string)
| CallReconnect
| CallHealthCheck
| CallLoginStatus
| CallUaapLoginStatus.

Section Operations.
Context {Model : Type} `{Portal Model} `{BlockCipher}.
Variable E : Env.
Variable cfg : Settings.

Local Abbreviation Op := (M (Connection Model)).

Definition _update_activity : Op unit :=
  now <- time_time E ;; modify (set_last_activity now).

(** [self._health.mark_error(error)]. *)
Definition health_mark_error (error : ExnClass) : Op unit :=
  now <- time_time E ;;
  modify (fun c => set_health (mark_error error now (_health c)) c).

(** [self._health.mark_healthy()]. *)
Definition health_mark_healthy : Op unit :=
  now <- time_time E ;;
  modify (fun c => set_health (mark_healthy now (_health c)) c).

(** The [@activity_tracker] decorator. *)
Definition activity_tracker {A} (func : Op A) : Op A :=
  _update_activity ;; func.

(** *** VPN login *)

(** The exponent text, the CSRF code and the text to encrypt that
    [login] reads off the first response. *)
Definition rsa_exp_of (content : string) : string :=
  default "65537" (re_search_tag "RSA_ENCRYPT_EXP" content).

Definition csrf_code_of (content : string) : string :=
  default "" (re_search_tag "CSRF_RAND_CODE" content).

Definition password_to_encrypt_of (password content : string) : string :=
  match re_search_tag "CSRF_RAND_CODE" content with
  | Some csrf_code => password ++ "_" ++ csrf_code
  | None => password
  end.

(** The body of [login], the function the decorators wrap. *)
Definition login_body (username password : string) : Op bool :=
  try_except
    (c <- get ;;
     resp <- send E (mkRequest "GET"
               (server_url c ++ "/por/login_auth.csp?apiversion=1") [] [] "") ;;
     let content := text resp in
     match re_search_tag "TwfID" content with
     | None => ret false
     | Some twfid =>
         modify (set_twf_id (Some twfid)) ;;
         match re_search_tag "RSA_ENCRYPT_KEY" content with
         | None => ret false
         | Some rsa_key =>
             let rsa_exp := rsa_exp_of content in
             let csrf_code := csrf_code_of content in
             let password_to_encrypt :=
               password_to_encrypt_of password content in
             match rsa_encrypt_hex rsa_exp rsa_key password_to_encrypt with
             | None => raise Exception_
             | Some encrypted_password_hex =>
                 let form_data :=
                   [("svpn_rand_code", ""); ("mitm", "");
                    ("svpn_req_randcode", csrf_code);
                    ("svpn_name", username);
                    ("svpn_password", encrypted_password_hex)] in
                 resp <- send E (mkRequest "POST"
                   (server_url c
                    ++ "/por/login_psw.csp?anti_replay=1&encrypt=1&type=cs")
                   form_data [("TWFID", twfid)] "") ;;
                 if contains RESULT_OK (text resp)
                 then (modify (set_logged_in true) ;; ret true)
                 else (modify (set_logged_in false) ;; ret false)
             end
         end
     end)
    (fun e =>
       if issubclass e RequestError then
         (modify (set_logged_in false) ;;
          health_mark_error e ;;
          raise AUFEConnectionError)
       else
         (modify (set_logged_in false) ;;
          health_mark_error e ;;
          raise AUFELoginError)).

(** [login] as decorated: [@activity_tracker] over [@retry_async()]. *)
Definition login (username password : string) : Op (option bool) :=
  activity_tracker
    (retry_async E (default_retry_config cfg) (login_body username password)).

Definition login_status : Op bool :=
  activity_tracker
    (c <- get ;; ret (_logged_in c && is_healthy (_health c))).

(** *** SSO login *)

Definition uaap_login_body (username password : string) : Op bool :=
  try_except
    (c <- get ;;
     response <- send E (mkRequest "GET" (uaap_login_url c) [] [] "") ;;
     if negb (status_code response =? 200) then ret false
     else
       match find_input "lt" (text response) with
       | None => ret false
       | Some lt_value =>
           match find_input "execution" (text response) with
           | None => ret false
           | Some execution_value =>
               match lt_value with
               | None =>
                   (* [None] has no [encode] *)
                   raise Exception_
               | Some lt =>
                   let encrypted_password := _encrypt_password password lt in
                   let login_data :=
                     [("username", username);
                      ("password", encrypted_password);
                      ("lt", lt);
                      ("execution", default "" execution_value);
                      ("_eventId", "submit");
                      ("isQrSubmit", "false");
                      ("qrValue", "");
                      ("isMobileLogin", "false")] in
                   login_response <- send E (mkRequest "POST"
                     (uaap_login_url c) login_data [] "") ;;
                   if status_code login_response =? 302 then
                     let redirect_location :=
                       default "" (headers login_response !! "Location") in
                     if negb (String.eqb redirect_location "") then
                       (modify (set_uaap_cookies
                                  (Some (cookies login_response))) ;;
                        modify (set_uaap_logged_in true) ;;
                        ret true)
                     else ret false
                   else ret false
               end
           end
       end)
    (fun e =>
       if issubclass e RequestError then
         (health_mark_error e ;; raise AUFEConnectionError)
       else
         (health_mark_error e ;; raise AUFELoginError)).

Definition uaap_login (username password : string) : Op (option bool) :=
  activity_tracker
    (retry_async E (default_retry_config cfg)
       (uaap_login_body username password)).

Definition uaap_login_status : Op bool :=
  activity_tracker
    (c <- get ;; ret (_uaap_logged_in c && is_healthy (_health c))).

(** *** Response cache *)

Definition _clear_cache : Op unit :=
  current_time <- time_time E ;;
  modify (fun c =>
    set_request_cache
      (filter (fun kv => ¬ (current_time - snd (snd kv) > _cache_ttl c))
              (_request_cache c)) c).

Definition _get_cached_response (url : string) : Op (option Model) :=
  c <- get ;;
  match _request_cache c !! url with
  | Some (response, timestamp) =>
      now <- time_time E ;;
      if now - timestamp <? _cache_ttl c then ret (Some response)
      else (modify (set_request_cache (delete url (_request_cache c))) ;;
            ret None)
  | None => ret None
  end.

Definition _cache_response (url : string) (response : Model) : Op unit :=
  now <- time_time E ;;
  modify (fun c =>
    set_request_cache (<[url := (response, now)]> (_request_cache c)) c) ;;
  c <- get ;;
  if Z.of_nat (size (_request_cache c)) mod 10 =? 0
  then _clear_cache
  else ret tt.

(** *** Typed requests *)

(** [_send_http_request]: [requester()] is activity-tracked and puts
    the session token, if there is one, in the cookies of the session;
    then the request goes on the wire whatever the method. *)
Definition _send_http_request (method url kwargs : string) : Op Response :=
  _update_activity ;;
  c <- get ;;
  let session_cookies :=
    match twf_id c with
    | Some twfid => if String.eqb twfid "" then [] else [("TWFID", twfid)]
    | None => []
    end in
  send E (mkRequest method url [] session_cookies kwargs).

Definition _reconnect : Op unit :=
  try_except
    (session_aclose E ;;
     modify (fun c => set_session (Datatypes.S (session c)) c) ;;
     modify (set_logged_in false) ;;
     modify (set_uaap_logged_in false) ;;
     modify (set_twf_id None) ;;
     modify (set_uaap_cookies None) ;;
     health_mark_healthy)
    (fun e => raise AUFEConnectionError).

Definition _send_model_request_final_attempt (url method kwargs : string)
  : Op (option Model) :=
  try_except
    (response <- _send_http_request method url kwargs ;;
     if status_code response =? 200 then
       match decode (text response) with
       | Some parsed_model => health_mark_healthy ;; ret (Some parsed_model)
       | None => raise Exception_
       end
     else
       (health_mark_error AUFEConnectionError ;; raise AUFEConnectionError))
    (fun e => health_mark_error AUFEConnectionError ;;
              raise AUFEConnectionError).

(** What follows the retry loop of [_send_model_request_with_retry]. *)
Definition after_retries (url method kwargs : string)
    (last_exception : option ExnClass) : Op (option Model) :=
  c <- get ;;
  if should_reconnect (_health c) then
    (_reconnect ;; _send_model_request_final_attempt url method kwargs)
  else
    match last_exception with
    | Some e => raise e
    | None => ret None
    end.

(** One attempt of the loop of [_send_model_request_with_retry], up
    to the point where its three failure branches mark the error: the
    parsed model, or the error of a failure that may be retried; an
    exception that is not a request error is raised as it is. *)
Definition attempt_once (url method kwargs : string)
  : Op (Model + ExnClass) :=
  sent <- outcome (_send_http_request method url kwargs) ;;
  match sent with
  | Ret response =>
      if status_code response =? 200 then
        match decode (text response) with
        | Some parsed_model => health_mark_healthy ;; ret (inl parsed_model)
        | None => ret (inr AUFEParseError)
        end
      else ret (inr AUFEConnectionError)
  | Raise e =>
      if issubclass e RequestError
      then ret (inr AUFEConnectionError)
      else raise e
  end.

(** The loop of [_send_model_request_with_retry] with [n] iterations
    left, then [after_retries].  A failed attempt marks the error,
    remembers it, and breaks out on the last attempt or sleeps and
    goes on. *)
Fixpoint model_retry_loop (url method kwargs : string) (config : RetryConfig)
    (n : nat) (attempt : Z) (last_exception : option ExnClass)
  : Op (option Model) :=
  match n with
  | O => after_retries url method kwargs last_exception
  | Datatypes.S n' =>
      r <- attempt_once url method kwargs ;;
      match r with
      | inl parsed_model => ret (Some parsed_model)
      | inr error =>
          health_mark_error error ;;
          if attempt =? max_attempts config - 1 then
            after_retries url method kwargs (Some error)
          else
            (delay <- next_delay E config attempt ;;
             sleep delay ;;
             model_retry_loop url method kwargs config n' (attempt + 1)
               (Some error))
      end
  end.

Definition _send_model_request_with_retry (url method kwargs : string)
  : Op (option Model) :=
  c <- get ;;
  let config := retry_config c in
  model_retry_loop url method kwargs config
    (Z.to_nat (max_attempts config)) 0 None.

Definition model_request (url method : string)
    (use_cache force_reconnect : bool) (kwargs : string)
  : Op (option Model) :=
  activity_tracker
    (let cache_key := method ++ ":" ++ url ++ ":" ++ kwargs_hash kwargs in
     cached_result <-
       (if use_cache then _get_cached_response cache_key else ret None) ;;
     match cached_result with
     | Some r => ret (Some r)
     | None =>
         c <- get ;;
         (if force_reconnect || should_reconnect (_health c)
          then _reconnect else ret tt) ;;
         try_except
           (result <- _send_model_request_with_retry url method kwargs ;;
            match result with
            | Some r =>
                (if use_cache then _cache_response cache_key r else ret tt) ;;
                ret result
            | None => ret result
            end)
           (fun e => ret None)
     end).

(** *** The monitor's probe and [close] *)

Definition _health_check : Op unit :=
  try_except
    (c <- get ;;
     if _logged_in c then
       (response <- send E (mkRequest "GET"
                      (server_url c ++ "/por/index.csp") [] [] "") ;;
        if status_code response =? 200 then health_mark_healthy
        else health_mark_error AUFEConnectionError)
     else ret tt)
    (fun e => health_mark_error e).

(** [is_active()], at clock reading [now]. *)
Definition is_active (now : Z) (c : Connection Model) : bool :=
  negb (_is_closed c)
  && (now - last_activity c <? ACTIVITY_TIMEOUT cfg)
  && is_healthy (_health c).

(** *** What makes a typed request fail *)



(** The entry of the cache that is valid at clock reading [now]. *)
Definition cached_response_at (now : Z) (url : string)
    (c : Connection Model) : option Model :=
  match _request_cache c !! url with
  | Some (response, timestamp) =>
      if now - timestamp <? _cache_ttl c then Some response else None
  | None => None
  end.

(** *** The states a connection can reach *)

Definition run_call (call : Call) : Op unit :=
  match call with
  | CallLogin username password => login username password ;; ret tt
  | CallUaapLogin username password => uaap_login username password ;; ret tt
  | CallModelRequest url method use_cache force_reconnect kwargs =>
      model_request url method use_cache force_reconnect kwargs ;; ret tt
  | CallReconnect => _reconnect
  | CallHealthCheck => _health_check
  | CallLoginStatus => login_status ;; ret tt
  | CallUaapLoginStatus => uaap_login_status ;; ret tt
  end.

(** The states reached from a new connection by calls that [allowed]
    admits in the state they start from; a call that raises leaves
    the state it raised in. *)
Inductive reachable (allowed : Call -> Connection Model -> bool)
  : Connection Model * IO -> Prop :=
| reachable_new server sid rc t_health t_activity io :
    reachable allowed
      (new_connection cfg server sid rc t_health t_activity, io)
| reachable_step s call :
    reachable allowed s ->
    allowed call (fst s) = true ->
    reachable allowed (snd (run_call call s)).
End Operations.

Section Discipline.
Context {Model : Type}.

Definition any_call (call : Call) (c : Connection Model) : bool := true.

(** The order the callers follow: the SSO login is run on a connection
    whose VPN flag is set, and the VPN login on one whose SSO flag is
    clear. *)
Definition in_login_order (call : Call) (c : Connection Model) : bool :=
  match call with
  | CallLogin _ _ => negb (_uaap_logged_in c)
  | CallUaapLogin _ _ => _logged_in c
  | _ => true
  end.

(** The VPN flag, respectively the SSO flag, is as it was. *)
Definition keeps_vpn (c c' : Connection Model) : Prop :=
  _logged_in c' = _logged_in c.

Definition keeps_sso (c c' : Connection Model) : Prop :=
  _uaap_logged_in c' = _uaap_logged_in c.

(** The answer the SSO login takes for success: status 302 with a
    [Location] header that is not empty. *)
Definition redirected_302 (resp : Response) : bool :=
  (status_code resp =? 302)
  && negb (String.eqb (default "" (headers resp !! "Location")) "").

(** A redirect of the 3xx class that carries a [Location] header. *)
Definition redirect_with_location (resp : Response) : bool :=
  (300 <=? status_code resp) && (status_code resp <? 400)
  && bool_decide (is_Some (headers resp !! "Location")).

(** A clear VPN flag is still clear. *)
Definition stays_logged_out (c c' : Connection Model) : Prop :=
  _logged_in c = false -> _logged_in c' = false.

Definition sso_implies_vpn (c : Connection Model) : Prop :=
  _uaap_logged_in c = true -> _logged_in c = true.

(** Both login flags are as they were. *)
Definition same_flags (c c' : Connection Model) : Prop :=
  _logged_in c' = _logged_in c /\ _uaap_logged_in c' = _uaap_logged_in c.

(** Both login flags are as they were, or both are clear. *)
Definition same_or_reset (c c' : Connection Model) : Prop :=
  same_flags c c' \/ (_logged_in c' = false /\ _uaap_logged_in c' = false).
End Discipline.

End Conn.
Export Conn.

(** ** The connection pool: [_aufe_connections] and the class methods *)

Module Pool.

(** The objects of the process.  Connections live in a heap and are
    named by their address, so that two names are the same instance
    exactly when they are equal; [_aufe_connections] maps a student id
    to an instance; [tasks] are the [close()] coroutines handed to
    [asyncio.create_task] that have not run yet, oldest first. *)
Record World (Model : Type) : Type := mkWorld {
  heap : gmap nat (Connection Model);
  next_id : nat;
  _aufe_connections : gmap string nat;
  tasks : list nat
}.
Arguments mkWorld {Model}.
Arguments heap {Model} w.
Arguments next_id {Model} w.
Arguments _aufe_connections {Model} w.
Arguments tasks {Model} w.

Section Operations.
Context {Model : Type}.
Variable E : Env.
Variable cfg : Settings.

Local Abbreviation Op := (M (World Model)).

Definition set_heap (h : gmap nat (Connection Model)) (w : World Model)
  : World Model :=
  mkWorld h (next_id w) (_aufe_connections w) (tasks w).

Definition set_pool (p : gmap string nat) (w : World Model) : World Model :=
  mkWorld (heap w) (next_id w) p (tasks w).

(** The world in which only the activity time of the instance at [l]
    has changed, to [now]. *)
Definition touched (l : nat) (now : Z) (w : World Model) : World Model :=
  set_heap (alter (set_last_activity now) l (heap w)) w.

(** The instance at address [l]. *)
Definition deref (l : nat) : Op (Connection Model) :=
  w <- get ;;
  match heap w !! l with
  | Some c => ret c
  | None => raise Exception_
  end.

(** An assignment to a field of the instance at [l]. *)
Definition update (l : nat) (f : Connection Model -> Connection Model)
  : Op unit :=
  modify (fun w => set_heap (alter f l (heap w)) w).

(** [conn.is_active()]: the clock is read only when the connection is
    not closed. *)
Definition is_active_at (l : nat) : Op bool :=
  c <- deref l ;;
  if _is_closed c then ret false
  else (now <- time_time E ;; ret (is_active cfg now c)).

(** [conn._update_activity()]. *)
Definition _update_activity_at (l : nat) : Op unit :=
  now <- time_time E ;; update l (set_last_activity now).

(** [AUFEConnection(server, student_id, timeout, retry_config)]: a new
    instance, registered under its student id when that is not
    empty.  The monitor task the constructor starts is not part of
    the world; what it does to a connection is a call on it. *)
Definition construct (server student_id : string) (rc : option RetryConfig)
  : Op nat :=
  t_activity <- time_time E ;;
  t_health <- time_time E ;;
  w <- get ;;
  let l := next_id w in
  modify (fun w =>
    mkWorld
      (<[l := new_connection cfg server (Some student_id) rc
                t_health t_activity]> (heap w))
      (Datatypes.S l)
      (if String.eqb student_id "" then _aufe_connections w
       else <[student_id := l]> (_aufe_connections w))
      (tasks w)) ;;
  ret l.

Definition get_connection_by_student_id (student_id : string)
  : Op (option nat) :=
  w <- get ;; ret (_aufe_connections w !! student_id).

(** [asyncio.create_task(conn.close())]. *)
Definition create_close_task (l : nat) : Op unit :=
  modify (fun w =>
    mkWorld (heap w) (next_id w) (_aufe_connections w) (tasks w ++ [l])%list).

Definition create_or_get_connection (server student_id : string)
    (rc : option RetryConfig) : Op nat :=
  existing_conn <- get_connection_by_student_id student_id ;;
  match existing_conn with
  | Some l =>
      active <- is_active_at l ;;
      if active then (_update_activity_at l ;; ret l)
      else (create_close_task l ;; construct server student_id rc)
  | None => construct server student_id rc
  end.

(** [await conn.close()], run to its end. *)
Definition close (l : nat) : Op unit :=
  c <- deref l ;;
  if _is_closed c then ret tt
  else
    (update l (set_is_closed true) ;;
     modify (fun w =>
       match student_id c with
       | Some sid =>
           if negb (String.eqb sid "")
              && bool_decide (is_Some (_aufe_connections w !! sid))
           then set_pool (delete sid (_aufe_connections w)) w
           else w
       | None => w
       end) ;;
     session_aclose E).

(** The event loop runs the oldest pending task. *)
Definition run_task : Op unit :=
  w <- get ;;
  match tasks w with
  | [] => ret tt
  | l :: rest =>
      modify (fun w =>
        mkWorld (heap w) (next_id w) (_aufe_connections w) rest) ;;
      close l
  end.

(** Every registered name is the address of an instance. *)
Definition registered_alive (w : World Model) : Prop :=
  forall sid l, _aufe_connections w !! sid = Some l -> is_Some (heap w !! l).
End Operations.

Definition empty_world {Model : Type} : World Model :=
  mkWorld ∅ 0%nat ∅ [].

End Pool.

(** ** The DES block cipher (FIPS 46-3), the primitive behind the
    cipher library's [TripleDES] *)

Module DES.

Import Byte.

Definition bits : Type := list bool.

(** The bits of a byte, most significant first. *)
Definition byte_bits (b : byte) : bits :=
  let '(b0, (b1, (b2, (b3, (b4, (b5, (b6, b7))))))) := to_bits b in
  [b7; b6; b5; b4; b3; b2; b1; b0].

Definition bits_of_bytes (data : bytes) : bits := flat_map byte_bits data.

Fixpoint bytes_of_bits (x : bits) : bytes :=
  match x with
  | b7 :: b6 :: b5 :: b4 :: b3 :: b2 :: b1 :: b0 :: rest =>
      of_bits (b0, (b1, (b2, (b3, (b4, (b5, (b6, b7)))))))
      :: bytes_of_bits rest
  | _ => []
  end.

(** A table lists, for each output bit, the position of the input bit
    it copies, counted from 1. *)
Definition permute (table : list nat) (x : bits) : bits :=
  map (fun i => nth (i - 1) x false) table.

Fixpoint xor_bits (a b : bits) : bits :=
  match a, b with
  | x :: a', y :: b' => xorb x y :: xor_bits a' b'
  | _, _ => []
  end.

Definition rotate_left (n : nat) (x : bits) : bits :=
  (skipn n x ++ firstn n x)%list.

Definition IP : list nat :=
  [58; 50; 42; 34; 26; 18; 10; 2;  60; 52; 44; 36; 28; 20; 12; 4;
   62; 54; 46; 38; 30; 22; 14; 6;  64; 56; 48; 40; 32; 24; 16; 8;
   57; 49; 41; 33; 25; 17; 9; 1;   59; 51; 43; 35; 27; 19; 11; 3;
   61; 53; 45; 37; 29; 21; 13; 5;  63; 55; 47; 39; 31; 23; 15; 7]%nat.

Definition FP : list nat :=
  [40; 8; 48; 16; 56; 24; 64; 32;  39; 7; 47; 15; 55; 23; 63; 31;
   38; 6; 46; 14; 54; 22; 62; 30;  37; 5; 45; 13; 53; 21; 61; 29;
   36; 4; 44; 12; 52; 20; 60; 28;  35; 3; 43; 11; 51; 19; 59; 27;
   34; 2; 42; 10; 50; 18; 58; 26;  33; 1; 41; 9; 49; 17; 57; 25]%nat.

Definition EXPANSION : list nat :=
  [32; 1; 2; 3; 4; 5;        4; 5; 6; 7; 8; 9;
   8; 9; 10; 11; 12; 13;     12; 13; 14; 15; 16; 17;
   16; 17; 18; 19; 20; 21;   20; 21; 22; 23; 24; 25;
   24; 25; 26; 27; 28; 29;   28; 29; 30; 31; 32; 1]%nat.

Definition PBOX : list nat :=
  [16; 7; 20; 21; 29; 12; 28; 17;  1; 15; 23; 26; 5; 18; 31; 10;
   2; 8; 24; 14; 32; 27; 3; 9;     19; 13; 30; 6; 22; 11; 4; 25]%nat.

Definition PC1 : list nat :=
  [57; 49; 41; 33; 25; 17; 9;   1; 58; 50; 42; 34; 26; 18;
   10; 2; 59; 51; 43; 35; 27;   19; 11; 3; 60; 52; 44; 36;
   63; 55; 47; 39; 31; 23; 15;  7; 62; 54; 46; 38; 30; 22;
   14; 6; 61; 53; 45; 37; 29;   21; 13; 5; 28; 20; 12; 4]%nat.

Definition PC2 : list nat :=
  [14; 17; 11; 24; 1; 5;     3; 28; 15; 6; 21; 10;
   23; 19; 12; 4; 26; 8;     16; 7; 27; 20; 13; 2;
   41; 52; 31; 37; 47; 55;   30; 40; 51; 45; 33; 48;
   44; 49; 39; 56; 34; 53;   46; 42; 50; 36; 29; 32]%nat.

Definition SHIFTS : list nat :=
  [1; 1; 2; 2; 2; 2; 2; 2; 1; 2; 2; 2; 2; 2; 2; 1]%nat.

Definition SBOXES : list (list nat) :=
  [ [14; 4; 13; 1; 2; 15; 11; 8; 3; 10; 6; 12; 5; 9; 0; 7;
     0; 15; 7; 4; 14; 2; 13; 1; 10; 6; 12; 11; 9; 5; 3; 8;
     4; 1; 14; 8; 13; 6; 2; 11; 15; 12; 9; 7; 3; 10; 5; 0;
     15; 12; 8; 2; 4; 9; 1; 7; 5; 11; 3; 14; 10; 0; 6; 13];
    [15; 1; 8; 14; 6; 11; 3; 4; 9; 7; 2; 13; 12; 0; 5; 10;
     3; 13; 4; 7; 15; 2; 8; 14; 12; 0; 1; 10; 6; 9; 11; 5;
     0; 14; 7; 11; 10; 4; 13; 1; 5; 8; 12; 6; 9; 3; 2; 15;
     13; 8; 10; 1; 3; 15; 4; 2; 11; 6; 7; 12; 0; 5; 14; 9];
    [10; 0; 9; 14; 6; 3; 15; 5; 1; 13; 12; 7; 11; 4; 2; 8;
     13; 7; 0; 9; 3; 4; 6; 10; 2; 8; 5; 14; 12; 11; 15; 1;
     13; 6; 4; 9; 8; 15; 3; 0; 11; 1; 2; 12; 5; 10; 14; 7;
     1; 10; 13; 0; 6; 9; 8; 7; 4; 15; 14; 3; 11; 5; 2; 12];
    [7; 13; 14; 3; 0; 6; 9; 10; 1; 2; 8; 5; 11; 12; 4; 15;
     13; 8; 11; 5; 6; 15; 0; 3; 4; 7; 2; 12; 1; 10; 14; 9;
     10; 6; 9; 0; 12; 11; 7; 13; 15; 1; 3; 14; 5; 2; 8; 4;
     3; 15; 0; 6; 10; 1; 13; 8; 9; 4; 5; 11; 12; 7; 2; 14];
    [2; 12; 4; 1; 7; 10; 11; 6; 8; 5; 3; 15; 13; 0; 14; 9;
     14; 11; 2; 12; 4; 7; 13; 1; 5; 0; 15; 10; 3; 9; 8; 6;
     4; 2; 1; 11; 10; 13; 7; 8; 15; 9; 12; 5; 6; 3; 0; 14;
     11; 8; 12; 7; 1; 14; 2; 13; 6; 15; 0; 9; 10; 4; 5; 3];
    [12; 1; 10; 15; 9; 2; 6; 8; 0; 13; 3; 4; 14; 7; 5; 11;
     10; 15; 4; 2; 7; 12; 9; 5; 6; 1; 13; 14; 0; 11; 3; 8;
     9; 14; 15; 5; 2; 8; 12; 3; 7; 0; 4; 10; 1; 13; 11; 6;
     4; 3; 2; 12; 9; 5; 15; 10; 11; 14; 1; 7; 6; 0; 8; 13];
    [4; 11; 2; 14; 15; 0; 8; 13; 3; 12; 9; 7; 5; 10; 6; 1;
     13; 0; 11; 7; 4; 9; 1; 10; 14; 3; 5; 12; 2; 15; 8; 6;
     1; 4; 11; 13; 12; 3; 7; 14; 10; 15; 6; 8; 0; 5; 9; 2;
     6; 11; 13; 8; 1; 4; 10; 7; 9; 5; 0; 15; 14; 2; 3; 12];
    [13; 2; 8; 4; 6; 15; 11; 1; 10; 9; 3; 14; 5; 0; 12; 7;
     1; 15; 13; 8; 10; 3; 7; 4; 12; 5; 6; 11; 0; 14; 9; 2;
     7; 11; 4; 1; 9; 12; 14; 2; 0; 6; 10; 13; 15; 3; 5; 8;
     2; 1; 14; 7; 4; 10; 8; 13; 15; 12; 9; 0; 3; 5; 6; 11] ]%nat.

Definition bit (b : bool) : nat := if b then 1%nat else 0%nat.

(** One substitution box: the outer two of the six bits choose the
    row, the inner four the column; the entry is written on 4 bits. *)
Definition sbox (table : list nat) (six : bits) : bits :=
  match six with
  | [b1; b2; b3; b4; b5; b6] =>
      let row := (2 * bit b1 + bit b6)%nat in
      let col := (8 * bit b2 + 4 * bit b3 + 2 * bit b4 + bit b5)%nat in
      let v := nth (16 * row + col) table 0%nat in
      [Nat.testbit v 3; Nat.testbit v 2; Nat.testbit v 1; Nat.testbit v 0]
  | _ => [false; false; false; false]
  end.

Fixpoint substitute (tables : list (list nat)) (x : bits) : bits :=
  match tables with
  | [] => []
  | t :: ts => (sbox t (firstn 6 x) ++ substitute ts (skipn 6 x))%list
  end.

(** The cipher function of a round. *)
Definition feistel_f (r k : bits) : bits :=
  permute PBOX (substitute SBOXES (xor_bits (permute EXPANSION r) k)).

Fixpoint schedule (shifts : list nat) (c d : bits) : list bits :=
  match shifts with
  | [] => []
  | s :: rest =>
      let c' := rotate_left s c in
      let d' := rotate_left s d in
      permute PC2 (c' ++ d')%list :: schedule rest c' d'
  end.

(** The sixteen round keys of a key. *)
Definition subkeys (key : bytes) : list bits :=
  let k := permute PC1 (bits_of_bytes key) in
  schedule SHIFTS (firstn 28 k) (skipn 28 k).

Definition round (lr : bits * bits) (k : bits) : bits * bits :=
  (snd lr, xor_bits (fst lr) (feistel_f (snd lr) k)).

Definition rounds (ks : list bits) (lr : bits * bits) : bits * bits :=
  fold_left round ks lr.

Definition crypt_bits (ks : list bits) (x : bits) : bits :=
  let y := permute IP x in
  let lr := rounds ks (firstn 32 y, skipn 32 y) in
  permute FP (snd lr ++ fst lr)%list.

Definition des_encrypt_block (key block : bytes) : bytes :=
  bytes_of_bits (crypt_bits (subkeys key) (bits_of_bytes block)).

Definition des_decrypt_block (key block : bytes) : bytes :=
  bytes_of_bits (crypt_bits (rev (subkeys key)) (bits_of_bytes block)).

#[global] Instance des : BlockCipher :=
  {| encrypt_block := des_encrypt_block;
     decrypt_block := des_decrypt_block |}.

End DES.

(** ** What is observed of a connection between the steps of a call *)

Module Observe.

Section Views.
Context {Model : Type}.
Implicit Type c : Connection Model.

(** The cookies [requester()] puts in the session before a request of
    [_send_http_request]. *)
Definition session_cookies_of c : list (string * string) :=
  match twf_id c with
  | Some twfid => if String.eqb twfid "" then [] else [("TWFID", twfid)]
  | None => []
  end.



(** What identifies a connection and configures it. *)
Definition identity_of c
  : string * option string * RetryConfig * Z * string * bool :=
  (server_url c, student_id c, retry_config c, _cache_ttl c,
   uaap_login_url c, _is_closed c).

Definition same_identity c c' : Prop := identity_of c' = identity_of c.

(** The health record has not improved: no error was forgotten and an
    unhealthy record is still unhealthy. *)
Definition health_decays c c' : Prop :=
  error_count (_health c) <= error_count (_health c')
  /\ (is_healthy (_health c) = false -> is_healthy (_health c') = false).

(** The connection holds nothing of a login: both flags are clear and
    there is neither a session token nor SSO cookies. *)
Definition logged_out c : Prop :=
  _logged_in c = false /\ _uaap_logged_in c = false
  /\ twf_id c = None /\ uaap_cookies c = None.

(** A connection that holds nothing of a login still holds nothing. *)
Definition stays_out c c' : Prop := logged_out c -> logged_out c'.
End Views.

Section PoolViews.
Import Pool.
Context {Model : Type}.

(** The pool is well formed: every registered name is a student id
    that is not empty and names an open instance built for that id;
    every instance lies below the next address; every pending close
    is that of an instance. *)
Definition well_formed (w : World Model) : Prop :=
  (forall sid l, _aufe_connections w !! sid = Some l ->
     sid <> ""
     /\ exists c, heap w !! l = Some c
                  /\ student_id c = Some sid /\ _is_closed c = false)
  /\ (forall l, is_Some (heap w !! l) -> (l < next_id w)%nat)
  /\ (forall l, In l (tasks w) -> is_Some (heap w !! l)).

(** The world with one more pending close. *)
Definition with_task (l : nat) (w : World Model) : World Model :=
  mkWorld (heap w) (next_id w) (_aufe_connections w) (tasks w ++ [l])%list.

(** The world in which a new instance for [student_id] has been
    built, at clock readings [t_activity] and [t_health]. *)
Definition constructed (cfg : Settings) (server student_id : string)
    (rc : option RetryConfig) (t_activity t_health : Z) (w : World Model)
  : World Model :=
  mkWorld
    (<[next_id w := new_connection cfg server (Some student_id) rc
                      t_health t_activity]> (heap w))
    (Datatypes.S (next_id w))
    (if String.eqb student_id "" then _aufe_connections w
     else <[student_id := next_id w]> (_aufe_connections w))
    (tasks w).
End PoolViews.

End Observe.
Export Observe.

(** ** Following redirects by hand: [redirect_to] *)

Module Redirect.

(** The address a response redirects to, as [redirect_to] reads it:
    one of the five redirect statuses and a [Location] header that is
    not empty. *)
Definition next_location (response : Response) : option string :=
  if existsb (Z.eqb (status_code response)) [301; 302; 303; 307; 308]
  then match headers response !! "Location" with
       | Some location => if String.eqb location "" then None else Some location
       | None => None
       end
  else None.

(** The cookies of a request, from the dictionary passed as
    [cookies=]. *)
Definition cookie_list (cookies : option (gmap string string))
  : list (string * string) :=
  match cookies with
  | Some jar => map_to_list jar
  | None => []
  end.

(** What a call that goes through gives back: the last response and
    the cookies gathered. *)
Definition Followed : Type := Response * gmap string string.

Section Operations.
Context {Model : Type}.
Variable E : Env.
Variable cfg : Settings.

Local Abbreviation Op := (M (Connection Model)).

(** [redirect_to] as decorated.  It calls itself for the next
    address; [depth] is the number of nested calls the interpreter
    still allows, and the call beyond it raises [RecursionError], an
    [Exception].  The wrapper of [retry_async] gives back what the
    body returns, or [None] when its loop does not run. *)
Fixpoint redirect_to (depth : nat) (redirect_url : string)
    (cookies : option (gmap string string)) : Op (option Followed) :=
  match depth with
  | O => raise Exception_
  | Datatypes.S depth' =>
      activity_tracker E
        (returned <-
           retry_async E (default_retry_config cfg)
             (try_except
                (response <- send E (mkRequest "GET" redirect_url []
                                       (cookie_list cookies)
                                       "follow_redirects=False") ;;
                 let result :=
                   ret (Some (response,
                              match cookies with
                              | None => Effects.cookies response
                              | Some jar => Effects.cookies response ∪ jar
                              end)) in
                 match next_location response with
                 | Some location =>
                     let all_cookies :=
                       Effects.cookies response ∪ default ∅ cookies in
                     redirect_to depth' location (Some all_cookies)
                 | None => result
                 end)
                (fun e => ret None)) ;;
         ret (default None returned))
  end.
End Operations.

(** The cookies gathered along a chain of responses, the later
    response winning where two set the same cookie. *)
Definition gathered (cookies : option (gmap string string))
    (chain : list Response) : gmap string string :=
  foldl (fun jar response => Effects.cookies response ∪ jar)
        (default ∅ cookies) chain.

End Redirect.

(** ** The monitor of a connection and the callers of the engine *)

Module Service.

(** How [get_jwc_client] ends when it does not raise an exception of
    the engine: with a client, or with one of its two
    [HTTPException(status_code=400)]. *)
Inductive Admission : Type :=
| ClientReady
| VpnLoginFailed
| UaapLoginFailed.

(** [not await aufe.login(...)] is false only for [True]. *)
Definition truthy (returned : option bool) : bool :=
  match returned with
  | Some true => true
  | _ => false
  end.

Section Operations.
Context {Model : Type} `{Portal Model} `{BlockCipher}.
Variable E : Env.
Variable cfg : Settings.

(** A method of the instance at address [l], run to its end on that
    instance. *)
Definition on_connection {A} (l : nat) (method : M (Connection Model) A)
  : M (Pool.World Model) A :=
  fun s =>
    match Pool.heap (fst s) !! l with
    | Some c =>
        let r := method (c, snd s) in
        (fst r,
         (Pool.set_heap (<[l := fst (snd r)]> (Pool.heap (fst s))) (fst s),
          snd (snd r)))
    | None => (Raise Exception_, s)
    end.

(** One turn of the loop of [_monitor_auto_close] for the instance at
    [l], from the moment its sleep is over: the connection is closed
    when it has been idle for longer than [ACTIVITY_TIMEOUT], and
    probed otherwise.  The result tells whether the loop goes on to
    sleep again; an exception ends it. *)
Definition monitor_wakes (l : nat) : M (Pool.World Model) bool :=
  try_except
    (now <- time_time E ;;
     c <- Pool.deref l ;;
     if now - last_activity c >? ACTIVITY_TIMEOUT cfg
     then (Pool.close E l ;; ret false)
     else (on_connection l (_health_check E) ;;
           c <- Pool.deref l ;;
           ret (negb (_is_closed c))))
    (fun e => ret false).

(** The event loop runs the oldest pending task to its end; an
    exception the task raises stays in the task. *)
Definition settle_task : M (Pool.World Model) unit :=
  try_except (Pool.run_task E) (fun e => ret tt).

Fixpoint run_tasks (n : nat) : M (Pool.World Model) unit :=
  match n with
  | O => ret tt
  | Datatypes.S n' => settle_task ;; run_tasks n'
  end.

(** The event loop runs the tasks that are pending when a caller
    gives way to it; a [close()] schedules no task of its own. *)
Definition run_pending : M (Pool.World Model) unit :=
  w <- get ;; run_tasks (List.length (Pool.tasks w)).

(** [await aufe.login(...)] and [await aufe.uaap_login(...)] from a
    caller, with the event loop around them: a method of the instance
    at [l] that is decorated with [@activity_tracker] over
    [@retry_async()], of policy [config], around the function [func].
    The decorators do not wait on their way in; the function of either
    login waits for the network in the first statement of its first
    attempt, and the event loop runs the pending tasks then.  With no
    attempt allowed nothing waits and the tasks stay pending. *)
Definition awaited {A} (l : nat) (config : RetryConfig)
    (func : M (Connection Model) A) : M (Pool.World Model) (option A) :=
  on_connection l (_update_activity E) ;;
  (if 1 <=? max_attempts config then run_pending else ret tt) ;;
  on_connection l (retry_async E config func).

(** The first [if] of [get_jwc_client]: [login] where [login_status]
    answers false.  The result tells whether the caller goes on, and
    not to its [HTTPException(status_code=400)]. *)
Definition ensure_vpn (aufe : nat) (userid easyconnect_password : string)
  : M (Pool.World Model) bool :=
  vpn <- on_connection aufe (login_status E) ;;
  if negb vpn
  then (returned <-
          awaited aufe (default_retry_config cfg)
            (login_body E userid easyconnect_password) ;;
        ret (truthy returned))
  else ret true.

(** The second [if]: the same with [uaap_login_status] and
    [uaap_login]. *)
Definition ensure_uaap (aufe : nat) (userid password : string)
  : M (Pool.World Model) bool :=
  sso <- on_connection aufe (uaap_login_status E) ;;
  if negb sso
  then (returned <-
          awaited aufe (default_retry_config cfg)
            (uaap_login_body E userid password) ;;
        ret (truthy returned))
  else ret true.

(** The two [if]s of [get_jwc_client], one after the other. *)
Definition ensure_logged_in (aufe : nat)
    (userid easyconnect_password password : string)
  : M (Pool.World Model) Admission :=
  vpn_ok <- ensure_vpn aufe userid easyconnect_password ;;
  if negb vpn_ok then ret VpnLoginFailed
  else
    (sso_ok <- ensure_uaap aufe userid password ;;
     if negb sso_ok then ret UaapLoginFailed else ret ClientReady).

(** [get_jwc_client] for a user that exists: the connection of the
    pool for the user's id, logged in where it is not; the result is
    the instance the client is built on, or the one the caller gave
    up on. *)
Definition get_jwc_client (userid easyconnect_password password : string)
  : M (Pool.World Model) (nat * Admission) :=
  aufe <- Pool.create_or_get_connection E cfg "vpn.aufe.edu.cn" userid None ;;
  admission <-
    ensure_logged_in aufe userid easyconnect_password password ;;
  ret (aufe, admission).

(** Whether [create_or_get_connection] finds, at clock reading [now],
    an instance registered for [userid] that is no longer active, and
    so replaces it. *)
Definition replaces (now : Z) (userid : string) (w : Pool.World Model)
  : bool :=
  match Pool._aufe_connections w !! userid with
  | Some l =>
      match Pool.heap w !! l with
      | Some c => negb (is_active cfg now c)
      | None => false
      end
  | None => false
  end.
End Operations.

End Service.

(** ** Concrete worlds to run the engine in *)

Module Scenarios.

Definition cfg0 : Settings :=
  {| MAX_RETRIES := 3;
     ACTIVITY_TIMEOUT := 300;
     RETRY_BASE_DELAY := 1;
     RETRY_MAX_DELAY := 60;
     RETRY_EXPONENTIAL_BASE := 2;
     UAAP_LOGIN_URL :=
       "http://uaap-aufe-edu-cn.vpn2.aufe.edu.cn:8118/cas/login" |}.

(** A portal for pages that write their attributes without quotes, as
    in [<input name=lt value=LT-1>]; an RSA step that accepts every
    key; models that are the JSON text itself, accepted when it is an
    object. *)
#[global] Instance portal0 : Portal string :=
  {| rsa_encrypt_hex := fun _ _ plain => Some ("00" ++ plain);
     find_input := fun name html =>
       match re_search_between ("name=" ++ name ++ " value=") ">" html with
       | Some v => Some (Some v)
       | None => if contains ("name=" ++ name ++ ">") html
                 then Some None else None
       end;
     decode := fun body => if String.prefix "{" body then Some body else None;
     kwargs_hash := fun kwargs => kwargs |}.

(** The world that answers the requests with [script], in order, and
    then refuses connections; [closing] are the outcomes of closing a
    session; the clock advances one tick per reading. *)
Definition env_of (script : list (Res Response))
    (closing : list (option ExnClass)) : Env :=
  {| net := fun k => nth k script (Raise RequestError);
     aclose := fun k => nth k closing None;
     clock := fun k => Z.of_nat k;
     random := fun _ => 0%Q |}.

Definition page (status : Z) (body : string) : Response :=
  mkResponse status body ∅ ∅.

Definition redirect (status : Z) (location : string) : Response :=
  mkResponse status "" {["Location" := location]} {["CASTGC" := "TGT-1"]}.

Definition vpn_auth_page : Response :=
  page 200
    ("<TwfID>ABC123</TwfID><RSA_ENCRYPT_KEY>C0FFEE</RSA_ENCRYPT_KEY>"
     ++ "<RSA_ENCRYPT_EXP>65537</RSA_ENCRYPT_EXP>").

Definition vpn_accepted : Response := page 200 "<Result>1</Result>".

Definition vpn_rejected : Response := page 200 "<Result>0</Result>".

Definition sso_login_page : Response :=
  page 200
    ("<input name=lt value=LT-1234-abcd>"
     ++ String newline "<input name=execution value=e1s1>").

(** The SSO portal accepts the first login it sees. *)
Definition world_sso_accepts : Env :=
  env_of [Ret sso_login_page; Ret (redirect 302 "http://jwc/")] [].

(** Both portals accept: a VPN login, then an SSO login. *)
Definition world_both_accept : Env :=
  env_of [Ret vpn_auth_page; Ret vpn_accepted;
          Ret sso_login_page; Ret (redirect 302 "http://jwc/")] [].

(** The SSO portal answers the login with 303 See Other. *)
Definition world_sso_see_other : Env :=
  env_of [Ret sso_login_page; Ret (redirect 303 "http://jwc/")] [].

(** Both portals accept, then the VPN portal rejects a second login. *)
Definition world_relogin_rejected : Env :=
  env_of [Ret vpn_auth_page; Ret vpn_accepted;
          Ret sso_login_page; Ret (redirect 302 "http://jwc/");
          Ret vpn_auth_page; Ret vpn_rejected] [].

(** The VPN portal accepts a login and then serves a page without
    the token. *)
Definition world_token_missing : Env :=
  env_of [Ret vpn_auth_page; Ret vpn_accepted; Ret (page 200 "maintenance")] [].

(** The transport refuses every request. *)
Definition world_refusing : Env := env_of [] [].

(** A process that has built no connection yet. *)
Definition empty_pool : Pool.World string * IO := (Pool.empty_world, io0).

(** [create_or_get_connection("vpn.aufe.edu.cn", sid)] in that
    process. *)
Definition connect (sid : string) (s : Pool.World string * IO)
  : Res nat * (Pool.World string * IO) :=
  Pool.create_or_get_connection world_refusing cfg0 "vpn.aufe.edu.cn" sid
    None s.

(** The monitor marks the instance at [l] with a connection error. *)
Definition monitor_marks_error (l : nat) (s : Pool.World string * IO)
  : Res unit * (Pool.World string * IO) :=
  Pool.update l
    (fun c => set_health (mark_error AUFEConnectionError 2 (_health c)) c) s.

(** A new connection for student 20230001, before any request. *)
Definition fresh : Connection string * IO :=
  (new_connection cfg0 "vpn.aufe.edu.cn" (Some "20230001") None 0 0, io0).

(** An operation that counts its runs in the state and always raises
    [e]. *)
Definition always_raises (e : ExnClass) : M nat unit :=
  fun s => (Raise e, (Datatypes.S (fst s), snd s)).

Definition two_attempts : RetryConfig :=
  {| max_attempts := 2;
     strategy := FIXED_DELAY;
     base_delay := 1;
     max_delay := 60;
     exponential_base := 2;
     jitter := false;
     retry_on_exceptions :=
       [AUFEConnectionError; AUFETimeoutError; RequestError] |}.


(** The typed endpoint answers with a JSON object. *)
Definition world_api_answers : Env := env_of [Ret (page 200 "{}")] [].

(** The transport raises an exception that is no request error. *)
Definition world_transport_breaks : Env := env_of [Raise Exception_] [].



(** The SSO portal is down for maintenance. *)
Definition world_sso_down : Env := env_of [Ret (page 503 "maintenance")] [].

(** The SSO login page has an [lt] field without a value. *)
Definition world_sso_lt_empty : Env :=
  env_of
    [Ret (page 200
            ("<input name=lt>"
             ++ String newline "<input name=execution value=e1s1>"))]
    [].

(** The connection [fresh] with one response in its cache, stored at
    clock reading 0. *)
Definition fresh_with_cache : Connection string * IO :=
  (set_request_cache {["GET:http://jwc/api:{}" := ("{}", 0)]} (fst fresh),
   io0).

(** The pool after a first call for student 20230001, at clock
    readings 0 and 1. *)
Definition pool_of_one : Pool.World string :=
  constructed cfg0 "vpn.aufe.edu.cn" "20230001" None 0 1 Pool.empty_world.

(** A moment at which the clock reads 1000. *)
Definition much_later : IO :=
  {| wire := []; closes := 0; ticks := 1000; draws := 0; sleeps := [] |}.

(** An address that redirects once, with a cookie, to a page. *)
Definition world_one_redirect : Env :=
  env_of [Ret (redirect 302 "http://jwc/home"); Ret (page 200 "home")] [].

(** The VPN portal accepts a login and then serves a page with the
    token and without the modulus. *)
Definition world_modulus_missing : Env :=
  env_of [Ret vpn_auth_page; Ret vpn_accepted;
          Ret (page 200 "<TwfID>XYZ789</TwfID>")] [].

(** The VPN portal accepts a login and rejects the next one. *)
Definition world_second_login_rejected : Env :=
  env_of [Ret vpn_auth_page; Ret vpn_accepted;
          Ret vpn_auth_page; Ret vpn_rejected] [].

End Scenarios.

(** * Properties *)

(** ** Health record *)

Lemma mark_errors_unhealthy n errs times h :
  (0 < n)%nat -> is_healthy (mark_errors n errs times h) = false.
Proof. destruct n; [lia | reflexivity]. Qed.

Lemma mark_errors_count n errs times h :
  error_count (mark_errors n errs times h) = error_count h + Z.of_nat n.
Proof.
  induction n as [|n IH]; cbn [mark_errors].
  - lia.
  - unfold mark_error; cbn [error_count]. rewrite IH. lia.
Qed.

(** C7.  A health record starts healthy with no error counted;
    [mark_error] adds one to the count and makes the record unhealthy;
    [mark_healthy] makes it healthy with a count of zero;
    [should_reconnect] holds exactly when the record is unhealthy or
    has counted three errors or more, so it holds after three
    [mark_error] calls in a row and fails right after [mark_healthy]. *)
Theorem health_record_lifecycle :
  (forall now,
      is_healthy (Health.init now) = true
      /\ error_count (Health.init now) = 0)
  /\ (forall e now h,
         error_count (mark_error e now h) = error_count h + 1
         /\ is_healthy (mark_error e now h) = false)
  /\ (forall now h,
         is_healthy (mark_healthy now h) = true
         /\ error_count (mark_healthy now h) = 0)
  /\ (forall h,
         should_reconnect h = true
         <-> (is_healthy h = false \/ 3 <= error_count h))
  /\ (forall errs times h,
         should_reconnect (mark_errors 3 errs times h) = true)
  /\ (forall errs times now,
         error_count (mark_errors 3 errs times (Health.init now)) = 3)
  /\ (forall now h, should_reconnect (mark_healthy now h) = false).
Proof.
  repeat split; try reflexivity.
  - unfold should_reconnect. intros Hr.
    apply orb_true_iff in Hr as [Hu | Hc].
    + left. now apply negb_true_iff.
    + right. now apply Z.leb_le.
  - unfold should_reconnect. intros [Hu | Hc]; apply orb_true_iff.
    + left. now rewrite Hu.
    + right. now apply Z.leb_le.
Qed.

(** ** Status queries *)

Section Status.
Context {Model : Type}.
Variable E : Env.
Implicit Type s : Connection Model * IO.

Lemma login_status_value s :
  result_of (login_status E s)
  = Ret (_logged_in (fst s) && is_healthy (_health (fst s))).
Proof. destruct s as [c io]. reflexivity. Qed.

Lemma uaap_login_status_value s :
  result_of (uaap_login_status E s)
  = Ret (_uaap_logged_in (fst s) && is_healthy (_health (fst s))).
Proof. destruct s as [c io]. reflexivity. Qed.

(** C10.  The two status queries answer the conjunction of their
    login flag and the health of the connection.  One [mark_error]
    makes both answer false while both flags keep their value, and a
    [mark_healthy] after it makes them answer the flags again. *)
Theorem status_is_flag_and_health s e :
  let s1 := snd (health_mark_error E e s) in
  let s2 := snd (health_mark_healthy E s1) in
  result_of (login_status E s)
    = Ret (_logged_in (fst s) && is_healthy (_health (fst s)))
  /\ result_of (uaap_login_status E s)
    = Ret (_uaap_logged_in (fst s) && is_healthy (_health (fst s)))
  /\ result_of (login_status E s1) = Ret false
  /\ result_of (uaap_login_status E s1) = Ret false
  /\ _logged_in (fst s1) = _logged_in (fst s)
  /\ _uaap_logged_in (fst s1) = _uaap_logged_in (fst s)
  /\ result_of (login_status E s2) = Ret (_logged_in (fst s))
  /\ result_of (uaap_login_status E s2) = Ret (_uaap_logged_in (fst s)).
Proof.
  destruct s as [c io]. cbn.
  repeat split; try reflexivity; now rewrite ?andb_false_r, ?andb_true_r.
Qed.
End Status.

(** ** Retry executor *)

Section RetryFacts.
Context {S A : Type}.
Variable E : Env.
Variable config : RetryConfig.
Variable func : M S A.

Lemma retry_loop_success n attempt last s a s' :
  func s = (Ret a, s') ->
  retry_loop E config func (Datatypes.S n) attempt last s = (Ret (Some a), s').
Proof.
  intros Hf. cbn [retry_loop]. unfold try_except, bind. rewrite Hf.
  reflexivity.
Qed.

Lemma retry_loop_not_retryable n attempt last s e s' :
  func s = (Raise e, s') ->
  isinstance e (retry_on_exceptions config) = false ->
  retry_loop E config func (Datatypes.S n) attempt last s = (Raise e, s').
Proof.
  intros Hf Hi. cbn [retry_loop]. unfold try_except, bind. rewrite Hf, Hi.
  reflexivity.
Qed.


(** C8.  When the policy allows at least one attempt and the
    operation fails with an exception that is not an instance of the
    retryable classes, the wrapped call is one run of the operation:
    it raises that exception from the state the single run left, so
    nothing was slept and no jitter was drawn, and a count of the runs
    of the operation goes up by exactly one, whatever [max_attempts]
    is. *)
Theorem retry_async_non_retryable_once s e s' :
  1 <= max_attempts config ->
  func s = (Raise e, s') ->
  isinstance e (retry_on_exceptions config) = false ->
  retry_async E config func s = (Raise e, s')
  /\ sleeps (snd (snd (retry_async E config func s))) = sleeps (snd s')
  /\ draws (snd (snd (retry_async E config func s))) = draws (snd s')
  /\ (forall runs,
        retry_async E config (counted func) ((fst s, runs), snd s)
        = (Raise e, ((fst s', Datatypes.S runs), snd s'))).
Proof.
  intros Hmax Hf Hi. unfold retry_async.
  destruct (Z.to_nat (max_attempts config)) as [|n] eqn:Hn; [lia|].
  rewrite (retry_loop_not_retryable n 0 None s e s' Hf Hi).
  repeat split.
  intros runs. cbn [retry_loop]. unfold try_except, bind, counted.
  cbn [fst snd]. rewrite <- surjective_pairing, Hf. cbn [fst snd].
  now rewrite Hi.
Qed.
End RetryFacts.

(** ** Password encryption *)

Section EncryptPassword.
Context `{BlockCipher}.

Lemma key_bytes_of_length key : List.length (key_bytes_of key) = 8%nat.
Proof.
  unfold key_bytes_of.
  destruct (Nat.ltb_spec (List.length (firstn 8 (encode_utf8 key))) 8)
    as [Hlt | Hge].
  - rewrite length_app, repeat_length. lia.
  - pose proof (firstn_le_length 8 (encode_utf8 key)). lia.
Qed.

Lemma key_bytes_of_zero_padded key :
  key_bytes_of key = firstn 8 (encode_utf8 key ++ repeat Byte.x00 8)%list.
Proof.
  unfold key_bytes_of. set (l := encode_utf8 key).
  rewrite firstn_app.
  destruct (Nat.ltb_spec (List.length (firstn 8 l)) 8) as [Hlt | Hge].
  - f_equal. rewrite length_firstn in *.
    assert (Hl : (List.length l < 8)%nat) by lia.
    replace (Init.Nat.min 8 (List.length l)) with (List.length l) by lia.
    generalize (List.length l) Hl. intros n Hn.
    do 8 (destruct n as [|n]; [reflexivity|]). lia.
  - rewrite length_firstn in Hge.
    replace (8 - List.length l)%nat with 0%nat by lia.
    cbn [firstn]. now rewrite app_nil_r.
Qed.

Lemma TripleDES_key_8 k :
  List.length k = 8%nat -> TripleDES_key k = (k ++ k ++ k)%list.
Proof. intros Hk. unfold TripleDES_key. now rewrite Hk. Qed.

Lemma three_equal_keys (k : bytes) :
  List.length k = 8%nat ->
  firstn 8 (k ++ k ++ k)%list = k
  /\ firstn 8 (skipn 8 (k ++ k ++ k)%list) = k
  /\ firstn 8 (skipn 16 (k ++ k ++ k)%list) = k.
Proof.
  intros Hk.
  do 9 (destruct k as [|? k]; try discriminate Hk).
  repeat split.
Qed.

(** With one key in all three places, triple DES is DES. *)
Lemma TripleDES_one_key k b :
  (forall key block,
      List.length key = 8%nat -> List.length block = 8%nat ->
      decrypt_block key (encrypt_block key block) = block) ->
  List.length k = 8%nat ->
  List.length b = 8%nat ->
  TripleDES_encrypt_block (TripleDES_key k) b = encrypt_block k b.
Proof.
  intros Hinv Hk Hb. unfold TripleDES_encrypt_block.
  rewrite (TripleDES_key_8 k Hk).
  destruct (three_equal_keys k Hk) as (-> & -> & ->).
  now rewrite Hinv.
Qed.

Lemma pkcs7_pad_length data :
  (List.length (pkcs7_pad data) mod 8 = 0)%nat.
Proof.
  unfold pkcs7_pad. rewrite length_app, repeat_length.
  pose proof (Nat.mod_upper_bound (List.length data) 8 ltac:(lia)) as Hlt.
  rewrite (Nat.div_mod_eq (List.length data) 8) at 1.
  replace (8 * (List.length data / 8) + List.length data mod 8
           + (8 - List.length data mod 8))%nat
    with ((1 + List.length data / 8) * 8)%nat by lia.
  apply Nat.Div0.mod_mul.
Qed.

(** Data of a whole number of blocks is cut into blocks of 8 bytes. *)
Lemma blocks_of_eight fuel :
  forall data : bytes,
    (List.length data mod 8 = 0)%nat ->
    Forall (fun b : bytes => List.length b = 8%nat) (blocks fuel data).
Proof.
  induction fuel as [|fuel IH]; intros data Hmod; cbn [blocks].
  - constructor.
  - destruct data as [|x data']; [constructor|].
    set (d := x :: data') in *.
    assert (Hlen : (8 <= List.length d)%nat).
    { destruct (Nat.lt_ge_cases (List.length d) 8) as [Hlt|]; [|assumption].
      rewrite Nat.mod_small in Hmod by assumption.
      subst d. cbn in Hmod. discriminate. }
    constructor.
    + rewrite length_firstn. lia.
    + apply IH. rewrite length_skipn.
      replace (List.length d) with ((List.length d - 8) + 1 * 8)%nat in Hmod
        by lia.
      now rewrite Nat.Div0.mod_add in Hmod.
Qed.

(** C6.  Provided DES decryption undoes DES encryption of a block
    under the same key, [_encrypt_password], which builds a
    triple-DES cipher from the 8 key bytes, returns for every
    password and every key string the base64 text of the single-DES
    ECB encryption of the PKCS7-padded UTF-8 password under the first
    8 bytes of the key string, zero-padded on the right. *)
Theorem encrypt_password_is_single_des password key :
  (forall k block,
      List.length k = 8%nat -> List.length block = 8%nat ->
      decrypt_block k (encrypt_block k block) = block) ->
  _encrypt_password password key = des_ecb_reference password key.
Proof.
  intros Hinv. unfold _encrypt_password, des_ecb_reference, ecb.
  rewrite <- key_bytes_of_zero_padded.
  f_equal. f_equal. apply map_ext_in. intros b Hb.
  apply TripleDES_one_key; [exact Hinv | apply key_bytes_of_length |].
  pose proof (blocks_of_eight (List.length (pkcs7_pad (encode_utf8 password)))
                _ (pkcs7_pad_length (encode_utf8 password))) as Hall.
  exact (proj1 (List.Forall_forall _ _) Hall b Hb).
Qed.
End EncryptPassword.

(** ** A frame rule for computations *)

Section Respects.
Context {S : Type} (R : S -> S -> Prop) `{!PreOrder R}.
Variable E : Env.

Lemma respects_ret {A} (a : A) : respects R (@ret S A a).
Proof. intros s r s' [= <- <-]. reflexivity. Qed.

Lemma respects_raise {A} e : respects R (@raise S A e).
Proof. intros s r s' [= <- <-]. reflexivity. Qed.

Lemma respects_get : respects R (@get S).
Proof. intros s r s' [= <- <-]. reflexivity. Qed.

Lemma respects_modify f : (forall c, R c (f c)) -> respects R (modify f).
Proof. intros Hf s r s' [= <- <-]. apply Hf. Qed.

Lemma respects_time_time : respects R (@time_time S E).
Proof. intros s r s' [= <- <-]. reflexivity. Qed.

Lemma respects_random_random : respects R (@random_random S E).
Proof. intros s r s' [= <- <-]. reflexivity. Qed.

Lemma respects_sleep d : respects R (@sleep S d).
Proof. intros s r s' [= <- <-]. reflexivity. Qed.

Lemma respects_send q : respects R (@send S E q).
Proof. intros s r s' [= <- <-]. reflexivity. Qed.

Lemma respects_session_aclose : respects R (@session_aclose S E).
Proof. intros s r s' [= <- <-]. reflexivity. Qed.

Lemma respects_outcome {A} (m : M S A) :
  respects R m -> respects R (outcome m).
Proof.
  intros Hm s r s'. unfold outcome. intros [= <- <-].
  apply (Hm s (fst (m s)) (snd (m s))). now destruct (m s).
Qed.

Lemma respects_bind {A B} (m : M S A) (k : A -> M S B) :
  respects R m -> (forall a, respects R (k a)) -> respects R (bind m k).
Proof.
  intros Hm Hk s r s'. unfold bind.
  destruct (m s) as [[a | e] s1] eqn:Hms; intros Hr.
  - transitivity (fst s1); [exact (Hm _ _ _ Hms) | exact (Hk _ _ _ _ Hr)].
  - injection Hr as <- <-. exact (Hm _ _ _ Hms).
Qed.

Lemma respects_try_except {A} (body : M S A) handler :
  respects R body -> (forall e, respects R (handler e)) ->
  respects R (try_except body handler).
Proof.
  intros Hm Hk s r s'. unfold try_except.
  destruct (body s) as [[a | e] s1] eqn:Hms; intros Hr.
  - injection Hr as <- <-. exact (Hm _ _ _ Hms).
  - transitivity (fst s1); [exact (Hm _ _ _ Hms) | exact (Hk _ _ _ _ Hr)].
Qed.

Lemma respects_next_delay config attempt :
  respects R (@next_delay S E config attempt).
Proof.
  unfold next_delay. destruct (draws_jitter attempt config).
  - apply respects_bind; [apply respects_random_random|].
    intros r. apply respects_ret.
  - apply respects_ret.
Qed.

Lemma respects_retry_loop {A} config (func : M S A) n :
  respects R func ->
  forall attempt last, respects R (retry_loop E config func n attempt last).
Proof.
  intros Hf. induction n as [|n IH]; intros attempt last; cbn [retry_loop].
  - destruct last; [apply respects_raise | apply respects_ret].
  - apply respects_try_except.
    + apply respects_bind; [exact Hf | intros a; apply respects_ret].
    + intros e. destruct (isinstance e _); [|apply respects_raise].
      destruct (attempt =? _); [apply respects_raise|].
      apply respects_bind; [apply respects_next_delay|]. intros d.
      apply respects_bind; [apply respects_sleep|]. intros _. apply IH.
Qed.

Lemma respects_retry_async {A} config (func : M S A) :
  respects R func -> respects R (retry_async E config func).
Proof. intros Hf. now apply respects_retry_loop. Qed.
End Respects.

(** One step of a frame proof: split the computation at its head. *)
Ltac frame_step :=
  lazymatch goal with
  | |- PreOrder _ => exact _
  | |- respects _ (bind _ _) => apply respects_bind; [.. | intros ?]
  | |- respects _ (try_except _ _) =>
      apply respects_try_except; [.. | intros ?]
  | |- respects _ (outcome _) => apply respects_outcome
  | |- respects _ (ret _) => apply respects_ret
  | |- respects _ (raise _) => apply respects_raise
  | |- respects _ get => apply respects_get
  | |- respects _ (time_time _) => apply respects_time_time
  | |- respects _ (sleep _) => apply respects_sleep
  | |- respects _ (send _ _) => apply respects_send
  | |- respects _ (session_aclose _) => apply respects_session_aclose
  | |- respects _ (next_delay _ _ _) => apply respects_next_delay
  | |- respects _ (retry_async _ _ _) => apply respects_retry_async
  | |- respects _ (modify _) => apply respects_modify; [.. | intros ?]
  | |- respects _ (match ?x with _ => _ end) => destruct x
  | |- respects _ (let _ := _ in _) => cbv zeta
  end.

Ltac frame := repeat frame_step.

(** ** What each operation does to the login flags *)

Section FlagRelations.
Context {Model : Type}.

#[global] Instance keeps_vpn_preorder : PreOrder (@keeps_vpn Model).
Proof.
  split; [intros c; reflexivity|].
  intros a b c Hab Hbc. unfold keeps_vpn in *. congruence.
Qed.

#[global] Instance keeps_sso_preorder : PreOrder (@keeps_sso Model).
Proof.
  split; [intros c; reflexivity|].
  intros a b c Hab Hbc. unfold keeps_sso in *. congruence.
Qed.

#[global] Instance same_flags_preorder : PreOrder (@same_flags Model).
Proof.
  split; [intros c; split; reflexivity|].
  intros a b c [H1 H2] [H3 H4]. unfold same_flags. split; congruence.
Qed.

#[global] Instance same_or_reset_preorder : PreOrder (@same_or_reset Model).
Proof.
  split; [intros c; left; split; reflexivity|].
  intros a b c [[H1 H2] | [H1 H2]] [[H3 H4] | [H3 H4]];
    unfold same_or_reset, same_flags;
    first [ left; split; congruence | right; split; congruence ].
Qed.

#[global] Instance stays_logged_out_preorder :
  PreOrder (@stays_logged_out Model).
Proof.
  split; [intros c Hc; exact Hc|].
  intros a b c Hab Hbc Ha. apply Hbc, Hab, Ha.
Qed.

Lemma same_flags_same_or_reset (c c' : Connection Model) :
  same_flags c c' -> same_or_reset c c'.
Proof. now left. Qed.
End FlagRelations.

(** Closes the side conditions of a frame proof: an assignment to a
    field other than the flags at stake. *)
Ltac flags_kept :=
  first [ reflexivity
        | split; reflexivity
        | left; split; reflexivity ].

Section Frames.
Context {Model : Type} `{Portal Model} `{BlockCipher}.
Variable E : Env.
Variable cfg : Settings.

Lemma update_activity_same_flags :
  respects same_flags (@_update_activity Model E).
Proof. unfold _update_activity. frame; flags_kept. Qed.

Lemma mark_error_same_flags e :
  respects same_flags (@health_mark_error Model E e).
Proof. unfold health_mark_error. frame; flags_kept. Qed.

Lemma mark_healthy_same_flags :
  respects same_flags (@health_mark_healthy Model E).
Proof. unfold health_mark_healthy. frame; flags_kept. Qed.

(** The VPN login never touches the SSO flag. *)
Lemma login_body_keeps_sso username password :
  respects keeps_sso (login_body E username password).
Proof.
  unfold login_body, health_mark_error. frame; flags_kept.
Qed.

Lemma login_keeps_sso username password :
  respects keeps_sso (login E cfg username password).
Proof.
  unfold login, activity_tracker, _update_activity.
  frame; try flags_kept. apply login_body_keeps_sso.
Qed.

(** The SSO login never touches the VPN flag. *)
Lemma uaap_login_body_keeps_vpn username password :
  respects keeps_vpn (uaap_login_body E username password).
Proof.
  unfold uaap_login_body, health_mark_error. frame; flags_kept.
Qed.

Lemma uaap_login_keeps_vpn username password :
  respects keeps_vpn (uaap_login E cfg username password).
Proof.
  unfold uaap_login, activity_tracker, _update_activity.
  frame; try flags_kept. apply uaap_login_body_keeps_vpn.
Qed.

(** A reconnect clears both flags, unless closing the session fails,
    which leaves them as they were. *)
Lemma reconnect_same_or_reset :
  respects same_or_reset (@_reconnect Model E).
Proof.
  intros [c io] r s'. unfold _reconnect, try_except, bind, session_aclose.
  cbn. destruct (aclose E (closes io)); cbn; intros [= <- <-]; cbn.
  - left. split; reflexivity.
  - right. split; reflexivity.
Qed.
End Frames.

Section RequestFrames.
Context {Model : Type} `{Portal Model} `{BlockCipher}.
Variable E : Env.
Variable cfg : Settings.

Local Ltac flags_or_reset :=
  first [ flags_kept | apply reconnect_same_or_reset ].

Lemma send_http_request_same_or_reset method url kwargs :
  respects same_or_reset (@_send_http_request Model E method url kwargs).
Proof.
  unfold _send_http_request, _update_activity. frame; flags_or_reset.
Qed.

Lemma final_attempt_same_or_reset url method kwargs :
  respects same_or_reset
    (_send_model_request_final_attempt E url method kwargs).
Proof.
  unfold _send_model_request_final_attempt, health_mark_healthy,
    health_mark_error.
  frame; try flags_or_reset; apply send_http_request_same_or_reset.
Qed.

Lemma after_retries_same_or_reset url method kwargs last :
  respects same_or_reset (after_retries E url method kwargs last).
Proof.
  unfold after_retries. frame; try flags_or_reset.
  apply final_attempt_same_or_reset.
Qed.

Lemma model_retry_loop_same_or_reset url method kwargs config n :
  forall attempt last,
    respects same_or_reset
      (model_retry_loop E url method kwargs config n attempt last).
Proof.
  induction n as [|n IH]; intros attempt last; cbn [model_retry_loop].
  - apply after_retries_same_or_reset.
  - unfold attempt_once, health_mark_healthy, health_mark_error.
    frame; try flags_or_reset;
      first [ apply send_http_request_same_or_reset
            | apply after_retries_same_or_reset
            | apply IH ].
Qed.

Lemma model_request_same_or_reset url method use_cache force kwargs :
  respects same_or_reset
    (model_request E url method use_cache force kwargs).
Proof.
  unfold model_request, activity_tracker, _update_activity,
    _get_cached_response, _cache_response, _clear_cache,
    _send_model_request_with_retry.
  frame; try flags_or_reset; apply model_retry_loop_same_or_reset.
Qed.

Lemma health_check_same_flags :
  respects same_flags (@_health_check Model E).
Proof.
  unfold _health_check, health_mark_healthy, health_mark_error.
  frame; flags_kept.
Qed.

Lemma login_status_same_flags :
  respects same_flags (@login_status Model E).
Proof.
  unfold login_status, activity_tracker, _update_activity.
  frame; flags_kept.
Qed.

Lemma uaap_login_status_same_flags :
  respects same_flags (@uaap_login_status Model E).
Proof.
  unfold uaap_login_status, activity_tracker, _update_activity.
  frame; flags_kept.
Qed.
End RequestFrames.

(** ** DES decryption undoes DES encryption *)

Section DESFacts.
Import DES.

Lemma bytes_of_bits_of_bytes data :
  bytes_of_bits (bits_of_bytes data) = data.
Proof.
  induction data as [|a data IH]; [reflexivity|].
  cbn [bits_of_bytes flat_map]. unfold byte_bits at 1.
  destruct (Byte.to_bits a) as (b0 & b1 & b2 & b3 & b4 & b5 & b6 & b7) eqn:Ha.
  cbn [app bytes_of_bits].
  change (flat_map byte_bits data) with (bits_of_bytes data).
  now rewrite IH, <- Ha, Byte.of_bits_to_bits.
Qed.

Lemma bits_of_bytes_of_bits n :
  forall x : bits,
    List.length x = (8 * n)%nat -> bits_of_bytes (bytes_of_bits x) = x.
Proof.
  induction n as [|n IH]; intros x Hx.
  - destruct x; [reflexivity | discriminate].
  - do 8 (destruct x as [|? x]; [cbn in Hx; lia|]).
    cbn [bytes_of_bits bits_of_bytes flat_map]. unfold byte_bits at 1.
    rewrite Byte.to_bits_of_bits. cbn [app].
    change (flat_map byte_bits (bytes_of_bits x))
      with (bits_of_bytes (bytes_of_bits x)).
    rewrite IH; [reflexivity | cbn in Hx; lia].
Qed.

Lemma bits_of_bytes_length data :
  List.length (bits_of_bytes data) = (8 * List.length data)%nat.
Proof.
  induction data as [|a data IH]; [reflexivity|].
  cbn [bits_of_bytes flat_map]. rewrite length_app.
  change (flat_map byte_bits data) with (bits_of_bytes data).
  rewrite IH. unfold byte_bits.
  destruct (Byte.to_bits a) as (b0 & b1 & b2 & b3 & b4 & b5 & b6 & b7).
  cbn [List.length]. lia.
Qed.

Lemma IP_FP (x : bits) :
  List.length x = 64%nat -> permute IP (permute FP x) = x.
Proof.
  intros Hx. do 65 (destruct x as [|? x]; [try discriminate Hx|]).
  - reflexivity.
  - discriminate Hx.
Qed.

Lemma FP_IP (x : bits) :
  List.length x = 64%nat -> permute FP (permute IP x) = x.
Proof.
  intros Hx. do 65 (destruct x as [|? x]; [try discriminate Hx|]).
  - reflexivity.
  - discriminate Hx.
Qed.

Lemma xor_bits_length a :
  forall b, List.length a = List.length b ->
            List.length (xor_bits a b) = List.length a.
Proof.
  induction a as [|x a IH]; intros [|y b] Hl; try discriminate; cbn.
  - reflexivity.
  - f_equal. apply IH. now injection Hl.
Qed.

Lemma xor_bits_cancel a :
  forall b, List.length a = List.length b ->
            xor_bits (xor_bits a b) b = a.
Proof.
  induction a as [|x a IH]; intros [|y b] Hl; try discriminate; cbn.
  - reflexivity.
  - rewrite IH by (now injection Hl).
    f_equal. now destruct x, y.
Qed.

Lemma feistel_f_length r k : List.length (feistel_f r k) = 32%nat.
Proof. unfold feistel_f, permute. now rewrite length_map. Qed.

(** Running the rounds backwards on the swapped halves gives back the
    swapped input. *)
Lemma rounds_inverse ks :
  forall l r l' r' : bits,
    List.length l = 32%nat -> List.length r = 32%nat ->
    rounds ks (l, r) = (l', r') ->
    rounds (rev ks) (r', l') = (r, l)
    /\ List.length l' = 32%nat /\ List.length r' = 32%nat.
Proof.
  induction ks as [|k ks IH]; intros l r l' r' Hl Hr Hrun.
  - cbn in Hrun. injection Hrun as <- <-. cbn. auto.
  - cbn [rounds fold_left rev] in *.
    change (fold_left round ks (round (l, r) k))
      with (rounds ks (r, xor_bits l (feistel_f r k))) in Hrun.
    assert (Hx : List.length (xor_bits l (feistel_f r k)) = 32%nat).
    { rewrite xor_bits_length; [assumption|].
      now rewrite feistel_f_length. }
    destruct (IH _ _ _ _ Hr Hx Hrun) as (Hback & H1 & H2).
    split; [|split; assumption].
    unfold rounds in *. rewrite fold_left_app, Hback. cbn.
    unfold round; cbn [fst snd]. f_equal.
    apply xor_bits_cancel. now rewrite feistel_f_length.
Qed.

Lemma crypt_bits_length ks x : List.length (crypt_bits ks x) = 64%nat.
Proof. unfold crypt_bits, permute. now rewrite length_map. Qed.

Lemma crypt_bits_inverse ks (x : bits) :
  List.length x = 64%nat ->
  crypt_bits (rev ks) (crypt_bits ks x) = x.
Proof.
  intros Hx. unfold crypt_bits at 2.
  remember (permute IP x) as y eqn:Ey.
  assert (Hy : List.length y = 64%nat)
    by (subst y; unfold permute; now rewrite length_map).
  assert (Hl : List.length (firstn 32 y) = 32%nat)
    by (rewrite length_firstn; lia).
  assert (Hr : List.length (skipn 32 y) = 32%nat)
    by (rewrite length_skipn; lia).
  destruct (rounds ks (firstn 32 y, skipn 32 y)) as [l' r'] eqn:Erun.
  destruct (rounds_inverse ks _ _ _ _ Hl Hr Erun) as (Hback & H1 & H2).
  cbn [fst snd].
  unfold crypt_bits.
  rewrite IP_FP by (rewrite length_app; lia).
  rewrite firstn_app, skipn_app, H2.
  replace (32 - 32)%nat with 0%nat by reflexivity.
  rewrite firstn_all2 by lia. rewrite skipn_all2 by lia.
  cbn [firstn skipn app]. rewrite ?app_nil_r.
  match goal with
  | |- permute FP (snd ?t ++ fst ?t)%list = _ =>
      replace t with (skipn 32 y, firstn 32 y) by (symmetry; exact Hback)
  end.
  cbn [fst snd].
  rewrite firstn_skipn. subst y. now apply FP_IP.
Qed.

(** Decryption undoes encryption of an 8-byte block, under any key. *)
Lemma des_decrypt_encrypt key (block : bytes) :
  List.length block = 8%nat ->
  des_decrypt_block key (des_encrypt_block key block) = block.
Proof.
  intros Hb. unfold des_decrypt_block, des_encrypt_block.
  rewrite (bits_of_bytes_of_bits 8) by apply crypt_bits_length.
  rewrite crypt_bits_inverse
    by (rewrite bits_of_bytes_length, Hb; reflexivity).
  apply bytes_of_bits_of_bytes.
Qed.
End DESFacts.

(** ** The login flags along the life of a connection *)

Section Reachable.
Context {Model : Type} `{Portal Model} `{BlockCipher}.
Variable E : Env.
Variable cfg : Settings.

Lemma run_call_keeps_sso_on_login username password :
  respects keeps_sso (run_call E cfg (CallLogin username password)).
Proof.
  cbn [run_call]. frame. apply login_keeps_sso.
Qed.

Lemma run_call_keeps_vpn_on_uaap_login username password :
  respects keeps_vpn (run_call E cfg (CallUaapLogin username password)).
Proof.
  cbn [run_call]. frame. apply uaap_login_keeps_vpn.
Qed.

(** Every call other than the two logins leaves both flags as they
    were or clears both. *)
Lemma run_call_same_or_reset call :
  (forall u p, call <> CallLogin u p) ->
  (forall u p, call <> CallUaapLogin u p) ->
  respects same_or_reset (run_call E cfg call).
Proof.
  intros Hl Hu. destruct call; cbn [run_call].
  - now contradiction (Hl username password).
  - now contradiction (Hu username password).
  - frame. apply model_request_same_or_reset.
  - apply reconnect_same_or_reset.
  - intros s r s' Hrun. apply same_flags_same_or_reset.
    exact (health_check_same_flags E s r s' Hrun).
  - frame. intros s r s' Hrun. apply same_flags_same_or_reset.
    exact (login_status_same_flags E s r s' Hrun).
  - frame. intros s r s' Hrun. apply same_flags_same_or_reset.
    exact (uaap_login_status_same_flags E s r s' Hrun).
Qed.

Lemma same_or_reset_keeps_invariant (c c' : Connection Model) :
  same_or_reset c c' -> sso_implies_vpn c -> sso_implies_vpn c'.
Proof.
  unfold sso_implies_vpn.
  intros [[Hv Hs] | [Hv Hs]] Hinv Hsso;
    congruence || (rewrite Hv, Hinv; congruence).
Qed.

(** C2, as the code has it.  The connection does not enforce the
    implication by itself, but it holds in every state reached from a
    new connection when the SSO login is only run while the VPN flag
    is set and the VPN login only while the SSO flag is clear,
    whatever typed requests, reconnects, health checks and status
    queries come in between and however any of them ends. *)
Theorem sso_implies_vpn_in_login_order s :
  reachable E cfg in_login_order s -> sso_implies_vpn (fst s).
Proof.
  induction 1 as [server sid rc t1 t2 io | s call Hreach IH Hallowed].
  - intros Hsso. discriminate Hsso.
  - destruct (run_call E cfg call s) as [r s'] eqn:Hrun. cbn [snd].
    destruct call; cbn [in_login_order] in Hallowed.
    + pose proof (run_call_keeps_sso_on_login _ _ _ _ _ Hrun) as Hk.
      unfold keeps_sso in Hk. intros Hsso. rewrite Hk in Hsso.
      apply negb_true_iff in Hallowed. congruence.
    + pose proof (run_call_keeps_vpn_on_uaap_login _ _ _ _ _ Hrun) as Hk.
      unfold keeps_vpn in Hk. intros _. congruence.
    + eapply same_or_reset_keeps_invariant; [|exact IH].
      eapply run_call_same_or_reset; [..|exact Hrun]; discriminate.
    + eapply same_or_reset_keeps_invariant; [|exact IH].
      eapply run_call_same_or_reset; [..|exact Hrun]; discriminate.
    + eapply same_or_reset_keeps_invariant; [|exact IH].
      eapply run_call_same_or_reset; [..|exact Hrun]; discriminate.
    + eapply same_or_reset_keeps_invariant; [|exact IH].
      eapply run_call_same_or_reset; [..|exact Hrun]; discriminate.
    + eapply same_or_reset_keeps_invariant; [|exact IH].
      eapply run_call_same_or_reset; [..|exact Hrun]; discriminate.
Qed.
End Reachable.

Section ReachableScenarios.
Import Scenarios.

(** C2 fails as stated: on a new connection an SSO login that the
    portal answers with a redirect sets the SSO flag while the VPN
    flag is still clear. *)
Lemma sso_flag_without_vpn_flag :
  let s := snd (run_call world_sso_accepts cfg0
                  (CallUaapLogin "20230001" "pw") fresh) in
  reachable world_sso_accepts cfg0 any_call s
  /\ _uaap_logged_in (fst s) = true
  /\ _logged_in (fst s) = false
  /\ ~ sso_implies_vpn (fst s).
Proof.
  cbv zeta. split; [|split; [|split]].
  - apply reachable_step; [apply reachable_new | reflexivity].
  - vm_compute. reflexivity.
  - vm_compute. reflexivity.
  - intros Hinv.
    assert (Hv : true = false); [|discriminate Hv].
    rewrite <- Hinv; vm_compute; reflexivity.
Qed.

(** A VPN login then an SSO login, both accepted, follow the order of
    the callers and end with both flags set. *)
Lemma sso_implies_vpn_in_login_order_witness :
  let s1 := snd (run_call world_both_accept cfg0
                   (CallLogin "20230001" "pw") fresh) in
  let s2 := snd (run_call world_both_accept cfg0
                   (CallUaapLogin "20230001" "pw") s1) in
  reachable world_both_accept cfg0 in_login_order s2
  /\ sso_implies_vpn (fst s2).
Proof.
  cbv zeta.
  assert (Hr : reachable world_both_accept cfg0 in_login_order
                 (snd (run_call world_both_accept cfg0
                         (CallUaapLogin "20230001" "pw")
                         (snd (run_call world_both_accept cfg0
                                 (CallLogin "20230001" "pw") fresh))))).
  { apply reachable_step.
    - apply reachable_step; [apply reachable_new | reflexivity].
    - vm_compute. reflexivity. }
  split; [exact Hr|].
  exact (sso_implies_vpn_in_login_order world_both_accept cfg0 _ Hr).
Defined.
End ReachableScenarios.

(** ** The decorators on a call that returns *)

Section Decorators.
Context {Model : Type}.
Variable E : Env.

Lemma activity_tracker_run {A} (func : M (Connection Model) A) c io :
  activity_tracker E func (c, io)
  = func (set_last_activity (clock E (ticks io)) c, ticked io).
Proof. reflexivity. Qed.

(** A call that returns is not retried. *)
Lemma retry_async_returns {S A} config (func : M S A) s a s' :
  1 <= max_attempts config ->
  func s = (Ret a, s') ->
  retry_async E config func s = (Ret (Some a), s').
Proof.
  intros Hmax Hf. unfold retry_async.
  destruct (Z.to_nat (max_attempts config)) as [|n] eqn:Hn; [lia|].
  now apply retry_loop_success.
Qed.
End Decorators.

(** ** VPN login *)

Section VpnLogin.
Context {Model : Type} `{Portal Model} `{BlockCipher}.
Variable E : Env.
Variable cfg : Settings.

(** The handshake went through to the answer of the POST. *)
Lemma login_body_answered username password (c : Connection Model) io
    page twfid key hex resp :
  net E (List.length (wire io)) = Ret page ->
  re_search_tag "TwfID" (text page) = Some twfid ->
  re_search_tag "RSA_ENCRYPT_KEY" (text page) = Some key ->
  rsa_encrypt_hex (rsa_exp_of (text page)) key
    (password_to_encrypt_of password (text page)) = Some hex ->
  net E (Datatypes.S (List.length (wire io))) = Ret resp ->
  exists s',
    login_body E username password (c, io)
    = (Ret (contains RESULT_OK (text resp)), s')
    /\ _logged_in (fst s') = contains RESULT_OK (text resp)
    /\ List.length (wire (snd s')) = (2 + List.length (wire io))%nat
    /\ sleeps (snd s') = sleeps io.
Proof.
  intros Hget Ht Hk Hrsa Hpost.
  unfold login_body, try_except, bind, Effects.get, send, modify.
  cbn [fst snd]. rewrite Hget, Ht. cbn [fst snd]. rewrite Hk, Hrsa.
  cbn [fst snd sent wire List.length]. rewrite Hpost.
  destruct (contains RESULT_OK (text resp)); cbn; eauto.
Qed.

(** The password cannot be encrypted: a login error, before any POST. *)
Lemma login_body_encryption_fails username password (c : Connection Model) io
    page twfid key :
  net E (List.length (wire io)) = Ret page ->
  re_search_tag "TwfID" (text page) = Some twfid ->
  re_search_tag "RSA_ENCRYPT_KEY" (text page) = Some key ->
  rsa_encrypt_hex (rsa_exp_of (text page)) key
    (password_to_encrypt_of password (text page)) = None ->
  exists s',
    login_body E username password (c, io) = (Raise AUFELoginError, s')
    /\ _logged_in (fst s') = false
    /\ List.length (wire (snd s')) = (1 + List.length (wire io))%nat
    /\ sleeps (snd s') = sleeps io.
Proof.
  intros Hget Ht Hk Hrsa.
  unfold login_body, try_except, bind, Effects.get, send, modify.
  cbn [fst snd]. rewrite Hget, Ht. cbn [fst snd]. rewrite Hk, Hrsa.
  cbn. eauto.
Qed.

(** The first response lacks the token or the modulus. *)
Lemma login_body_token_missing username password (c : Connection Model) io
    page :
  net E (List.length (wire io)) = Ret page ->
  re_search_tag "TwfID" (text page) = None
  \/ re_search_tag "RSA_ENCRYPT_KEY" (text page) = None ->
  exists s',
    login_body E username password (c, io) = (Ret false, s')
    /\ _logged_in (fst s') = _logged_in c
    /\ List.length (wire (snd s')) = (1 + List.length (wire io))%nat
    /\ sleeps (snd s') = sleeps io.
Proof.
  intros Hget Hmiss.
  unfold login_body, try_except, bind, Effects.get, send, modify.
  cbn [fst snd]. rewrite Hget.
  destruct (re_search_tag "TwfID" (text page)) as [twfid|] eqn:Ht.
  - destruct Hmiss as [Hmiss | Hmiss]; [discriminate|].
    cbn [fst snd]. rewrite Hmiss. cbn. eauto.
  - cbn. eauto.
Qed.

(** Let the policy allow at least one attempt and the first GET
    be answered.  When the answer carries a TwfID and an RSA modulus,
    the password is encrypted and the POST is answered, [login]
    returns whether the body of that answer contains
    [<Result>1</Result>] and leaves the VPN flag equal to it: it
    returns true with the flag set exactly when the marker is there,
    and returns false with the flag clear when it is not.  When the
    TwfID or the modulus is missing, [login] returns false and the
    flag is as it was, so a clear flag stays clear.  When the token and
    the modulus are there and the password cannot be encrypted, [login]
    raises the login error, which is not retryable, and the flag is
    clear.  In none of these cases is the handshake retried: two
    requests, respectively one, were sent and nothing was slept. *)
Theorem login_returns_marker_presence username password
    (c : Connection Model) io page :
  1 <= MAX_RETRIES cfg ->
  net E (List.length (wire io)) = Ret page ->
  let r := login E cfg username password (c, io) in
  (forall twfid key hex resp,
      re_search_tag "TwfID" (text page) = Some twfid ->
      re_search_tag "RSA_ENCRYPT_KEY" (text page) = Some key ->
      rsa_encrypt_hex (rsa_exp_of (text page)) key
        (password_to_encrypt_of password (text page)) = Some hex ->
      net E (Datatypes.S (List.length (wire io))) = Ret resp ->
      result_of r = Ret (Some (contains RESULT_OK (text resp)))
      /\ _logged_in (state_of r) = contains RESULT_OK (text resp)
      /\ ((result_of r = Ret (Some true) /\ _logged_in (state_of r) = true)
          <-> contains RESULT_OK (text resp) = true)
      /\ (contains RESULT_OK (text resp) = false ->
          result_of r = Ret (Some false)
          /\ _logged_in (state_of r) = false)
      /\ List.length (wire (io_of r)) = (2 + List.length (wire io))%nat
      /\ sleeps (io_of r) = sleeps io)
  /\ (forall twfid key,
         re_search_tag "TwfID" (text page) = Some twfid ->
         re_search_tag "RSA_ENCRYPT_KEY" (text page) = Some key ->
         rsa_encrypt_hex (rsa_exp_of (text page)) key
           (password_to_encrypt_of password (text page)) = None ->
         result_of r = Raise AUFELoginError
         /\ isinstance AUFELoginError
              (retry_on_exceptions (default_retry_config cfg)) = false
         /\ _logged_in (state_of r) = false
         /\ List.length (wire (io_of r)) = (1 + List.length (wire io))%nat
         /\ sleeps (io_of r) = sleeps io)
  /\ (re_search_tag "TwfID" (text page) = None
      \/ re_search_tag "RSA_ENCRYPT_KEY" (text page) = None ->
      result_of r = Ret (Some false)
      /\ _logged_in (state_of r) = _logged_in c
      /\ (_logged_in c = false -> _logged_in (state_of r) = false)
      /\ List.length (wire (io_of r)) = (1 + List.length (wire io))%nat
      /\ sleeps (io_of r) = sleeps io).
Proof.
  intros Hmax Hget r. subst r. unfold login.
  rewrite activity_tracker_run. split; [|split].
  - intros twfid key hex resp Ht Hk Hrsa Hpost.
    destruct (login_body_answered username password
                (set_last_activity (clock E (ticks io)) c) (ticked io)
                page twfid key hex resp Hget Ht Hk Hrsa Hpost)
      as (s' & Hrun & Hflag & Hwire & Hsleeps).
    rewrite (retry_async_returns E (default_retry_config cfg) _ _ _ _
               Hmax Hrun).
    unfold result_of, state_of, io_of. cbn [fst snd].
    split; [reflexivity|]. split; [exact Hflag|]. split; [split|].
    + intros [Hr _]. now injection Hr.
    + intros Hm. rewrite Hflag, Hm. now split.
    + split; [|split; [exact Hwire | exact Hsleeps]].
      intros Hm. rewrite Hflag, Hm. now split.
  - intros twfid key Ht Hk Hrsa.
    destruct (login_body_encryption_fails username password
                (set_last_activity (clock E (ticks io)) c) (ticked io)
                page twfid key Hget Ht Hk Hrsa)
      as (s' & Hrun & Hflag & Hwire & Hsleeps).
    unfold retry_async.
    destruct (Z.to_nat (max_attempts (default_retry_config cfg)))
      as [|n] eqn:Hn; [cbn in Hn; lia|].
    rewrite (retry_loop_not_retryable E (default_retry_config cfg) _ n 0 None
               _ _ _ Hrun eq_refl).
    unfold result_of, state_of, io_of. cbn [fst snd].
    split; [reflexivity|]. split; [reflexivity|]. split; [exact Hflag|].
    split; [exact Hwire | exact Hsleeps].
  - intros Hmiss.
    destruct (login_body_token_missing username password
                (set_last_activity (clock E (ticks io)) c) (ticked io)
                page Hget Hmiss) as (s' & Hrun & Hflag & Hwire & Hsleeps).
    rewrite (retry_async_returns E (default_retry_config cfg) _ _ _ _
               Hmax Hrun).
    unfold result_of, state_of, io_of. cbn [fst snd].
    split; [reflexivity|]. split; [exact Hflag|].
    split; [|split; [exact Hwire | exact Hsleeps]].
    intros Hc. now rewrite Hflag.
Qed.
End VpnLogin.

(** ** SSO login *)

Section SsoLogin.
Context {Model : Type} `{Portal Model} `{BlockCipher}.
Variable E : Env.
Variable cfg : Settings.

(** The handshake went through to the answer of the POST. *)
Lemma uaap_login_body_answered username password (c : Connection Model) io
    page lt execution resp :
  net E (List.length (wire io)) = Ret page ->
  status_code page = 200 ->
  find_input "lt" (text page) = Some (Some lt) ->
  find_input "execution" (text page) = Some execution ->
  net E (Datatypes.S (List.length (wire io))) = Ret resp ->
  exists s',
    uaap_login_body E username password (c, io)
    = (Ret (redirected_302 resp), s')
    /\ _uaap_logged_in (fst s')
       = (redirected_302 resp || _uaap_logged_in c)
    /\ uaap_cookies (fst s')
       = (if redirected_302 resp then Some (cookies resp)
          else uaap_cookies c).
Proof.
  intros Hget Hstatus Hlt Hex Hpost.
  unfold uaap_login_body, try_except, bind, Effects.get, send, modify.
  cbn [fst snd]. rewrite Hget, Hstatus. cbn [fst snd Z.eqb Pos.eqb negb].
  rewrite Hlt, Hex. cbn [fst snd sent wire List.length]. rewrite Hpost.
  unfold redirected_302.
  destruct (status_code resp =? 302); [|cbn; eauto].
  destruct (String.eqb (default "" (headers resp !! "Location")) "");
    cbn; eauto.
Qed.

(** C4, as the code has it.  Let the policy allow at least one
    attempt, the login page be served with its [lt] and [execution]
    fields, and the POST be answered.  Then [uaap_login] returns
    whether the answer has status 302 and a [Location] header that is
    not empty.  If so it stores the cookies of the answer and sets the
    SSO flag; if not, which includes every other status, the flag and
    the stored cookies are as they were. *)
Theorem uaap_login_succeeds_on_302 username password
    (c : Connection Model) io page lt execution resp :
  1 <= MAX_RETRIES cfg ->
  net E (List.length (wire io)) = Ret page ->
  status_code page = 200 ->
  find_input "lt" (text page) = Some (Some lt) ->
  find_input "execution" (text page) = Some execution ->
  net E (Datatypes.S (List.length (wire io))) = Ret resp ->
  let r := uaap_login E cfg username password (c, io) in
  result_of r = Ret (Some (redirected_302 resp))
  /\ (redirected_302 resp = true ->
      uaap_cookies (state_of r) = Some (cookies resp)
      /\ _uaap_logged_in (state_of r) = true)
  /\ (redirected_302 resp = false ->
      uaap_cookies (state_of r) = uaap_cookies c
      /\ _uaap_logged_in (state_of r) = _uaap_logged_in c)
  /\ (status_code resp <> 302 -> result_of r = Ret (Some false)).
Proof.
  intros Hmax Hget Hstatus Hlt Hex Hpost r. subst r. unfold uaap_login.
  rewrite activity_tracker_run.
  destruct (uaap_login_body_answered username password
              (set_last_activity (clock E (ticks io)) c) (ticked io)
              page lt execution resp Hget Hstatus Hlt Hex Hpost)
    as (s' & Hrun & Hflag & Hcookies).
  rewrite (retry_async_returns E (default_retry_config cfg) _ _ _ _ Hmax Hrun).
  unfold result_of, state_of. cbn [fst snd].
  split; [reflexivity|]. split; [|split].
  - intros Hok. rewrite Hcookies, Hflag, Hok. now split.
  - intros Hok. rewrite Hcookies, Hflag, Hok. now split.
  - intros Hne. unfold redirected_302.
    destruct (Z.eqb_spec (status_code resp) 302); [contradiction|reflexivity].
Qed.
End SsoLogin.

Section SsoScenarios.
Import Scenarios.

(** C4 fails as stated: a 303 answer with a [Location] header is a
    redirect of the 3xx class, and [uaap_login] returns false on it
    and leaves the SSO flag clear. *)
Lemma see_other_is_not_success :
  let resp := redirect 303 "http://jwc/" in
  let r := uaap_login world_sso_see_other cfg0 "20230001" "pw" fresh in
  net world_sso_see_other 1 = Ret resp
  /\ redirect_with_location resp = true
  /\ result_of r = Ret (Some false)
  /\ _uaap_logged_in (state_of r) = false
  /\ uaap_cookies (state_of r) = None.
Proof. vm_compute. repeat split. Qed.

Lemma uaap_login_succeeds_on_302_witness :
  let r := uaap_login world_sso_accepts cfg0 "20230001" "pw" fresh in
  result_of r = Ret (Some true)
  /\ _uaap_logged_in (state_of r) = true.
Proof.
  cbv zeta.
  destruct (uaap_login_succeeds_on_302 world_sso_accepts cfg0
              "20230001" "pw" (fst fresh) (snd fresh) sso_login_page
              "LT-1234-abcd" (Some "e1s1") (redirect 302 "http://jwc/")
              ltac:(vm_compute; discriminate) eq_refl eq_refl eq_refl eq_refl
              eq_refl)
    as (Hres & Hok & _).
  split; [exact Hres|]. exact (proj2 (Hok eq_refl)).
Defined.
End SsoScenarios.

(** ** Failed logins *)

Section RetryFailure.
Context {S A : Type}.
Variable E : Env.
Variable config : RetryConfig.
Variable func : M S A.

(** If every run of the operation that does not return a good value
    moves the state along the preorder [R], so does a wrapped call
    that does not return a good value. *)
Lemma retry_loop_failure (R : S -> S -> Prop) `{!PreOrder R}
    (good : A -> bool) :
  (forall s r s',
      func s = (r, s') ->
      (forall a, r = Ret a -> good a = false) ->
      R (fst s) (fst s')) ->
  forall n attempt last s r s',
    retry_loop E config func n attempt last s = (r, s') ->
    (forall a, r = Ret (Some a) -> good a = false) ->
    R (fst s) (fst s').
Proof.
  intros Hfunc. induction n as [|n IH]; intros attempt last s r s' Hrun Hbad.
  - cbn in Hrun. destruct last; injection Hrun as <- <-; reflexivity.
  - cbn [retry_loop] in Hrun. unfold try_except, bind in Hrun.
    destruct (func s) as [[a | e] s1] eqn:Hf.
    + injection Hrun as <- <-.
      apply (Hfunc _ _ _ Hf). intros a' [= <-]. now apply Hbad.
    + assert (Hstep : R (fst s) (fst s1))
        by (apply (Hfunc _ _ _ Hf); intros a' [=]).
      destruct (isinstance e _); [|injection Hrun as <- <-; exact Hstep].
      destruct (attempt =? _); [injection Hrun as <- <-; exact Hstep|].
      destruct (next_delay E config attempt s1) as [[d | e'] s2] eqn:Hd.
      * assert (Hs2 : fst s2 = fst s1).
        { unfold next_delay in Hd.
          destruct (draws_jitter attempt config);
            injection Hd as _ <-; reflexivity. }
        unfold sleep in Hrun. cbn [fst snd] in Hrun.
        transitivity (fst s1); [exact Hstep|].
        rewrite <- Hs2.
        exact (IH _ _ _ _ _ Hrun Hbad).
      * unfold next_delay in Hd.
        destruct (draws_jitter attempt config); discriminate Hd.
Qed.

(** If the state satisfies [Q] whenever the operation raises, it
    satisfies [Q] whenever the wrapped call raises. *)
Lemma retry_loop_raises (Q : S -> Prop) :
  (forall s e s', func s = (Raise e, s') -> Q (fst s')) ->
  forall n attempt last s e s',
    (is_Some last -> Q (fst s)) ->
    retry_loop E config func n attempt last s = (Raise e, s') ->
    Q (fst s').
Proof.
  intros Hfunc. induction n as [|n IH]; intros attempt last s e s' Hlast Hrun.
  - cbn in Hrun. destruct last; [|discriminate Hrun].
    injection Hrun as _ <-. apply Hlast. eauto.
  - cbn [retry_loop] in Hrun. unfold try_except, bind in Hrun.
    destruct (func s) as [[a | e1] s1] eqn:Hf; [discriminate Hrun|].
    pose proof (Hfunc _ _ _ Hf) as HQ.
    destruct (isinstance e1 _); [|injection Hrun as _ <-; exact HQ].
    destruct (attempt =? _); [injection Hrun as _ <-; exact HQ|].
    destruct (next_delay E config attempt s1) as [[d | e'] s2] eqn:Hd.
    + assert (Hs2 : fst s2 = fst s1).
      { unfold next_delay in Hd.
        destruct (draws_jitter attempt config);
          injection Hd as _ <-; reflexivity. }
      unfold sleep in Hrun. cbn [fst snd] in Hrun.
      refine (IH _ _ (fst s2, slept d (snd s2)) _ _ _ Hrun).
      intros _. cbn [fst]. now rewrite Hs2.
    + unfold next_delay in Hd.
      destruct (draws_jitter attempt config); discriminate Hd.
Qed.
End RetryFailure.

Section FailedLogin.
Context {Model : Type} `{Portal Model} `{BlockCipher}.
Variable E : Env.
Variable cfg : Settings.

Local Ltac outcome_done :=
  cbn; intros [= <- <-]; cbn; (split; [|split]);
  [ let e := fresh in let He := fresh in
    intros e He; try discriminate He; injection He as <-; auto
  | let Hr := fresh in intros Hr; try discriminate Hr; auto
  | let Hr := fresh in intros Hr; try discriminate Hr; auto ].

(** How one run of the VPN handshake can end. *)
Lemma login_body_outcomes username password (c : Connection Model) io r s' :
  login_body E username password (c, io) = (r, s') ->
  (forall e, r = Raise e ->
     _logged_in (fst s') = false
     /\ (e = AUFEConnectionError \/ e = AUFELoginError))
  /\ (r = Ret false ->
      _logged_in (fst s') = false
      \/ (_logged_in (fst s') = _logged_in c
          /\ exists page,
              net E (List.length (wire io)) = Ret page
              /\ (re_search_tag "TwfID" (text page) = None
                  \/ re_search_tag "RSA_ENCRYPT_KEY" (text page) = None)))
  /\ (r = Ret true -> _logged_in (fst s') = true).
Proof.
  unfold login_body, try_except, bind, Effects.get, send, modify,
    health_mark_error, time_time, raise, ret.
  cbn [fst snd].
  destruct (net E (List.length (wire io))) as [page | e0] eqn:Hget.
  - destruct (re_search_tag "TwfID" (text page)) as [twfid|] eqn:Ht.
    + cbn [fst snd].
      destruct (re_search_tag "RSA_ENCRYPT_KEY" (text page)) as [key|] eqn:Hk.
      * destruct (rsa_encrypt_hex _ _ _) as [hex|].
        -- cbn [fst snd sent wire List.length].
           destruct (net E (Datatypes.S (List.length (wire io))))
             as [resp | e1].
           ++ destruct (contains RESULT_OK (text resp)); outcome_done.
           ++ destruct (issubclass e1 RequestError); outcome_done.
        -- outcome_done.
      * outcome_done. right. split; [reflexivity|]. eauto.
    + outcome_done. right. split; [reflexivity|]. eauto.
  - destruct (issubclass e0 RequestError); outcome_done.
Qed.

Lemma login_body_failure username password (c : Connection Model) io r s' :
  login_body E username password (c, io) = (r, s') ->
  r <> Ret true ->
  stays_logged_out c (fst s').
Proof.
  intros Hrun Hfail Hc.
  destruct (login_body_outcomes _ _ _ _ _ _ Hrun) as (Hraise & Hfalse & _).
  destruct r as [[|] | e].
  - now contradiction Hfail.
  - destruct (Hfalse eq_refl) as [Hf | [Hsame _]]; congruence.
  - exact (proj1 (Hraise e eq_refl)).
Qed.

(** A run of the SSO handshake that does not return true leaves the
    flags and the stored cookies as they were. *)
Lemma uaap_login_body_failure username password (c : Connection Model) io
    r s' :
  uaap_login_body E username password (c, io) = (r, s') ->
  r <> Ret true ->
  same_flags c (fst s') /\ uaap_cookies (fst s') = uaap_cookies c.
Proof.
  unfold uaap_login_body, try_except, bind, Effects.get, send, modify,
    health_mark_error, time_time, raise, ret.
  cbn [fst snd].
  destruct (net E (List.length (wire io))) as [page | e0].
  - destruct (negb (status_code page =? 200)).
    { cbn. intros [= <- <-] _. cbn. repeat split. }
    destruct (find_input "lt" (text page)) as [[lt|]|];
      [| | cbn; intros [= <- <-] _; cbn; repeat split ].
    + destruct (find_input "execution" (text page)) as [ex|];
        [| cbn; intros [= <- <-] _; cbn; repeat split ].
      cbn [fst snd sent wire List.length].
      destruct (net E (Datatypes.S (List.length (wire io)))) as [resp | e1].
      * destruct (status_code resp =? 302);
          [| cbn; intros [= <- <-] _; cbn; repeat split ].
        destruct (negb (String.eqb _ _)).
        -- cbn. intros [= <- <-] Hfail. now contradiction Hfail.
        -- cbn. intros [= <- <-] _. cbn. repeat split.
      * destruct (issubclass e1 RequestError);
          cbn; intros [= <- <-] _; cbn; repeat split.
    + destruct (find_input "execution" (text page)) as [ex|];
        [| cbn; intros [= <- <-] _; cbn; repeat split ].
      destruct (issubclass Exception_ RequestError);
        cbn; intros [= <- <-] _; cbn; repeat split.
  - destruct (issubclass e0 RequestError);
      cbn; intros [= <- <-] _; cbn; repeat split.
Qed.
End FailedLogin.

Section FailedLoginTheorem.
Context {Model : Type} `{Portal Model} `{BlockCipher}.
Variable E : Env.
Variable cfg : Settings.

Lemma not_true_is_bad (r : Res bool) :
  (forall a, r = Ret a -> a = false) -> r <> Ret true.
Proof. intros Hbad Hr. specialize (Hbad true Hr). discriminate. Qed.

Lemma login_failure_stays_logged_out username password
    (c : Connection Model) io :
  let r := login E cfg username password (c, io) in
  result_of r <> Ret (Some true) ->
  stays_logged_out c (state_of r).
Proof.
  cbv zeta. unfold login. rewrite activity_tracker_run.
  intros Hfail.
  destruct (retry_async _ _ _ _) as [r s'] eqn:Hrun.
  unfold result_of, state_of in *. cbn [fst snd] in *.
  assert (Hstart : stays_logged_out c
                     (set_last_activity (clock E (ticks io)) c))
    by (intros Hc; exact Hc).
  transitivity (set_last_activity (clock E (ticks io)) c); [exact Hstart|].
  refine (retry_loop_failure E _ _ (@stays_logged_out Model) (fun b => b) _
            _ _ _ (_, _) _ _ Hrun _).
  - intros [c1 io1] r1 s1 Hbody Hbad.
    apply (login_body_failure E _ _ _ _ _ _ Hbody).
    now apply not_true_is_bad.
  - intros a ->. destruct a; [now contradiction Hfail | reflexivity].
Qed.

Lemma login_raises_logged_out username password (c : Connection Model) io e :
  let r := login E cfg username password (c, io) in
  result_of r = Raise e -> _logged_in (state_of r) = false.
Proof.
  cbv zeta. unfold login. rewrite activity_tracker_run.
  destruct (retry_async _ _ _ _) as [r s'] eqn:Hrun.
  unfold result_of, state_of. cbn [fst snd]. intros ->.
  refine (retry_loop_raises E _ _ (fun c' => _logged_in c' = false) _
            _ _ _ _ _ _ _ Hrun).
  - intros [c1 io1] e1 s1 Hbody.
    exact (proj1 (proj1 (login_body_outcomes E _ _ _ _ _ _ Hbody) e1 eq_refl)).
  - intros [x Hx]. discriminate Hx.
Qed.

Lemma uaap_login_failure_same_flags username password
    (c : Connection Model) io :
  let r := uaap_login E cfg username password (c, io) in
  result_of r <> Ret (Some true) ->
  same_flags c (state_of r).
Proof.
  cbv zeta. unfold uaap_login. rewrite activity_tracker_run.
  intros Hfail.
  destruct (retry_async _ _ _ _) as [r s'] eqn:Hrun.
  unfold result_of, state_of in *. cbn [fst snd] in *.
  assert (Hstart : same_flags c (set_last_activity (clock E (ticks io)) c))
    by (split; reflexivity).
  transitivity (set_last_activity (clock E (ticks io)) c); [exact Hstart|].
  refine (retry_loop_failure E _ _ (@same_flags Model) (fun b => b) _
            _ _ _ (_, _) _ _ Hrun _).
  - intros [c1 io1] r1 s1 Hbody Hbad.
    apply (uaap_login_body_failure E _ _ _ _ _ _ Hbody).
    now apply not_true_is_bad.
  - intros a ->. destruct a; [now contradiction Hfail | reflexivity].
Qed.

(** C3, as the code has it.  A VPN login that fails never changes the
    SSO flag, and leaves the VPN flag clear when it fails by a raised
    exception or after the first answer carried the token and the
    modulus (the result marker was refused).  An SSO login that fails
    changes neither flag.  So a failing login that starts with a
    clear VPN flag ends with it clear, and a failing login of either
    kind that starts with both flags clear ends with both clear; a
    flag set before the attempt is not cleared by the SSO login, nor
    the SSO flag by the VPN login. *)
Theorem failed_login_flags username password (c : Connection Model) io :
  (forall r s',
      login_body E username password (c, io) = (r, s') ->
      r <> Ret true ->
      _uaap_logged_in (fst s') = _uaap_logged_in c
      /\ (forall e, r = Raise e -> _logged_in (fst s') = false)
      /\ (forall page twfid key,
             net E (List.length (wire io)) = Ret page ->
             re_search_tag "TwfID" (text page) = Some twfid ->
             re_search_tag "RSA_ENCRYPT_KEY" (text page) = Some key ->
             _logged_in (fst s') = false))
  /\ (forall r s',
         uaap_login_body E username password (c, io) = (r, s') ->
         r <> Ret true ->
         same_flags c (fst s'))
  /\ (let r := login E cfg username password (c, io) in
      result_of r <> Ret (Some true) ->
      _uaap_logged_in (state_of r) = _uaap_logged_in c
      /\ (forall e, result_of r = Raise e -> _logged_in (state_of r) = false)
      /\ (_logged_in c = false -> _logged_in (state_of r) = false))
  /\ (let r := uaap_login E cfg username password (c, io) in
      result_of r <> Ret (Some true) ->
      same_flags c (state_of r))
  /\ (_logged_in c = false -> _uaap_logged_in c = false ->
      (let r := login E cfg username password (c, io) in
       result_of r <> Ret (Some true) ->
       _logged_in (state_of r) = false
       /\ _uaap_logged_in (state_of r) = false)
      /\ (let r := uaap_login E cfg username password (c, io) in
          result_of r <> Ret (Some true) ->
          _logged_in (state_of r) = false
          /\ _uaap_logged_in (state_of r) = false)).
Proof.
  assert (Hsso : forall r s', login E cfg username password (c, io) = (r, s')
                              -> _uaap_logged_in (fst s') = _uaap_logged_in c).
  { intros r s' Hrun. exact (login_keeps_sso E cfg _ _ _ _ _ Hrun). }
  split; [|split; [|split; [|split]]].
  - intros r s' Hrun Hfail.
    destruct (login_body_outcomes E _ _ _ _ _ _ Hrun) as (Hraise & Hfalse & _).
    split; [exact (login_body_keeps_sso E _ _ _ _ _ Hrun)|]. split.
    + intros e ->. exact (proj1 (Hraise e eq_refl)).
    + intros page twfid key Hget Ht Hk.
      destruct r as [[|] | e].
      * now contradiction Hfail.
      * destruct (Hfalse eq_refl) as [Hf | (_ & page' & Hget' & Hmiss)];
          [exact Hf|].
        rewrite Hget in Hget'. injection Hget' as <-.
        destruct Hmiss; congruence.
      * exact (proj1 (Hraise e eq_refl)).
  - intros r s' Hrun Hfail.
    exact (proj1 (uaap_login_body_failure E _ _ _ _ _ _ Hrun Hfail)).
  - cbv zeta. intros Hfail. split; [|split].
    + unfold state_of. destruct (login _ _ _ _ _) as [r s'] eqn:Hrun.
      exact (Hsso _ _ eq_refl).
    + intros e. apply login_raises_logged_out.
    + apply (login_failure_stays_logged_out _ _ _ _ Hfail).
  - cbv zeta. apply uaap_login_failure_same_flags.
  - intros Hv Hs. cbv zeta. split.
    + intros Hfail. split.
      * exact (login_failure_stays_logged_out _ _ _ _ Hfail Hv).
      * unfold state_of. destruct (login _ _ _ _ _) as [r s'] eqn:Hrun.
        cbn [fst snd]. rewrite (Hsso _ _ eq_refl). exact Hs.
    + intros Hfail.
      destruct (uaap_login_failure_same_flags _ _ _ _ Hfail) as [H1 H2].
      split; congruence.
Qed.
End FailedLoginTheorem.

Section LoginScenarios.
Import Scenarios.

(** C3 fails as stated: after both logins were accepted, a VPN login
    that the portal rejects returns false and clears the VPN flag,
    and the SSO flag is still set. *)
Lemma rejected_relogin_keeps_sso_flag :
  let s1 := snd (login world_relogin_rejected cfg0 "20230001" "pw" fresh) in
  let s2 := snd (uaap_login world_relogin_rejected cfg0 "20230001" "pw" s1) in
  let r := login world_relogin_rejected cfg0 "20230001" "pw" s2 in
  _logged_in (fst s2) = true
  /\ _uaap_logged_in (fst s2) = true
  /\ result_of r = Ret (Some false)
  /\ _logged_in (state_of r) = false
  /\ _uaap_logged_in (state_of r) = true.
Proof. vm_compute. repeat split. Qed.

(** A failed SSO login does not clear the flags either: after both
    logins were accepted, an SSO login that cannot reach the portal
    raises a connection error and both flags are still set. *)
Example failed_sso_login_keeps_both_flags :
  let s1 := snd (login world_both_accept cfg0 "20230001" "pw" fresh) in
  let s2 := snd (uaap_login world_both_accept cfg0 "20230001" "pw" s1) in
  let r := uaap_login world_both_accept cfg0 "20230001" "pw" s2 in
  result_of r = Raise AUFEConnectionError
  /\ _logged_in (state_of r) = true
  /\ _uaap_logged_in (state_of r) = true.
Proof. vm_compute. repeat split. Qed.

(** The early return of [login] on a missing token, unlike its other
    failure paths, does not clear the VPN flag: a login that fails this
    way on a logged-in connection returns false and leaves it set. *)
Example missing_token_keeps_vpn_flag :
  let s1 := snd (login world_token_missing cfg0 "20230001" "pw" fresh) in
  let r := login world_token_missing cfg0 "20230001" "pw" s1 in
  _logged_in (fst s1) = true
  /\ result_of r = Ret (Some false)
  /\ _logged_in (state_of r) = true.
Proof. vm_compute. repeat split. Qed.

(** A failed SSO login on a new connection leaves both flags clear. *)
Lemma failed_login_flags_witness :
  let r := uaap_login (env_of [] []) cfg0 "20230001" "pw" fresh in
  result_of r = Raise AUFEConnectionError
  /\ _logged_in (state_of r) = false
  /\ _uaap_logged_in (state_of r) = false.
Proof.
  cbv zeta. split; [vm_compute; reflexivity|].
  destruct (failed_login_flags (env_of [] []) cfg0 "20230001" "pw"
              (fst fresh) (snd fresh)) as (_ & _ & _ & _ & Hclear).
  destruct (Hclear eq_refl eq_refl) as [_ Hsso].
  apply Hsso. vm_compute. discriminate.
Defined.

Lemma login_returns_marker_presence_witness :
  let r := login world_both_accept cfg0 "20230001" "pw" fresh in
  result_of r = Ret (Some true) /\ _logged_in (state_of r) = true.
Proof.
  cbv zeta.
  destruct (login_returns_marker_presence world_both_accept cfg0
              "20230001" "pw" (fst fresh) (snd fresh) vpn_auth_page
              ltac:(vm_compute; discriminate) eq_refl) as [Hanswered _].
  destruct (Hanswered "ABC123" "C0FFEE" "00pw" vpn_accepted
              eq_refl eq_refl eq_refl eq_refl) as (Hres & Hflag & _).
  split; [exact Hres | exact Hflag].
Defined.

(** On a connection with both flags set, one [mark_error] turns both
    status queries false while the flags stay set, and a [mark_healthy]
    turns them true again. *)
Example status_follows_health :
  let s1 := snd (login world_both_accept cfg0 "20230001" "pw" fresh) in
  let s2 := snd (uaap_login world_both_accept cfg0 "20230001" "pw" s1) in
  let s3 := snd (health_mark_error world_both_accept AUFEConnectionError s2) in
  let s4 := snd (health_mark_healthy world_both_accept s3) in
  result_of (login_status world_both_accept s2) = Ret true
  /\ result_of (uaap_login_status world_both_accept s2) = Ret true
  /\ result_of (login_status world_both_accept s3) = Ret false
  /\ result_of (uaap_login_status world_both_accept s3) = Ret false
  /\ _logged_in (fst s3) = true
  /\ _uaap_logged_in (fst s3) = true
  /\ result_of (login_status world_both_accept s4) = Ret true
  /\ result_of (uaap_login_status world_both_accept s4) = Ret true.
Proof. vm_compute. repeat split. Qed.

(** The rejected handshake of the specification: the same first
    answer, and a POST answer without the marker. *)
Example login_rejected :
  let r := login (env_of [Ret vpn_auth_page; Ret vpn_rejected] []) cfg0
             "20230001" "pw" fresh in
  result_of r = Ret (Some false)
  /\ result_of (login_status (env_of [] []) (snd r)) = Ret false.
Proof. vm_compute. split; reflexivity. Qed.

(** Two attempts allowed, a failure that is not retryable: one run,
    nothing slept. *)
Lemma retry_async_non_retryable_once_witness :
  retry_async (env_of [] []) two_attempts (always_raises AUFELoginError)
    (0%nat, io0)
  = (Raise AUFELoginError, (1%nat, io0)).
Proof.
  exact (proj1 (retry_async_non_retryable_once (env_of [] []) two_attempts
                  (always_raises AUFELoginError) (0%nat, io0)
                  AUFELoginError (1%nat, io0)
                  ltac:(vm_compute; discriminate) eq_refl eq_refl)).
Defined.

(** A retryable failure, for contrast: two runs and one delay. *)
Example retry_async_retryable_twice :
  retry_async (env_of [] []) two_attempts (always_raises AUFEConnectionError)
    (0%nat, io0)
  = (Raise AUFEConnectionError, (2%nat, slept 1%Q io0)).
Proof. reflexivity. Qed.

Lemma encrypt_password_is_single_des_witness :
  _encrypt_password "pw" "LT-1234-abcd"
  = des_ecb_reference "pw" "LT-1234-abcd".
Proof.
  apply (@encrypt_password_is_single_des DES.des).
  intros k block _ Hblock. now apply des_decrypt_encrypt.
Defined.

(** The text the cipher library gives for this password and token. *)
Example encrypt_password_value :
  _encrypt_password "pw" "LT-1234-abcd" = "4B1avhgCfek=".
Proof. vm_compute. reflexivity. Qed.

(** The classical test vector of DES. *)
Example des_test_vector :
  let key := [Byte.x13; Byte.x34; Byte.x57; Byte.x79;
              Byte.x9b; Byte.xbc; Byte.xdf; Byte.xf1] in
  let plain := [Byte.x01; Byte.x23; Byte.x45; Byte.x67;
                Byte.x89; Byte.xab; Byte.xcd; Byte.xef] in
  DES.des_encrypt_block key plain
  = [Byte.x85; Byte.xe8; Byte.x13; Byte.x54;
     Byte.x0f; Byte.x0a; Byte.xb4; Byte.x05].
Proof. vm_compute. reflexivity. Qed.
End LoginScenarios.

(** ** Typed requests whose every attempt fails *)

Section Exhaustion.
Context {Model : Type} `{Portal Model} `{BlockCipher}.
Variable E : Env.
Variable cfg : Settings.
Implicit Type s : Connection Model * IO.









End Exhaustion.

Section ExhaustionScenarios.
Import Scenarios.


End ExhaustionScenarios.

(** ** The connection pool *)

Section PoolFacts.
Import Pool.
Context {Model : Type}.
Variable E : Env.
Variable cfg : Settings.
Implicit Type w : World Model.

(** A registered connection that is open, healthy and within the
    inactivity window is handed out again, with its activity time
    touched and nothing else changed. *)
Lemma create_or_get_reuses server sid rc w io l (c : Connection Model) :
  _aufe_connections w !! sid = Some l ->
  heap w !! l = Some c ->
  _is_closed c = false ->
  is_healthy (_health c) = true ->
  clock E (ticks io) - last_activity c < ACTIVITY_TIMEOUT cfg ->
  create_or_get_connection E cfg server sid rc (w, io)
  = (Ret l,
     (touched l (clock E (Datatypes.S (ticks io))) w, ticked (ticked io))).
Proof.
  intros Hpool Hheap Hopen Hhealthy Hwindow.
  unfold create_or_get_connection, get_connection_by_student_id, bind at 1,
    bind at 1, Effects.get, ret.
  cbn [fst snd]. rewrite Hpool.
  unfold bind at 1, is_active_at, deref, bind at 1, bind at 1, Effects.get, ret.
  cbn [fst snd]. rewrite Hheap, Hopen.
  unfold bind at 1, time_time, ret. cbn [fst snd].
  unfold is_active. rewrite Hopen, Hhealthy.
  destruct (Z.ltb_spec (clock E (ticks io) - last_activity c)
              (ACTIVITY_TIMEOUT cfg)) as [_ | Hge]; [|lia].
  reflexivity.
Qed.

(** What the first call leaves: the connection it returns is
    registered under the student id, open and healthy. *)
Lemma create_or_get_registers server sid rc w io :
  sid <> "" ->
  registered_alive w ->
  exists l w1 io1 c1,
    create_or_get_connection E cfg server sid rc (w, io)
    = (Ret l, (w1, io1))
    /\ _aufe_connections w1 !! sid = Some l
    /\ heap w1 !! l = Some c1
    /\ _is_closed c1 = false
    /\ is_healthy (_health c1) = true.
Proof.
  intros Hsid Halive.
  assert (Hne : String.eqb sid "" = false) by now apply String.eqb_neq.
  assert (Hnew : forall w0 io0,
    exists l w1 io1 c1,
      construct E cfg server sid rc (w0, io0) = (Ret l, (w1, io1))
      /\ _aufe_connections w1 !! sid = Some l
      /\ heap w1 !! l = Some c1
      /\ _is_closed c1 = false
      /\ is_healthy (_health c1) = true).
  { intros w0 io0. eexists _, _, _, _.
    unfold construct, bind, time_time, Effects.get, modify, ret.
    cbn [fst snd]. rewrite Hne. split; [reflexivity|].
    cbn [_aufe_connections heap].
    rewrite !lookup_insert_eq. repeat split. }
  unfold create_or_get_connection, get_connection_by_student_id, bind at 1,
    bind at 1, Effects.get, ret.
  cbn [fst snd].
  destruct (_aufe_connections w !! sid) as [l|] eqn:Hpool; [|apply Hnew].
  destruct (Halive sid l Hpool) as [c Hheap].
  unfold bind at 1, is_active_at, deref, bind at 1, bind at 1, Effects.get, ret.
  cbn [fst snd]. rewrite Hheap.
  destruct (_is_closed c) eqn:Hclosed.
  - unfold bind at 1, create_close_task, modify. cbn [fst snd]. apply Hnew.
  - unfold bind at 1, time_time, ret. cbn [fst snd].
    destruct (is_active cfg (clock E (ticks io)) c) eqn:Hactive.
    + unfold _update_activity_at, update, bind, time_time, modify, ret.
      cbn [fst snd]. eexists _, _, _, _. split; [reflexivity|].
      cbn [_aufe_connections heap set_heap].
      split; [exact Hpool|]. rewrite lookup_alter_eq, Hheap. cbn.
      split; [reflexivity|]. split; [exact Hclosed|].
      unfold is_active in Hactive.
      apply andb_true_iff in Hactive as [_ Hh]. exact Hh.
    + unfold bind at 1, create_close_task, modify. cbn [fst snd]. apply Hnew.
Qed.

(** C9, as the code has it.  For every student id that is not the
    empty string, a call returns a connection that is registered under
    that id, open and healthy.  A second call that follows it directly,
    at a clock reading within the inactivity window of that connection,
    returns the same instance and changes nothing but its activity
    time; and so does any later call made while that instance is still
    the one registered under the id, open, healthy and within its
    inactivity window. *)
Theorem create_or_get_twice_same_instance server sid rc rc' w io :
  sid <> "" ->
  registered_alive w ->
  exists l w1 io1 c1,
    create_or_get_connection E cfg server sid rc (w, io)
    = (Ret l, (w1, io1))
    /\ _aufe_connections w1 !! sid = Some l
    /\ heap w1 !! l = Some c1
    /\ _is_closed c1 = false
    /\ is_healthy (_health c1) = true
    /\ (clock E (ticks io1) - last_activity c1 < ACTIVITY_TIMEOUT cfg ->
        create_or_get_connection E cfg server sid rc' (w1, io1)
        = (Ret l,
           (touched l (clock E (Datatypes.S (ticks io1))) w1,
            ticked (ticked io1))))
    /\ (forall w2 io2 c2,
           _aufe_connections w2 !! sid = Some l ->
           heap w2 !! l = Some c2 ->
           _is_closed c2 = false ->
           is_healthy (_health c2) = true ->
           clock E (ticks io2) - last_activity c2 < ACTIVITY_TIMEOUT cfg ->
           create_or_get_connection E cfg server sid rc' (w2, io2)
           = (Ret l,
              (touched l (clock E (Datatypes.S (ticks io2))) w2,
               ticked (ticked io2)))).
Proof.
  intros Hsid Halive.
  destruct (create_or_get_registers server sid rc w io Hsid Halive)
    as (l & w1 & io1 & c1 & Hrun & Hpool & Hheap & Hopen & Hhealthy).
  exists l, w1, io1, c1.
  split; [exact Hrun|]. split; [exact Hpool|]. split; [exact Hheap|].
  split; [exact Hopen|]. split; [exact Hhealthy|]. split.
  - intros Hwindow.
    now apply (create_or_get_reuses server sid rc' w1 io1 l c1).
  - intros w2 io2 c2 Hpool2 Hheap2 Hopen2 Hhealthy2 Hwindow.
    now apply (create_or_get_reuses server sid rc' w2 io2 l c2).
Qed.
End PoolFacts.

Section PoolScenarios.
Import Pool Scenarios.

(** C9 fails as stated, in two ways.  The empty string is a student id
    the constructor does not register, so two calls in a row, well
    within the inactivity window, return two different instances.  And
    for any student id, when the monitor marks the connection
    unhealthy between the two calls, the connection is inactive although
    it is open and was just used: the second call builds a new instance
    and schedules the close of the first. *)
Lemma successive_calls_return_different_instances :
  (let r1 := connect "" empty_pool in
   let r2 := connect "" (snd r1) in
   result_of r1 = Ret 0%nat
   /\ result_of r2 = Ret 1%nat
   /\ clock world_refusing (ticks (io_of r1)) - 0 < ACTIVITY_TIMEOUT cfg0)
  /\ (let r1 := connect "20230001" empty_pool in
      let s := snd (monitor_marks_error 0 (snd r1)) in
      let r2 := connect "20230001" s in
      result_of r1 = Ret 0%nat
      /\ (_is_closed <$> heap (fst s) !! 0%nat) = Some false
      /\ (last_activity <$> heap (fst s) !! 0%nat) = Some 0
      /\ clock world_refusing (ticks (snd s)) - 0 < ACTIVITY_TIMEOUT cfg0
      /\ result_of r2 = Ret 1%nat
      /\ tasks (state_of r2) = [0%nat]).
Proof. vm_compute. repeat split. Qed.

(** A first call on an empty pool, for student 20230001. *)
Lemma create_or_get_twice_same_instance_witness :
  exists l w1 io1 c1,
    connect "20230001" empty_pool = (Ret l, (w1, io1))
    /\ heap w1 !! l = Some c1
    /\ (clock world_refusing (ticks io1) - last_activity c1
        < ACTIVITY_TIMEOUT cfg0 ->
        connect "20230001" (w1, io1)
        = (Ret l,
           (touched l (clock world_refusing (Datatypes.S (ticks io1))) w1,
            ticked (ticked io1)))).
Proof.
  destruct (create_or_get_twice_same_instance (Model := string)
              world_refusing cfg0 "vpn.aufe.edu.cn" "20230001" None None
              empty_world io0)
    as (l & w1 & io1 & c1 & Hrun & _ & Hheap & _ & _ & Hnext & _).
  - discriminate.
  - intros sid l Hl. vm_compute in Hl. discriminate Hl.
  - exists l, w1, io1, c1. split; [exact Hrun|]. split; [exact Hheap|].
    exact Hnext.
Defined.

(** The same two calls, computed: instance 0 both times. *)
Example same_instance_twice :
  let r1 := connect "20230001" empty_pool in
  let r2 := connect "20230001" (snd r1) in
  result_of r1 = Ret 0%nat /\ result_of r2 = Ret 0%nat.
Proof. vm_compute. split; reflexivity. Qed.

(** When the scheduled [close()] of a replaced instance runs, it
    deletes the pool entry of its student id, which by then names the
    new instance: the next call builds a third one although the
    second is open, healthy and was just used. *)
Example deferred_close_unregisters_successor :
  let r1 := connect "20230001" empty_pool in
  let r2 := connect "20230001" (snd (monitor_marks_error 0 (snd r1))) in
  let closed := run_task world_refusing (snd r2) in
  let r3 := connect "20230001" (snd closed) in
  result_of r2 = Ret 1%nat
  /\ _aufe_connections (state_of r2) !! "20230001" = Some 1%nat
  /\ _aufe_connections (state_of closed) !! "20230001" = None
  /\ (_is_closed <$> heap (state_of closed) !! 1%nat) = Some false
  /\ result_of r3 = Ret 2%nat.
Proof. vm_compute. repeat split. Qed.
End PoolScenarios.

(** ** Delays and attempts of the retry executor *)

Section Delays.
Variable config : RetryConfig.

Lemma py_min_le_r a b : (py_min a b <= b)%Q.
Proof.
  unfold py_min. destruct (Qle_bool a b) eqn:Hab.
  - now apply Qle_bool_iff.
  - apply Qle_refl.
Qed.

Lemma base_delay_of_capped attempt :
  strategy config = EXPONENTIAL_BACKOFF \/ strategy config = LINEAR_BACKOFF ->
  (base_delay_of attempt config <= max_delay config)%Q.
Proof.
  unfold base_delay_of. intros [-> | ->]; apply py_min_le_r.
Qed.

(** Between half of a positive delay and the delay itself. *)
Lemma jitter_window (d r : Q) :
  (0 <= d)%Q -> (0 <= r)%Q -> (r <= 1)%Q ->
  (d * (1 # 2) <= d * ((1 # 2) + r * (1 # 2)))%Q
  /\ (d * ((1 # 2) + r * (1 # 2)) <= d)%Q.
Proof.
  intros Hd Hr0 Hr1. split.
  - rewrite !(Qmult_comm d). apply Qmult_le_compat_r; [|exact Hd].
    rewrite <- (Qplus_0_r (1 # 2)) at 1.
    apply Qplus_le_r. apply Qmult_le_0_compat; [exact Hr0 | discriminate].
  - rewrite <- (Qmult_1_r d) at 2.
    rewrite !(Qmult_comm d). apply Qmult_le_compat_r; [|exact Hd].
    destruct r as [n p]. unfold Qle, Qplus, Qmult in *. cbn in *. lia.
Qed.

(** X1.  The delay before a retry. With a draw [r] of [random.random()]
    between 0 and 1: without jitter, or when the delay of the strategy
    is not positive, the delay is that of the strategy; with jitter it
    lies between half of it and all of it; and under the two backoff
    strategies it never exceeds [max_delay]. *)
Theorem calculate_delay_bounds attempt r :
  (0 <= r)%Q -> (r <= 1)%Q ->
  let d := base_delay_of attempt config in
  (draws_jitter attempt config = false -> _calculate_delay attempt config r = d)
  /\ (draws_jitter attempt config = true ->
      (0 < d)%Q
      /\ (d * (1 # 2) <= _calculate_delay attempt config r)%Q
      /\ (_calculate_delay attempt config r <= d)%Q)
  /\ (strategy config = EXPONENTIAL_BACKOFF
      \/ strategy config = LINEAR_BACKOFF ->
      (_calculate_delay attempt config r <= max_delay config)%Q).
Proof.
  intros Hr0 Hr1 d. unfold _calculate_delay. fold d.
  assert (Hpos : draws_jitter attempt config = true -> (0 < d)%Q).
  { unfold draws_jitter. fold d. intros Hj.
    apply andb_true_iff in Hj as [_ Hj]. apply negb_true_iff in Hj.
    apply Qnot_le_lt. intros Hle. apply Qle_bool_iff in Hle. congruence. }
  split; [|split].
  - now intros ->.
  - intros Hj. rewrite Hj. split; [now apply Hpos|].
    apply jitter_window; auto. apply Qlt_le_weak. now apply Hpos.
  - intros Hs. pose proof (base_delay_of_capped attempt Hs) as Hcap.
    fold d in Hcap.
    destruct (draws_jitter attempt config) eqn:Hj; [|exact Hcap].
    eapply Qle_trans; [|exact Hcap].
    apply jitter_window; auto. apply Qlt_le_weak. now apply Hpos.
Qed.
End Delays.

Section RetryCounts.
Context {S A : Type}.
Variable E : Env.
Variable config : RetryConfig.
Variable func : M S A.

(** Computing the delay changes nothing but the count of random
    draws. *)
Lemma next_delay_run {T : Type} attempt (s : T * IO) :
  exists d io',
    next_delay E config attempt s = (Ret d, (fst s, io'))
    /\ sleeps io' = sleeps (snd s) /\ wire io' = wire (snd s)
    /\ closes io' = closes (snd s) /\ ticks io' = ticks (snd s).
Proof.
  destruct s as [c io]. unfold next_delay.
  destruct (draws_jitter attempt config); eexists _, _; cbn; repeat split.
Qed.

(** The runs of the operation and the sleeps of the loop, counted from
    a state with [n] iterations left. *)
Lemma retry_loop_counted n :
  forall attempt last (s : (S * nat) * IO),
    ((1 <= n)%nat -> attempt + Z.of_nat n = max_attempts config) ->
    let out := retry_loop E config (counted func) n attempt last s in
    let k := (snd (state_of out) - snd (fst s))%nat in
    snd (state_of out) = (snd (fst s) + k)%nat
    /\ (k <= n)%nat
    /\ ((1 <= n)%nat -> (1 <= k)%nat)
    /\ ((forall s, sleeps (snd (snd (func s))) = sleeps (snd s)) ->
        List.length (sleeps (io_of out))
        = (List.length (sleeps (snd s)) + (k - 1))%nat).
Proof.
  induction n as [|n IH]; intros attempt last s Hsum.
  - cbn [retry_loop]. unfold state_of, io_of, raise, ret.
    destruct last; cbn [fst snd]; repeat split; intros; lia.
  - cbv zeta. cbn [retry_loop]. unfold try_except, bind, counted.
    assert (Hq : (forall s, sleeps (snd (snd (func s))) = sleeps (snd s)) ->
                 sleeps (snd (snd (func (fst (fst s), snd s))))
                 = sleeps (snd s))
      by (intros Hquiet; exact (Hquiet (fst (fst s), snd s))).
    destruct (func (fst (fst s), snd s)) as [[a | e] s1] eqn:Hf;
      cbn [fst snd] in *.
    + unfold state_of, io_of, ret. cbn [fst snd].
      repeat split; try lia. intros Hquiet. rewrite (Hq Hquiet). lia.
    + destruct (isinstance e (retry_on_exceptions config));
        [| unfold state_of, io_of, raise; cbn [fst snd];
           repeat split; try lia; intros Hquiet; rewrite (Hq Hquiet); lia ].
      destruct (Z.eqb_spec attempt (max_attempts config - 1)) as [Hl | Hm];
        [ unfold state_of, io_of, raise; cbn [fst snd];
          repeat split; try lia; intros Hquiet; rewrite (Hq Hquiet); lia |].
      destruct (next_delay_run attempt
                  ((fst s1, Datatypes.S (snd (fst s))), snd s1))
        as (d & io' & -> & Hsl & _).
      unfold sleep. cbn [fst snd].
      specialize (IH (attempt + 1) (Some e)
                    ((fst s1, Datatypes.S (snd (fst s))), slept d io')).
      cbv zeta in IH. cbn [fst snd slept sleeps List.length] in IH.
      destruct IH as (Hruns & Hle & Hge & Hsleeps); [lia|].
      cbn [fst snd] in Hsl. rewrite Hsl in Hsleeps.
      assert (Hn : (1 <= n)%nat) by lia. specialize (Hge Hn).
      fold (counted func).
      repeat split; try lia. intros Hquiet. specialize (Hsleeps Hquiet).
      rewrite (Hq Hquiet) in Hsleeps. lia.
Qed.

(** X2.  However the operation behaves, a wrapped call runs it at most
    [max_attempts] times, and at least once when [max_attempts] is
    positive; when there is nothing to attempt it returns [None] without
    running it. If the operation itself does not sleep, the sleeps of
    the call are one fewer than its runs, and none when it does not run:
    there is a sleep between two runs and none after the last. *)
Theorem retry_async_attempts (s : S * IO) runs :
  let out := retry_async E config (counted func) ((fst s, runs), snd s) in
  let k := (snd (state_of out) - runs)%nat in
  snd (state_of out) = (runs + k)%nat
  /\ Z.of_nat k <= Z.max 0 (max_attempts config)
  /\ (1 <= max_attempts config -> (1 <= k)%nat)
  /\ (max_attempts config <= 0 -> retry_async E config func s = (Ret None, s))
  /\ ((forall s, sleeps (snd (snd (func s))) = sleeps (snd s)) ->
      List.length (sleeps (io_of out))
      = (List.length (sleeps (snd s)) + (k - 1))%nat).
Proof.
  cbv zeta. unfold retry_async.
  pose proof (retry_loop_counted (Z.to_nat (max_attempts config))
                0 None ((fst s, runs), snd s)) as Hloop.
  cbv zeta in Hloop. cbn [fst snd] in Hloop.
  destruct Hloop as (Hruns & Hle & Hge & Hsleeps); [lia|].
  split; [exact Hruns|]. split; [lia|]. split; [intros; apply Hge; lia|].
  split; [|exact Hsleeps].
  intros Hmax. replace (Z.to_nat (max_attempts config)) with 0%nat by lia.
  reflexivity.
Qed.



(** An operation that fails with retryable exceptions a number of
    times and then returns: [fails_left] reads off the state how many
    failures are still to come. *)
Section Recovery.
Variable fails_left : S -> nat.
Hypothesis fails_first :
  forall s j, fails_left (fst s) = Datatypes.S j ->
    exists e s',
      func s = (Raise e, s')
      /\ isinstance e (retry_on_exceptions config) = true
      /\ fails_left (fst s') = j.
Hypothesis then_returns :
  forall s, fails_left (fst s) = 0%nat -> exists a s', func s = (Ret a, s').


End Recovery.
End RetryCounts.

(** ** Logins through failing attempts *)

Section RetryThrough.
Context {S A : Type}.
Variable E : Env.
Variable config : RetryConfig.
Variable func : M S A.

(** [P i] holds before the run number [i] and [Q i] after it has
    failed; between the two runs the loop draws its jitter and sleeps
    once. *)
Variable P Q : nat -> S * IO -> Prop.
Variable raised : ExnClass -> Prop.
Variable K : nat.
Hypothesis run_fails :
  forall i s, (i < K)%nat -> P i s ->
    exists e s',
      func s = (Raise e, s')
      /\ isinstance e (retry_on_exceptions config) = true
      /\ raised e /\ Q i s'.
Hypothesis sleep_between :
  forall i c io io',
    Q i (c, io) ->
    wire io' = wire io -> ticks io' = ticks io -> closes io' = closes io ->
    List.length (sleeps io') = Datatypes.S (List.length (sleeps io)) ->
    P (Datatypes.S i) (c, io').


End RetryThrough.

(** ** The response cache *)

Section Cache.
Context {Model : Type} `{Portal Model} `{BlockCipher}.
Variable E : Env.
Implicit Type c : Connection Model.

Lemma clear_cache_run c io :
  _clear_cache E (c, io)
  = (Ret tt,
     (set_request_cache
        (filter
           (fun kv => ¬ (clock E (ticks io) - snd (snd kv) > _cache_ttl c))
           (_request_cache c)) c,
      ticked io)).
Proof. reflexivity. Qed.

(** X5.  The purge is invisible to lookups: at the clock reading of the
    purge and at every later one, each key is served from the purged
    cache exactly as it would have been from the cache before; and the
    purge adds no entry. *)
Theorem clear_cache_invisible c io now url :
  clock E (ticks io) <= now ->
  let c' := state_of (_clear_cache E (c, io)) in
  cached_response_at now url c' = cached_response_at now url c
  /\ _request_cache c' ⊆ _request_cache c.
Proof.
  intros Hnow. rewrite clear_cache_run. unfold state_of. cbn [fst snd].
  split; [|apply map_filter_subseteq].
  unfold cached_response_at. cbn [_request_cache _cache_ttl set_request_cache].
  destruct (_request_cache c !! url) as [[resp ts]|] eqn:Hl.
  - destruct (decide (clock E (ticks io) - ts > _cache_ttl c))
      as [Hold | Hfresh].
    + rewrite (proj2 (map_lookup_filter_None _ _ url)).
      * destruct (Z.ltb_spec (now - ts) (_cache_ttl c)); [lia | reflexivity].
      * right. intros v Hv. rewrite Hl in Hv. injection Hv as <-. cbn. tauto.
    + rewrite (proj2 (map_lookup_filter_Some _ _ url (resp, ts)));
        [reflexivity | split; [exact Hl | exact Hfresh]].
  - rewrite (proj2 (map_lookup_filter_None _ _ url)); [reflexivity|].
    left. exact Hl.
Qed.

(** The state [_cache_response] leaves. *)
Lemma cache_response_run url m c io :
  let put := <[url := (m, clock E (ticks io))]> (_request_cache c) in
  _cache_response E url m (c, io)
  = if Z.of_nat (size put) mod 10 =? 0
    then (Ret tt,
          (set_request_cache
             (filter (fun kv => ¬ (clock E (Datatypes.S (ticks io))
                                   - snd (snd kv) > _cache_ttl c)) put) c,
           ticked (ticked io)))
    else (Ret tt, (set_request_cache put c, ticked io)).
Proof.
  cbv zeta. unfold _cache_response, bind, time_time, modify, Effects.get.
  cbn [fst snd set_request_cache _request_cache].
  destruct (_ =? 0); reflexivity.
Qed.

(** X6.  A response put in the cache is served by the next lookup of its
    key exactly when the clock has advanced by less than the time to
    live between the two; otherwise the lookup answers [None] and the
    key is no longer in the cache. The clock is assumed not to run
    backwards. *)
Theorem cached_response_round_trip url m c io :
  (forall k, clock E k <= clock E (Datatypes.S k)) ->
  let s1 := snd (_cache_response E url m (c, io)) in
  let r := _get_cached_response E url s1 in
  (result_of r = Ret (Some m)
   <-> clock E (ticks (snd s1)) - clock E (ticks io) < _cache_ttl c)
  /\ (result_of r <> Ret (Some m) ->
      result_of r = Ret None /\ _request_cache (state_of r) !! url = None).
Proof.
  intros Hclock. cbv zeta. rewrite cache_response_run.
  set (put := <[url := (m, clock E (ticks io))]> (_request_cache c)).
  assert (Hput : put !! url = Some (m, clock E (ticks io)))
    by apply lookup_insert_eq.
  unfold _get_cached_response, result_of, state_of, bind, Effects.get,
    time_time, modify, ret.
  destruct (Z.of_nat (size put) mod 10 =? 0);
    cbn [fst snd set_request_cache _request_cache _cache_ttl ticked ticks].
  - destruct (decide (clock E (Datatypes.S (ticks io)) - clock E (ticks io)
                      > _cache_ttl c)) as [Hold | Hfresh].
    + rewrite (proj2 (map_lookup_filter_None _ put url)).
      2:{ right. intros v Hv. rewrite Hput in Hv. injection Hv as <-.
          cbn. tauto. }
      cbn [fst snd set_request_cache _request_cache].
      pose proof (Hclock (Datatypes.S (ticks io))).
      split; [split; [discriminate | lia] |].
      intros _. split; [reflexivity|].
      apply map_lookup_filter_None. right. intros v Hv.
      rewrite Hput in Hv. injection Hv as <-. cbn. tauto.
    + rewrite (proj2 (map_lookup_filter_Some _ put url
                        (m, clock E (ticks io))));
        [| split; [exact Hput | exact Hfresh]].
      cbn [fst snd set_request_cache _request_cache _cache_ttl ticked ticks].
      destruct (Z.ltb_spec
                  (clock E (Datatypes.S (Datatypes.S (ticks io)))
                   - clock E (ticks io)) (_cache_ttl c)) as [Hlt | Hge];
        cbn [fst snd set_request_cache _request_cache].
      * split; [tauto | intros Hne; now contradiction Hne].
      * split; [split; [discriminate | lia] |].
        intros _. split; [reflexivity | apply lookup_delete_eq].
  - rewrite Hput.
    cbn [fst snd set_request_cache _request_cache _cache_ttl ticked ticks].
    destruct (Z.ltb_spec (clock E (Datatypes.S (ticks io)) - clock E (ticks io))
                (_cache_ttl c)) as [Hlt | Hge];
      cbn [fst snd set_request_cache _request_cache].
    + split; [tauto | intros Hne; now contradiction Hne].
    + split; [split; [discriminate | lia] |].
      intros _. split; [reflexivity | apply lookup_delete_eq].
Qed.

(** X7.  A typed request that finds its key in the cache returns the
    cached response at once: nothing is sent and no session is closed,
    even when the caller forces a reconnect or the health record asks
    for one; only the activity time changes. *)
Theorem model_request_served_from_cache url method force kwargs c io m :
  let key := method ++ ":" ++ url ++ ":" ++ kwargs_hash kwargs in
  cached_response_at (clock E (Datatypes.S (ticks io))) key c = Some m ->
  model_request E url method true force kwargs (c, io)
  = (Ret (Some m),
     (set_last_activity (clock E (ticks io)) c, ticked (ticked io))).
Proof.
  intros key Hhit. unfold cached_response_at in Hhit.
  unfold model_request. rewrite activity_tracker_run. fold key.
  unfold bind at 1, _get_cached_response, bind at 1, Effects.get.
  cbn [fst snd set_last_activity _request_cache _cache_ttl].
  destruct (_request_cache c !! key) as [[resp ts]|]; [|discriminate Hhit].
  unfold bind at 1, time_time. cbn [fst snd ticked ticks].
  destruct (_ <? _); [|discriminate Hhit].
  injection Hhit as ->. reflexivity.
Qed.
End Cache.

(** ** Typed requests: the first attempt, and recovery by reconnect *)

Section TypedRequests.
Context {Model : Type} `{Portal Model} `{BlockCipher}.
Variable E : Env.
Variable cfg : Settings.
Implicit Type c : Connection Model.
Implicit Type s : Connection Model * IO.

Lemma send_http_request_run method url kwargs c io :
  _send_http_request E method url kwargs (c, io)
  = (net E (List.length (wire io)),
     (set_last_activity (clock E (ticks io)) c,
      sent (mkRequest method url [] (session_cookies_of c) kwargs)
        (ticked io))).
Proof. reflexivity. Qed.

(** An attempt answered by status 200 and a body that decodes. *)
Lemma attempt_once_succeeds url method kwargs c io resp m :
  net E (List.length (wire io)) = Ret resp ->
  status_code resp = 200 ->
  decode (text resp) = Some m ->
  attempt_once E url method kwargs (c, io)
  = (Ret (inl m),
     (set_health (mark_healthy (clock E (Datatypes.S (ticks io))) (_health c))
        (set_last_activity (clock E (ticks io)) c),
      ticked (sent (mkRequest method url [] (session_cookies_of c) kwargs)
                (ticked io)))).
Proof.
  intros Hnet Hst Hdec.
  unfold attempt_once, bind at 1, outcome. rewrite send_http_request_run.
  cbn [fst snd]. rewrite Hnet, Hst, Hdec. reflexivity.
Qed.


(** A reconnect whose [aclose] returns. *)
Lemma reconnect_run c io :
  aclose E (closes io) = None ->
  _reconnect E (c, io)
  = (Ret tt,
     (set_health (mark_healthy (clock E (ticks io)) (_health c))
        (set_uaap_cookies None
           (set_twf_id None
              (set_uaap_logged_in false
                 (set_logged_in false
                    (set_session (Datatypes.S (session c)) c))))),
      ticked (closed_session io))).
Proof.
  intros Hclose. unfold _reconnect, try_except, bind, session_aclose.
  cbn [fst snd]. rewrite Hclose. reflexivity.
Qed.

(** Storing a response touches the cache and the clock only. *)
Lemma cache_response_frame key m s :
  exists cache' io',
    _cache_response E key m s
    = (Ret tt, (set_request_cache cache' (fst s), io'))
    /\ wire io' = wire (snd s) /\ closes io' = closes (snd s)
    /\ sleeps io' = sleeps (snd s).
Proof.
  destruct s as [c io].
  unfold _cache_response, bind, time_time, modify, Effects.get, _clear_cache,
    bind, time_time, modify.
  cbn [fst snd set_request_cache _request_cache _cache_ttl].
  destruct (_ =? 0); eexists _, _; (split; [reflexivity|]); cbn; auto.
Qed.

(** The [try] block of [model_request] around a request that
    returns [m]. *)
Lemma model_request_stores (use_cache : bool) key url method kwargs s m s2 :
  _send_model_request_with_retry E url method kwargs s = (Ret (Some m), s2) ->
  exists cache' io',
    try_except
      (result <- _send_model_request_with_retry E url method kwargs ;;
       match result with
       | Some r =>
           (if use_cache then _cache_response E key r else ret tt) ;;
           ret result
       | None => ret result
       end)
      (fun e => ret None) s
    = (Ret (Some m), (set_request_cache cache' (fst s2), io'))
    /\ wire io' = wire (snd s2) /\ closes io' = closes (snd s2)
    /\ sleeps io' = sleeps (snd s2).
Proof.
  intros Hsend. unfold try_except, bind at 1. rewrite Hsend.
  destruct use_cache.
  - destruct (cache_response_frame key m s2)
      as (cache' & io' & Hrun & Hw & Hc & Hs).
    unfold bind. rewrite Hrun. exists cache', io'. auto.
  - destruct s2 as [c2 io2]. exists (_request_cache c2), io2.
    destruct c2. cbn. auto.
Qed.

(** [model_request] up to its [try] block, on a miss of the cache:
    what the block starts from. *)
Lemma model_request_enters url method use_cache force kwargs c io :
  let key := method ++ ":" ++ url ++ ":" ++ kwargs_hash kwargs in
  let reconnects_first := force || should_reconnect (_health c) in
  (use_cache = true ->
   cached_response_at (clock E (Datatypes.S (ticks io))) key c = None) ->
  (reconnects_first = true -> aclose E (closes io) = None) ->
  exists c1 io1,
    model_request E url method use_cache force kwargs (c, io)
    = try_except
        (result <- _send_model_request_with_retry E url method kwargs ;;
         match result with
         | Some r =>
             (if use_cache then _cache_response E key r else ret tt) ;;
             ret result
         | None => ret result
         end)
        (fun e => ret None) (c1, io1)
    /\ wire io1 = wire io /\ sleeps io1 = sleeps io
    /\ closes io1 = (closes io + (if reconnects_first then 1 else 0))%nat
    /\ retry_config c1 = retry_config c
    /\ (if reconnects_first
        then _logged_in c1 = false /\ _uaap_logged_in c1 = false
             /\ twf_id c1 = None /\ uaap_cookies c1 = None
             /\ is_healthy (_health c1) = true
        else _logged_in c1 = _logged_in c
             /\ _uaap_logged_in c1 = _uaap_logged_in c
             /\ twf_id c1 = twf_id c /\ uaap_cookies c1 = uaap_cookies c
             /\ _health c1 = _health c).
Proof.
  intros key rf Hmiss Hclose.
  assert (Hcache :
    exists c1 io1,
      (if use_cache then _get_cached_response E key else ret None)
        (set_last_activity (clock E (ticks io)) c, ticked io)
      = (Ret None, (c1, io1))
      /\ wire io1 = wire io /\ sleeps io1 = sleeps io
      /\ closes io1 = closes io
      /\ retry_config c1 = retry_config c /\ _health c1 = _health c
      /\ _logged_in c1 = _logged_in c
      /\ _uaap_logged_in c1 = _uaap_logged_in c
      /\ twf_id c1 = twf_id c /\ uaap_cookies c1 = uaap_cookies c).
  { destruct use_cache; [|eexists _, _; cbn; repeat split].
    specialize (Hmiss eq_refl). unfold cached_response_at in Hmiss.
    unfold _get_cached_response, bind, Effects.get, time_time, modify.
    cbn [fst snd set_last_activity _request_cache _cache_ttl ticked ticks].
    destruct (_request_cache c !! key) as [[resp ts]|].
    - cbn [fst snd set_last_activity _request_cache _cache_ttl ticked ticks].
      destruct (clock E (Datatypes.S (ticks io)) - ts <? _cache_ttl c);
        [discriminate Hmiss|].
      eexists _, _. cbn. repeat split.
    - eexists _, _. cbn. repeat split. }
  destruct Hcache
    as (c1 & io1 & Hrun & Hw & Hs & Hc & Hrc & Hh & Hl & Hu & Ht & Hk).
  unfold model_request. rewrite activity_tracker_run.
  fold key. unfold bind at 1. rewrite Hrun.
  unfold bind at 1, Effects.get. cbn [fst snd]. rewrite Hh. fold rf.
  unfold bind at 1. destruct rf eqn:Hrf.
  - rewrite reconnect_run by (rewrite Hc; now apply Hclose).
    eexists _, _. split; [reflexivity|]. cbn. repeat split; auto. lia.
  - exists c1, io1. split; [reflexivity|]. repeat split; auto. lia.
Qed.

(** X8.  A typed request whose first attempt is answered by status 200
    and a body that decodes returns the decoded model after exactly that
    one request, without sleeping, and leaves the health record healthy
    with no error counted. *)
Theorem model_request_first_attempt url method use_cache force kwargs c io
    resp m :
  let key := method ++ ":" ++ url ++ ":" ++ kwargs_hash kwargs in
  let reconnects_first := force || should_reconnect (_health c) in
  1 <= max_attempts (retry_config c) ->
  (use_cache = true ->
   cached_response_at (clock E (Datatypes.S (ticks io))) key c = None) ->
  (reconnects_first = true -> aclose E (closes io) = None) ->
  net E (List.length (wire io)) = Ret resp ->
  status_code resp = 200 ->
  decode (text resp) = Some m ->
  let out := model_request E url method use_cache force kwargs (c, io) in
  result_of out = Ret (Some m)
  /\ wire (io_of out)
     = mkRequest method url []
         (if reconnects_first then [] else session_cookies_of c) kwargs
       :: wire io
  /\ sleeps (io_of out) = sleeps io
  /\ is_healthy (_health (state_of out)) = true
  /\ error_count (_health (state_of out)) = 0.
Proof.
  intros key rf Hmax Hmiss Hclose Hnet Hst Hdec.
  destruct (model_request_enters url method use_cache force kwargs c io
              Hmiss Hclose) as (c1 & io1 & Hrun & Hw & Hs & Hc & Hrc & Hrf).
  fold rf in Hrf.
  assert (Hsend :
    _send_model_request_with_retry E url method kwargs (c1, io1)
    = (Ret (Some m),
       (set_health
          (mark_healthy (clock E (Datatypes.S (ticks io1))) (_health c1))
          (set_last_activity (clock E (ticks io1)) c1),
        ticked (sent (mkRequest method url [] (session_cookies_of c1) kwargs)
                  (ticked io1))))).
  { unfold _send_model_request_with_retry, bind at 1, Effects.get.
    cbn [fst snd]. rewrite Hrc.
    destruct (Z.to_nat (max_attempts (retry_config c))) as [|n] eqn:Hn; [lia|].
    cbn [model_retry_loop]. unfold bind at 1.
    rewrite (attempt_once_succeeds url method kwargs c1 io1 resp m);
      [reflexivity | now rewrite Hw | exact Hst | exact Hdec]. }
  destruct (model_request_stores use_cache key _ _ _ _ _ _ Hsend)
    as (cache' & io' & Htry & Hw' & Hc' & Hs').
  cbv zeta. fold key in Hrun. rewrite Hrun, Htry.
  unfold result_of, state_of, io_of. cbn [fst snd] in *.
  split; [reflexivity|]. split.
  { rewrite Hw'. cbn. rewrite Hw. do 2 f_equal. unfold session_cookies_of.
    destruct rf; destruct Hrf as (_ & _ & -> & _); reflexivity. }
  split; [|split; reflexivity].
  rewrite Hs'. cbn. exact Hs.
Qed.

(** X9.  A transport exception that is no request error is not retried
    and not counted: the retry executor raises it as it is after the one
    request, with nothing slept and the health record as it was; and
    [model_request] answers [None]. *)
Theorem model_request_foreign_exception url method use_cache force kwargs
    c io e :
  let key := method ++ ":" ++ url ++ ":" ++ kwargs_hash kwargs in
  let reconnects_first := force || should_reconnect (_health c) in
  1 <= max_attempts (retry_config c) ->
  (use_cache = true ->
   cached_response_at (clock E (Datatypes.S (ticks io))) key c = None) ->
  reconnects_first = false ->
  net E (List.length (wire io)) = Raise e ->
  issubclass e RequestError = false ->
  _send_model_request_with_retry E url method kwargs (c, io)
  = (Raise e,
     (set_last_activity (clock E (ticks io)) c,
      sent (mkRequest method url [] (session_cookies_of c) kwargs)
        (ticked io)))
  /\ (let out := model_request E url method use_cache force kwargs (c, io) in
      result_of out = Ret None
      /\ _health (state_of out) = _health c
      /\ List.length (wire (io_of out)) = Datatypes.S (List.length (wire io))
      /\ sleeps (io_of out) = sleeps io).
Proof.
  intros key rf Hmax Hmiss Hrf Hnet He.
  assert (Hsend : forall c1 io1,
    retry_config c1 = retry_config c -> wire io1 = wire io ->
    _send_model_request_with_retry E url method kwargs (c1, io1)
    = (Raise e,
       (set_last_activity (clock E (ticks io1)) c1,
        sent (mkRequest method url [] (session_cookies_of c1) kwargs)
          (ticked io1)))).
  { intros c1 io1 Hrc Hw.
    unfold _send_model_request_with_retry, bind at 1, Effects.get.
    cbn [fst snd]. rewrite Hrc.
    destruct (Z.to_nat (max_attempts (retry_config c))) as [|n] eqn:Hn; [lia|].
    cbn [model_retry_loop]. unfold bind at 1, attempt_once, bind at 1, outcome.
    rewrite send_http_request_run. cbn [fst snd]. rewrite Hw, Hnet, He.
    reflexivity. }
  split; [now apply Hsend|].
  destruct (model_request_enters url method use_cache force kwargs c io)
    as (c1 & io1 & Hrun & Hw & Hs & Hc & Hrc & Hkeep).
  { exact Hmiss. }
  { fold rf. rewrite Hrf. discriminate. }
  fold rf in Hkeep. rewrite Hrf in Hkeep.
  destruct Hkeep as (_ & _ & _ & _ & Hh).
  fold key in Hrun. unfold try_except, bind at 1 in Hrun.
  rewrite (Hsend c1 io1 Hrc Hw) in Hrun.
  cbv zeta. rewrite Hrun. unfold result_of, state_of, io_of, ret.
  cbn [fst snd sent ticked wire sleeps set_last_activity _health List.length].
  rewrite Hw, Hs. auto.
Qed.

End TypedRequests.

(** ** Typed requests on a connection due for a reconnect *)

Section LoggedOut.
Context {Model : Type} `{Portal Model} `{BlockCipher}.
Variable E : Env.
Variable cfg : Settings.
Implicit Type c : Connection Model.

#[global] Instance stays_out_preorder : PreOrder (@stays_out Model).
Proof.
  split; [intros c Hc; exact Hc|].
  intros a b c Hab Hbc Ha. apply Hbc, Hab, Ha.
Qed.

Local Ltac out_kept :=
  first [ reflexivity
        | let Hl := fresh in let Hu := fresh in
          let Ht := fresh in let Hk := fresh in
          intros (Hl & Hu & Ht & Hk);
          repeat split; first [assumption | reflexivity] ].

Lemma model_retry_loop_stays_out url method kwargs config n :
  forall attempt last,
    respects stays_out
      (model_retry_loop E url method kwargs config n attempt last).
Proof.
  induction n as [|n IH]; intros attempt last; cbn [model_retry_loop].
  - unfold after_retries, _reconnect, _send_model_request_final_attempt,
      _send_http_request, _update_activity, health_mark_healthy,
      health_mark_error.
    frame; out_kept.
  - unfold attempt_once, _send_http_request, _update_activity,
      health_mark_healthy, health_mark_error.
    frame; try out_kept.
    + unfold after_retries, _reconnect, _send_model_request_final_attempt,
        _send_http_request, _update_activity, health_mark_healthy,
        health_mark_error.
      frame; out_kept.
    + apply IH.
Qed.

(** X11.  A typed request on a connection that is due for a reconnect.
    When [model_request] misses the cache and the reconnect it starts
    with goes through, because the caller forces it or because the
    health record asks for it, the connection holds nothing of a login
    when the call is over, whatever the network answered and whatever
    the call returned: both flags are clear and the session token and
    the SSO cookies are gone. *)
Theorem model_request_leaves_logged_out url method use_cache force kwargs
    c io :
  let key := method ++ ":" ++ url ++ ":" ++ kwargs_hash kwargs in
  force || should_reconnect (_health c) = true ->
  (use_cache = true ->
   cached_response_at (clock E (Datatypes.S (ticks io))) key c = None) ->
  aclose E (closes io) = None ->
  logged_out (state_of (model_request E url method use_cache force kwargs
                          (c, io))).
Proof.
  intros key Hrf Hmiss Hclose.
  destruct (model_request_enters E url method use_cache force kwargs c io
              Hmiss (fun _ => Hclose))
    as (c1 & io1 & Hrun & _ & _ & _ & _ & Hreset).
  rewrite Hrf in Hreset. destruct Hreset as (Hl & Hu & Ht & Hk & _).
  fold key in Hrun. rewrite Hrun.
  assert (Hblock : respects (@stays_out Model)
    (try_except
       (result <- _send_model_request_with_retry E url method kwargs ;;
        match result with
        | Some r =>
            (if use_cache then _cache_response E key r else ret tt) ;;
            ret result
        | None => ret result
        end)
       (fun e => ret None))).
  { unfold _send_model_request_with_retry, _cache_response, _clear_cache.
    frame; try out_kept. apply model_retry_loop_stays_out. }
  unfold state_of.
  match goal with
  | |- logged_out (fst (snd (?m (c1, io1)))) =>
      apply (Hblock (c1, io1) (fst (m (c1, io1))) (snd (m (c1, io1))));
        [now destruct (m (c1, io1)) | repeat split; assumption]
  end.
Qed.
End LoggedOut.

(** ** The cache across two calls *)

Section CachedTwice.
Context {Model : Type} `{Portal Model} `{BlockCipher}.
Variable E : Env.
Implicit Type c : Connection Model.

Lemma get_cached_response_hit key m ts c io :
  _request_cache c !! key = Some (m, ts) ->
  clock E (ticks io) - ts < _cache_ttl c ->
  _get_cached_response E key (c, io) = (Ret (Some m), (c, ticked io)).
Proof.
  intros Hentry Hfresh.
  unfold _get_cached_response, bind at 1, Effects.get. cbn [fst snd].
  rewrite Hentry. unfold bind at 1, time_time. cbn [fst snd].
  destruct (Z.ltb_spec (clock E (ticks io) - ts) (_cache_ttl c)); [|lia].
  reflexivity.
Qed.

(** X12.  The same typed request twice, with the cache. Take a
    connection that needs no reconnect and has no entry for the request,
    and let the first attempt be answered by status 200 and a body that
    decodes. If the clock does not run backwards and advances by less
    than the time to live between the moment the response is stored and
    the lookup of the second call, the second call returns the same
    model without sending anything, whether or not it asks for a
    reconnect: the network has seen one request for the two calls. *)
Theorem model_request_twice_sends_once url method force kwargs c io resp m :
  let key := method ++ ":" ++ url ++ ":" ++ kwargs_hash kwargs in
  let stored := Datatypes.S (Datatypes.S (Datatypes.S (ticks io))) in
  1 <= max_attempts (retry_config c) ->
  should_reconnect (_health c) = false ->
  _request_cache c !! key = None ->
  net E (List.length (wire io)) = Ret resp ->
  status_code resp = 200 ->
  decode (text resp) = Some m ->
  (forall k, clock E k <= clock E (Datatypes.S k)) ->
  clock E (Datatypes.S (Datatypes.S (Datatypes.S stored))) - clock E stored
  < _cache_ttl c ->
  let out1 := model_request E url method true false kwargs (c, io) in
  let out2 := model_request E url method true force kwargs (snd out1) in
  result_of out1 = Ret (Some m)
  /\ result_of out2 = Ret (Some m)
  /\ wire (io_of out2) = wire (io_of out1)
  /\ List.length (wire (io_of out1)) = Datatypes.S (List.length (wire io)).
Proof.
  intros key stored Hmax Hrc Hnone Hnet Hst Hdec Hclock Httl.
  set (put := <[key := (m, clock E stored)]> (_request_cache c)).
  assert (Hput : put !! key = Some (m, clock E stored))
    by apply lookup_insert_eq.
  assert (H1 : clock E stored <= clock E (Datatypes.S stored)) by apply Hclock.
  assert (H2 : clock E (Datatypes.S stored)
               <= clock E (Datatypes.S (Datatypes.S stored))) by apply Hclock.
  assert (H3 : clock E (Datatypes.S (Datatypes.S stored))
               <= clock E (Datatypes.S (Datatypes.S (Datatypes.S stored))))
    by apply Hclock.
  assert (Hout1 : exists c1 io1,
    model_request E url method true false kwargs (c, io)
    = (Ret (Some m), (c1, io1))
    /\ List.length (wire io1) = Datatypes.S (List.length (wire io))
    /\ _request_cache c1 !! key = Some (m, clock E stored)
    /\ _cache_ttl c1 = _cache_ttl c
    /\ (ticks io1 = Datatypes.S stored
        \/ ticks io1 = Datatypes.S (Datatypes.S stored))).
  { unfold model_request. rewrite activity_tracker_run. fold key.
    unfold bind at 1, _get_cached_response, bind at 1, Effects.get.
    cbn [fst snd set_last_activity _request_cache]. rewrite Hnone.
    unfold ret at 1. unfold bind at 1, Effects.get. cbn [fst snd].
    cbn [set_last_activity _health]. rewrite Hrc. cbn [orb].
    unfold bind at 1, ret at 1. cbn [fst snd].
    unfold try_except, bind at 1.
    unfold _send_model_request_with_retry, bind at 1, Effects.get.
    cbn [fst snd set_last_activity retry_config].
    destruct (Z.to_nat (max_attempts (retry_config c))) as [|n] eqn:Hn; [lia|].
    cbn [model_retry_loop]. unfold bind at 1.
    rewrite (attempt_once_succeeds E url method kwargs _ _ resp m);
      [| exact Hnet | exact Hst | exact Hdec].
    unfold ret at 1. unfold bind at 1. rewrite cache_response_run.
    cbn [set_health set_last_activity _request_cache _cache_ttl ticked ticks
         sent].
    fold stored. fold put.
    destruct (Z.of_nat (size put) mod 10 =? 0).
    - eexists _, _. split; [reflexivity|].
      cbn [wire sent ticked List.length set_request_cache _request_cache
           _cache_ttl ticks].
      split; [reflexivity|].
      split; [|split; [reflexivity | right; reflexivity]].
      apply map_lookup_filter_Some. split; [exact Hput|]. cbn. lia.
    - eexists _, _. split; [reflexivity|].
      cbn [wire sent ticked List.length set_request_cache _request_cache
           _cache_ttl ticks].
      split; [reflexivity|]. split; [exact Hput|].
      split; [reflexivity | left; reflexivity]. }
  destruct Hout1 as (c1 & io1 & Hrun1 & Hlen & Hentry & Httl1 & Hticks).
  assert (Hout2 :
    model_request E url method true force kwargs (c1, io1)
    = (Ret (Some m),
       (set_last_activity (clock E (ticks io1)) c1, ticked (ticked io1)))).
  { unfold model_request. rewrite activity_tracker_run. fold key.
    unfold bind at 1.
    rewrite (get_cached_response_hit key m (clock E stored)).
    - reflexivity.
    - exact Hentry.
    - cbn [ticked ticks set_last_activity _cache_ttl]. rewrite Httl1.
      destruct Hticks as [-> | ->]; lia. }
  cbv zeta. rewrite Hrun1. cbn [snd]. rewrite Hout2.
  unfold result_of, io_of. cbn. auto.
Qed.
End CachedTwice.

Section LoginRetries.
Context {Model : Type} `{Portal Model} `{BlockCipher}.
Variable E : Env.
Variable cfg : Settings.
Implicit Type c : Connection Model.







End LoginRetries.

Section LoginRecovers.
Context {Model : Type} `{Portal Model} `{BlockCipher}.
Variable E : Env.
Variable cfg : Settings.
Implicit Type c : Connection Model.


(** X15.  The session token is stored as soon as it is read: whenever
    the first answer of a run of the VPN handshake carries a token, the
    connection holds that token after the run, however the run ends,
    whether the login was accepted or not. *)
Theorem login_body_stores_token username password c io page twfid :
  net E (List.length (wire io)) = Ret page ->
  re_search_tag "TwfID" (text page) = Some twfid ->
  twf_id (state_of (login_body E username password (c, io))) = Some twfid.
Proof.
  intros Hget Ht.
  unfold login_body, try_except, bind, Effects.get, send, modify,
    health_mark_error, bind, time_time, modify, raise, ret, state_of.
  cbn [fst snd]. rewrite Hget, Ht. cbn [fst snd].
  destruct (re_search_tag "RSA_ENCRYPT_KEY" (text page)) as [key|];
    [|reflexivity].
  destruct (rsa_encrypt_hex _ _ _) as [hex|]; [|reflexivity].
  cbn [fst snd sent wire List.length].
  destruct (net E (Datatypes.S (List.length (wire io)))) as [resp | e1].
  - destruct (contains RESULT_OK (text resp)); reflexivity.
  - destruct (issubclass e1 RequestError); reflexivity.
Qed.

(** X16.  The SSO login does not send the credentials when the login
    page is not served with status 200 or lacks one of the fields [lt]
    and [execution]: it returns false after the one GET, without a
    retry, and changes nothing but the activity time. *)
Theorem uaap_login_without_form username password c io page :
  1 <= MAX_RETRIES cfg ->
  net E (List.length (wire io)) = Ret page ->
  status_code page <> 200
  \/ find_input "lt" (text page) = None
  \/ find_input "execution" (text page) = None ->
  uaap_login E cfg username password (c, io)
  = (Ret (Some false),
     (set_last_activity (clock E (ticks io)) c,
      sent (mkRequest "GET" (uaap_login_url c) [] [] "") (ticked io))).
Proof.
  intros Hmax Hget Hform. unfold uaap_login. rewrite activity_tracker_run.
  apply retry_async_returns; [exact Hmax|].
  unfold uaap_login_body, try_except, bind, Effects.get, send, modify, ret.
  cbn [fst snd ticked wire]. rewrite Hget.
  destruct (Z.eqb_spec (status_code page) 200) as [Hst | Hst];
    [|reflexivity].
  cbn [negb]. destruct Hform as [Hne | [Hlt | Hex]]; [contradiction | |].
  - rewrite Hlt. reflexivity.
  - rewrite Hex. destruct (find_input "lt" (text page)); reflexivity.
Qed.

(** X17.  A login page whose [lt] field has no value: the handshake
    breaks before anything is posted, which counts as an error and ends
    the SSO login in [AUFELoginError], not retried. *)
Theorem uaap_login_lt_without_value username password c io page execution :
  1 <= MAX_RETRIES cfg ->
  net E (List.length (wire io)) = Ret page ->
  status_code page = 200 ->
  find_input "lt" (text page) = Some None ->
  find_input "execution" (text page) = Some execution ->
  uaap_login E cfg username password (c, io)
  = (Raise AUFELoginError,
     (set_health (mark_error Exception_ (clock E (Datatypes.S (ticks io)))
                    (_health c))
        (set_last_activity (clock E (ticks io)) c),
      ticked (sent (mkRequest "GET" (uaap_login_url c) [] [] "")
                (ticked io)))).
Proof.
  intros Hmax Hget Hst Hlt Hex. unfold uaap_login.
  rewrite activity_tracker_run. unfold retry_async.
  destruct (Z.to_nat (max_attempts (default_retry_config cfg)))
    as [|n] eqn:Hn; [cbn in Hn; lia|].
  apply retry_loop_not_retryable; [|reflexivity].
  unfold uaap_login_body, try_except, bind, Effects.get, send, modify, ret.
  cbn [fst snd ticked wire]. rewrite Hget, Hst. cbn [Z.eqb Pos.eqb negb].
  rewrite Hlt, Hex. reflexivity.
Qed.
End LoginRecovers.

(** ** What no call does: identity and health *)

Section MoreFrames.
Context {Model : Type} `{Portal Model} `{BlockCipher}.
Variable E : Env.
Variable cfg : Settings.

#[global] Instance same_identity_preorder : PreOrder (@same_identity Model).
Proof.
  split; [intros c; reflexivity|].
  intros a b c Hab Hbc. unfold same_identity in *. congruence.
Qed.

#[global] Instance health_decays_preorder : PreOrder (@health_decays Model).
Proof.
  split; [intros c; split; [lia | auto]|].
  intros a b c [H1 H2] [H3 H4]. split; [lia | auto].
Qed.

Lemma model_retry_loop_same_identity url method kwargs config n :
  forall attempt last,
    respects same_identity
      (model_retry_loop E url method kwargs config n attempt last).
Proof.
  induction n as [|n IH]; intros attempt last; cbn [model_retry_loop].
  - unfold after_retries, _reconnect, _send_model_request_final_attempt,
      _send_http_request, _update_activity, health_mark_healthy,
      health_mark_error.
    frame; reflexivity.
  - unfold attempt_once, _send_http_request, _update_activity,
      health_mark_healthy, health_mark_error.
    frame; try reflexivity.
    + unfold after_retries, _reconnect, _send_model_request_final_attempt,
        _send_http_request, _update_activity, health_mark_healthy,
        health_mark_error.
      frame; reflexivity.
    + apply IH.
Qed.

Lemma run_call_same_identity call :
  respects same_identity (run_call (Model := Model) E cfg call).
Proof.
  destruct call; cbn [run_call].
  - unfold login, activity_tracker, _update_activity, login_body,
      health_mark_error.
    frame; reflexivity.
  - unfold uaap_login, activity_tracker, _update_activity, uaap_login_body,
      health_mark_error.
    frame; reflexivity.
  - unfold model_request, activity_tracker, _update_activity,
      _get_cached_response, _cache_response, _clear_cache,
      _send_model_request_with_retry, _reconnect, health_mark_healthy.
    frame; try reflexivity. apply model_retry_loop_same_identity.
  - unfold _reconnect, health_mark_healthy. frame; reflexivity.
  - unfold _health_check, health_mark_healthy, health_mark_error.
    frame; reflexivity.
  - unfold login_status, activity_tracker, _update_activity. frame; reflexivity.
  - unfold uaap_login_status, activity_tracker, _update_activity.
    frame; reflexivity.
Qed.

(** X18.  No call on a connection changes what identifies and configures
    it: over a login, a status query, a typed request, a reconnect or a
    probe, however it ends, the server, the student id, the retry
    policy, the time to live of the cache and the SSO address stay as
    they are, and the connection is not closed by it. *)
Theorem run_call_keeps_identity call (s : Connection Model * IO) :
  let c' := state_of (run_call E cfg call s) in
  server_url c' = server_url (fst s)
  /\ student_id c' = student_id (fst s)
  /\ retry_config c' = retry_config (fst s)
  /\ _cache_ttl c' = _cache_ttl (fst s)
  /\ uaap_login_url c' = uaap_login_url (fst s)
  /\ _is_closed c' = _is_closed (fst s).
Proof.
  cbv zeta.
  pose proof (run_call_same_identity call s (fst (run_call E cfg call s))
                (snd (run_call E cfg call s))) as Hid.
  unfold same_identity, identity_of, state_of in *.
  destruct (run_call E cfg call s) as [r s']. cbn [fst snd] in *.
  specialize (Hid eq_refl). injection Hid as -> -> -> -> -> ->. repeat split.
Qed.

Local Ltac decays :=
  first [ reflexivity
        | split; [cbn; lia | cbn; auto] ].

(** X19.  Neither login nor status query ever improves the health
    record: over a call of [login], [uaap_login], [login_status] or
    [uaap_login_status], however it ends, the error count does not go
    down and an unhealthy connection stays unhealthy, so a connection
    that is due for a reconnect is still due for it afterwards. *)
Theorem logins_never_heal username password :
  let never_heals {A} (m : M (Connection Model) A) :=
    respects health_decays m
    /\ (forall s, should_reconnect (_health (fst s)) = true ->
          should_reconnect (_health (state_of (m s))) = true) in
  never_heals (login E cfg username password)
  /\ never_heals (uaap_login E cfg username password)
  /\ never_heals (login_status E)
  /\ never_heals (uaap_login_status E).
Proof.
  assert (Hdue : forall A (m : M (Connection Model) A),
    respects health_decays m ->
    forall s, should_reconnect (_health (fst s)) = true ->
      should_reconnect (_health (state_of (m s))) = true).
  { intros A m Hm s Hs.
    destruct (Hm s (fst (m s)) (snd (m s))) as [Hcount Hbad];
      [now destruct (m s)|].
    unfold state_of, should_reconnect in *.
    apply orb_true_iff in Hs as [Hs | Hs]; apply orb_true_iff.
    - left. apply negb_true_iff in Hs. now rewrite (Hbad Hs).
    - right. apply Z.leb_le in Hs. apply Z.leb_le. lia. }
  assert (Hl : respects health_decays (login E cfg username password)).
  { unfold login, activity_tracker, _update_activity, login_body,
      health_mark_error.
    frame; decays. }
  assert (Hu : respects health_decays (uaap_login E cfg username password)).
  { unfold uaap_login, activity_tracker, _update_activity, uaap_login_body,
      health_mark_error.
    frame; decays. }
  assert (Hls : respects health_decays (@login_status Model E)).
  { unfold login_status, activity_tracker, _update_activity. frame; decays. }
  assert (Hus : respects health_decays (@uaap_login_status Model E)).
  { unfold uaap_login_status, activity_tracker, _update_activity.
    frame; decays. }
  cbv zeta.
  split; [split; [exact Hl | now apply Hdue]|].
  split; [split; [exact Hu | now apply Hdue]|].
  split; [split; [exact Hls | now apply Hdue]|].
  split; [exact Hus | now apply Hdue].
Qed.

(** X20.  The probe of the monitor. It never raises. On a connection
    whose VPN flag is clear it does nothing at all; otherwise it sends
    one request, and the connection is healthy afterwards exactly when
    that request was answered with status 200. In no case does it count
    as activity or touch the login flags. *)
Theorem health_check_outcome (c : Connection Model) io :
  let out := _health_check E (c, io) in
  result_of out = Ret tt
  /\ (_logged_in c = false -> out = (Ret tt, (c, io)))
  /\ (_logged_in c = true ->
      wire (io_of out)
      = mkRequest "GET" (server_url c ++ "/por/index.csp") [] [] "" :: wire io
      /\ (is_healthy (_health (state_of out)) = true
          <-> exists resp,
                net E (List.length (wire io)) = Ret resp
                /\ status_code resp = 200)
      /\ (is_healthy (_health (state_of out)) = false ->
          error_count (_health (state_of out)) = error_count (_health c) + 1))
  /\ last_activity (state_of out) = last_activity c
  /\ same_flags c (state_of out).
Proof.
  cbv zeta.
  unfold _health_check, try_except, bind, Effects.get, send,
    health_mark_healthy, health_mark_error, bind, time_time, modify, ret,
    result_of, state_of, io_of.
  cbn [fst snd]. destruct (_logged_in c) eqn:Hl.
  - cbn [fst snd].
    destruct (net E (List.length (wire io))) as [resp | e] eqn:Hn.
    + destruct (Z.eqb_spec (status_code resp) 200) as [Hst | Hst]; cbn.
      * split; [reflexivity|]. split; [discriminate|].
        split; [|split; [reflexivity | split; reflexivity]].
        intros _. split; [reflexivity|]. split; [|discriminate].
        split; [eauto | reflexivity].
      * split; [reflexivity|]. split; [discriminate|].
        split; [|split; [reflexivity | split; reflexivity]].
        intros _. split; [reflexivity|]. split; [|reflexivity].
        split; [discriminate|]. intros (resp' & [= <-] & Hok). contradiction.
    + cbn. split; [reflexivity|]. split; [discriminate|].
      split; [|split; [reflexivity | split; reflexivity]].
      intros _. split; [reflexivity|]. split; [|reflexivity].
      split; [discriminate|]. intros (resp' & [=] & _).
  - cbn. split; [reflexivity|]. split; [reflexivity|].
    split; [discriminate|]. split; [reflexivity|]. split; reflexivity.
Qed.
End MoreFrames.

(** ** The pool over its life *)

Section PoolInvariant.
Import Pool.
Context {Model : Type}.
Variable E : Env.
Variable cfg : Settings.
Implicit Type w : World Model.

Lemma construct_run server sid rc w io :
  construct E cfg server sid rc (w, io)
  = (Ret (next_id w),
     (constructed cfg server sid rc (clock E (ticks io))
        (clock E (Datatypes.S (ticks io))) w,
      ticked (ticked io))).
Proof. reflexivity. Qed.

(** The three ways of [create_or_get_connection]. *)
Lemma create_or_get_run server sid rc w io :
  create_or_get_connection E cfg server sid rc (w, io)
  = match _aufe_connections w !! sid with
    | None => construct E cfg server sid rc (w, io)
    | Some l =>
        match heap w !! l with
        | None => (Raise Exception_, (w, io))
        | Some c =>
            if _is_closed c
            then construct E cfg server sid rc (with_task l w, io)
            else if is_active cfg (clock E (ticks io)) c
                 then (Ret l,
                       (touched l (clock E (Datatypes.S (ticks io))) w,
                        ticked (ticked io)))
                 else construct E cfg server sid rc (with_task l w, ticked io)
        end
    end.
Proof.
  unfold create_or_get_connection, get_connection_by_student_id, bind at 1,
    bind at 1, Effects.get, ret.
  cbn [fst snd]. destruct (_aufe_connections w !! sid) as [l|]; [|reflexivity].
  unfold bind at 1, is_active_at, deref, bind at 1, bind at 1, Effects.get, ret.
  cbn [fst snd]. destruct (heap w !! l) as [c|]; [|reflexivity].
  destruct (_is_closed c); [reflexivity|].
  unfold bind at 1, time_time, ret. cbn [fst snd].
  destruct (is_active cfg (clock E (ticks io)) c); reflexivity.
Qed.

Lemma close_run l w io :
  close E l (w, io)
  = match heap w !! l with
    | None => (Raise Exception_, (w, io))
    | Some c =>
        if _is_closed c then (Ret tt, (w, io))
        else
          (match aclose E (closes io) with
           | Some e => Raise e
           | None => Ret tt
           end,
           (let w1 := set_heap (alter (set_is_closed true) l (heap w)) w in
            match student_id c with
            | Some sid =>
                if negb (String.eqb sid "")
                   && bool_decide (is_Some (_aufe_connections w1 !! sid))
                then set_pool (delete sid (_aufe_connections w1)) w1
                else w1
            | None => w1
            end,
            closed_session io))
    end.
Proof.
  unfold close, deref, bind at 1, bind at 1, Effects.get, ret.
  cbn [fst snd]. destruct (heap w !! l) as [c|]; [|reflexivity].
  destruct (_is_closed c); reflexivity.
Qed.

Lemma well_formed_constructed server sid rc t1 t2 w :
  well_formed w -> well_formed (constructed cfg server sid rc t1 t2 w).
Proof.
  intros (Hreg & Halloc & Htasks). unfold constructed.
  split; [|split]; cbn [heap next_id _aufe_connections tasks].
  - intros sid' l' Hl'.
    assert (Hold : _aufe_connections w !! sid' = Some l' ->
      sid' <> ""
      /\ exists c,
           <[next_id w := new_connection cfg server (Some sid) rc t2 t1]>
             (heap w) !! l' = Some c
                   /\ student_id c = Some sid' /\ _is_closed c = false).
    { intros Hw. destruct (Hreg sid' l' Hw) as (Hne & c & Hc & Hs & Ho).
      split; [exact Hne|]. exists c. split; [|auto].
      rewrite lookup_insert_ne; [exact Hc|].
      assert (l' < next_id w)%nat by (apply Halloc; eauto). lia. }
    destruct (String.eqb_spec sid "") as [He | Hne]; [now apply Hold|].
    destruct (decide (sid = sid')) as [<- | Hdiff].
    + rewrite lookup_insert_eq in Hl'. injection Hl' as <-.
      split; [exact Hne|]. eexists. rewrite lookup_insert_eq.
      split; [reflexivity|]. split; reflexivity.
    + rewrite lookup_insert_ne in Hl' by exact Hdiff. now apply Hold.
  - intros l' Hl'. destruct (decide (next_id w = l')) as [<- | Hdiff]; [lia|].
    rewrite lookup_insert_ne in Hl' by exact Hdiff.
    specialize (Halloc l' Hl'). lia.
  - intros l' Hl'. specialize (Htasks l' Hl').
    destruct (decide (next_id w = l')) as [<- | Hdiff].
    + rewrite lookup_insert_eq. eauto.
    + rewrite lookup_insert_ne by exact Hdiff. exact Htasks.
Qed.

Lemma well_formed_with_task l w :
  well_formed w -> is_Some (heap w !! l) -> well_formed (with_task l w).
Proof.
  intros (Hreg & Halloc & Htasks) Hl. unfold with_task.
  split; [|split]; cbn [heap next_id _aufe_connections tasks]; auto.
  intros l' Hin. apply in_app_or in Hin as [Hin | [<- | []]]; auto.
Qed.

Lemma well_formed_touched l now w :
  well_formed w -> well_formed (touched l now w).
Proof.
  intros (Hreg & Halloc & Htasks). unfold touched, set_heap.
  split; [|split]; cbn [heap next_id _aufe_connections tasks].
  - intros sid' l' Hl'. destruct (Hreg sid' l' Hl') as (Hne & c & Hc & Hs & Ho).
    split; [exact Hne|].
    destruct (decide (l = l')) as [<- | Hdiff].
    + exists (set_last_activity now c). rewrite lookup_alter_eq, Hc. auto.
    + exists c. rewrite lookup_alter_ne by exact Hdiff. auto.
  - intros l' Hl'. apply Halloc.
    destruct (decide (l = l')) as [<- | Hdiff].
    + rewrite lookup_alter_eq in Hl'. destruct (heap w !! l); [eauto|].
      destruct Hl' as [x Hx]. discriminate Hx.
    + now rewrite lookup_alter_ne in Hl' by exact Hdiff.
  - intros l' Hl'. specialize (Htasks l' Hl').
    destruct (decide (l = l')) as [<- | Hdiff].
    + rewrite lookup_alter_eq. destruct Htasks as [c ->]. cbn. eauto.
    + now rewrite lookup_alter_ne by exact Hdiff.
Qed.

Lemma well_formed_closed l c w :
  well_formed w ->
  heap w !! l = Some c ->
  well_formed
    (let w1 := set_heap (alter (set_is_closed true) l (heap w)) w in
     match student_id c with
     | Some sid =>
         if negb (String.eqb sid "")
            && bool_decide (is_Some (_aufe_connections w1 !! sid))
         then set_pool (delete sid (_aufe_connections w1)) w1
         else w1
     | None => w1
     end).
Proof.
  intros (Hreg & Halloc & Htasks) Hc. cbv zeta.
  assert (Hheap : forall l', is_Some (heap w !! l') ->
            is_Some (alter (set_is_closed true) l (heap w) !! l')).
  { intros l' Hl'. destruct (decide (l = l')) as [<- | Hdiff].
    - rewrite lookup_alter_eq, Hc. cbn. eauto.
    - now rewrite lookup_alter_ne by exact Hdiff. }
  assert (Hheap' : forall l',
            is_Some (alter (set_is_closed true) l (heap w) !! l') ->
            is_Some (heap w !! l')).
  { intros l' Hl'. destruct (decide (l = l')) as [<- | Hdiff].
    - eauto.
    - now rewrite lookup_alter_ne in Hl' by exact Hdiff. }
  (* an entry that survives does not name [l] *)
  assert (Hkeep : forall (p : gmap string nat),
    (forall sid' l', p !! sid' = Some l' ->
       _aufe_connections w !! sid' = Some l' /\ l' <> l) ->
    well_formed (mkWorld (alter (set_is_closed true) l (heap w)) (next_id w)
                   p (tasks w))).
  { intros p Hp. split; [|split]; cbn [heap next_id _aufe_connections tasks].
    - intros sid' l' Hl'. destruct (Hp sid' l' Hl') as [Hw Hne].
      destruct (Hreg sid' l' Hw) as (Hsid & c' & Hc' & Hs & Ho).
      split; [exact Hsid|]. exists c'.
      rewrite lookup_alter_ne by (intros ->; now apply Hne). auto.
    - intros l' Hl'. apply Halloc, Hheap', Hl'.
    - intros l' Hl'. apply Hheap, Htasks, Hl'. }
  unfold set_heap, set_pool. cbn [heap next_id _aufe_connections tasks].
  assert (Hother : forall sid' l',
    _aufe_connections w !! sid' = Some l' -> student_id c <> Some sid' ->
    l' <> l).
  { intros sid' l' Hw Hs ->.
    destruct (Hreg sid' l Hw) as (_ & c' & Hc' & Hs' & _).
    rewrite Hc in Hc'. injection Hc' as <-. contradiction. }
  destruct (student_id c) as [sid|] eqn:Hsid.
  - destruct (negb (String.eqb sid "")
              && bool_decide (is_Some (_aufe_connections w !! sid))) eqn:Hdel.
    + apply Hkeep. intros sid' l' Hl'.
      apply lookup_delete_Some in Hl' as [Hne Hl'].
      split; [exact Hl'|]. apply (Hother sid' l' Hl'). congruence.
    + apply Hkeep. intros sid' l' Hl'. split; [exact Hl'|].
      apply (Hother sid' l' Hl'). intros [= ->].
      destruct (Hreg sid' l' Hl') as (Hne & _).
      apply andb_false_iff in Hdel as [Hdel | Hdel].
      * apply negb_false_iff, String.eqb_eq in Hdel. contradiction.
      * apply bool_decide_eq_false in Hdel. apply Hdel. eauto.
  - apply Hkeep. intros sid' l' Hl'. split; [exact Hl'|].
    apply (Hother sid' l' Hl'). discriminate.
Qed.

Lemma well_formed_empty : well_formed (@empty_world Model).
Proof.
  split; [|split]; cbn; intros *; try rewrite lookup_empty;
    first [discriminate | intros [x Hx]; discriminate Hx | tauto].
Qed.

Lemma close_well_formed l w io :
  well_formed w -> well_formed (state_of (close E l (w, io))).
Proof.
  intros Hwf. rewrite close_run.
  destruct (heap w !! l) as [c|] eqn:Hc; [|exact Hwf].
  destruct (_is_closed c); [exact Hwf|].
  unfold state_of. cbn [fst snd]. now apply well_formed_closed.
Qed.

Lemma create_or_get_well_formed server sid rc w io :
  well_formed w ->
  well_formed (state_of (create_or_get_connection E cfg server sid rc (w, io))).
Proof.
  intros Hwf. rewrite create_or_get_run.
  destruct (_aufe_connections w !! sid) as [l|] eqn:Hp.
  - destruct Hwf as (Hreg & Hrest).
    destruct (Hreg sid l Hp) as (_ & c & Hc & _ & Ho).
    rewrite Hc, Ho.
    destruct (is_active cfg (clock E (ticks io)) c).
    + unfold state_of. cbn [fst snd]. apply well_formed_touched.
      split; assumption.
    + rewrite construct_run. unfold state_of. cbn [fst snd].
      apply well_formed_constructed, well_formed_with_task;
        [split; assumption | eauto].
  - rewrite construct_run. unfold state_of. cbn [fst snd].
    now apply well_formed_constructed.
Qed.

Lemma run_task_well_formed w io :
  well_formed w -> well_formed (state_of (run_task E (w, io))).
Proof.
  intros Hwf. unfold run_task, bind at 1, Effects.get, ret. cbn [fst snd].
  destruct (tasks w) as [|l rest] eqn:Ht; [exact Hwf|].
  unfold bind at 1, modify. cbn [fst snd]. apply close_well_formed.
  destruct Hwf as (Hreg & Halloc & Htasks).
  split; [|split]; cbn [heap next_id _aufe_connections tasks]; auto.
  intros l' Hl'. apply Htasks. rewrite Ht. now right.
Qed.
End PoolInvariant.

Section PoolLife.
Import Pool.
Context {Model : Type}.
Variable E : Env.
Variable cfg : Settings.
Implicit Type w : World Model.

(** The close of an open connection that is registered under its
    student id. *)
Lemma close_registered sid l c w io :
  heap w !! l = Some c ->
  _is_closed c = false ->
  student_id c = Some sid ->
  sid <> "" ->
  is_Some (_aufe_connections w !! sid) ->
  exists r,
    close E l (w, io)
    = (r, (mkWorld (alter (set_is_closed true) l (heap w)) (next_id w)
             (delete sid (_aufe_connections w)) (tasks w),
           closed_session io)).
Proof.
  intros Hc Ho Hs Hne Hp.
  assert (Hneb : String.eqb sid "" = false) by now apply String.eqb_neq.
  rewrite close_run. rewrite Hc, Ho, Hs.
  unfold set_heap at 1. cbn [_aufe_connections]. rewrite Hneb.
  rewrite bool_decide_eq_true_2 by exact Hp. cbn [negb andb].
  eexists. reflexivity.
Qed.

(** X21.  Closing a registered connection. The connection is marked
    closed and its student id leaves the pool, whether or not closing
    the session raises; closing it again does nothing; and the next
    [create_or_get_connection] for the student id builds a new instance
    and registers it. *)
Theorem close_unregisters sid l w io :
  well_formed w ->
  _aufe_connections w !! sid = Some l ->
  let s1 := snd (close E l (w, io)) in
  _aufe_connections (fst s1) !! sid = None
  /\ (_is_closed <$> heap (fst s1) !! l) = Some true
  /\ close E l s1 = (Ret tt, s1)
  /\ (forall server rc,
        exists s2,
          create_or_get_connection E cfg server sid rc s1
          = (Ret (next_id w), s2)
          /\ next_id w <> l
          /\ _aufe_connections (fst s2) !! sid = Some (next_id w)).
Proof.
  intros (Hreg & Halloc & Htasks) Hp.
  destruct (Hreg sid l Hp) as (Hne & c & Hc & Hs & Ho).
  assert (Hneb : String.eqb sid "" = false) by now apply String.eqb_neq.
  destruct (close_registered sid l c w io Hc Ho Hs Hne) as (r & Hrun);
    [eauto|].
  cbv zeta. rewrite Hrun. cbn [fst snd heap next_id _aufe_connections tasks].
  split; [apply lookup_delete_eq|].
  split; [rewrite lookup_alter_eq, Hc; reflexivity|].
  split.
  - rewrite close_run. cbn [heap]. rewrite lookup_alter_eq, Hc. reflexivity.
  - intros server rc. rewrite create_or_get_run.
    cbn [_aufe_connections]. rewrite lookup_delete_eq, construct_run.
    eexists. split; [reflexivity|]. split.
    + assert (l < next_id w)%nat by (apply Halloc; eauto). lia.
    + unfold constructed. cbn [fst _aufe_connections next_id].
      rewrite Hneb. apply lookup_insert_eq.
Qed.

(** X22.  A call for one student id leaves the others alone: the names
    of the other student ids in the pool and every instance but the one
    returned are as they were. *)
Theorem create_or_get_leaves_others server sid rc w io :
  let out := create_or_get_connection E cfg server sid rc (w, io) in
  (forall sid', sid' <> sid ->
     _aufe_connections (state_of out) !! sid' = _aufe_connections w !! sid')
  /\ (forall l', result_of out <> Ret l' ->
        heap (state_of out) !! l' = heap w !! l')
  /\ (forall l', is_Some (heap w !! l') -> is_Some (heap (state_of out) !! l')).
Proof.
  cbv zeta. rewrite create_or_get_run.
  assert (Hnew : forall w0 io0,
    heap w0 = heap w -> next_id w0 = next_id w ->
    _aufe_connections w0 = _aufe_connections w ->
    let out := construct E cfg server sid rc (w0, io0) in
    (forall sid', sid' <> sid ->
       _aufe_connections (state_of out) !! sid' = _aufe_connections w !! sid')
    /\ (forall l', result_of out <> Ret l' ->
          heap (state_of out) !! l' = heap w !! l')
    /\ (forall l', is_Some (heap w !! l') ->
          is_Some (heap (state_of out) !! l'))).
  { intros w0 io0 Hh Hn Hp. cbv zeta. rewrite construct_run.
    unfold state_of, result_of, constructed.
    cbn [fst snd heap next_id _aufe_connections]. rewrite Hh, Hn, Hp.
    split; [|split].
    - intros sid' Hne. destruct (String.eqb sid ""); [reflexivity|].
      now rewrite lookup_insert_ne by congruence.
    - intros l' Hne. rewrite lookup_insert_ne; [reflexivity|]. congruence.
    - intros l' Hl'. destruct (decide (next_id w = l')) as [<- | Hd].
      + rewrite lookup_insert_eq. eauto.
      + now rewrite lookup_insert_ne by exact Hd. }
  destruct (_aufe_connections w !! sid) as [l|]; [|now apply Hnew].
  destruct (heap w !! l) as [c|] eqn:Hc.
  - destruct (_is_closed c); [now apply Hnew|].
    destruct (is_active cfg (clock E (ticks io)) c); [|now apply Hnew].
    unfold state_of, result_of, touched, set_heap.
    cbn [fst snd heap next_id _aufe_connections].
    split; [reflexivity|]. split.
    + intros l' Hne. rewrite lookup_alter_ne; [reflexivity|]. congruence.
    + intros l' Hl'. destruct (decide (l = l')) as [<- | Hd].
      * rewrite lookup_alter_eq, Hc. cbn. eauto.
      * now rewrite lookup_alter_ne by exact Hd.
  - unfold state_of. cbn. auto.
Qed.

(** X23.  The replacement of a stale connection. When the instance
    registered for a student id is no longer active, the call builds a
    new instance, registers it in its place and schedules the close of
    the old one. When that close runs, it removes the student id from
    the pool although the id names the new instance by then: the new
    instance stays open but is registered no more. *)
Theorem deferred_close_unregisters_replacement server sid rc l c w io :
  well_formed w ->
  _aufe_connections w !! sid = Some l ->
  heap w !! l = Some c ->
  is_active cfg (clock E (ticks io)) c = false ->
  tasks w = [] ->
  let r2 := create_or_get_connection E cfg server sid rc (w, io) in
  let r3 := run_task E (snd r2) in
  result_of r2 = Ret (next_id w)
  /\ next_id w <> l
  /\ _aufe_connections (state_of r2) !! sid = Some (next_id w)
  /\ tasks (state_of r2) = [l]
  /\ (_is_closed <$> heap (state_of r3) !! l) = Some true
  /\ (_is_closed <$> heap (state_of r3) !! next_id w) = Some false
  /\ _aufe_connections (state_of r3) !! sid = None.
Proof.
  intros (Hreg & Halloc & _) Hp Hc Hstale Hnone.
  destruct (Hreg sid l Hp) as (Hne & c' & Hc' & Hs & Ho).
  rewrite Hc in Hc'. injection Hc' as <-.
  assert (Hneb : String.eqb sid "" = false) by now apply String.eqb_neq.
  assert (Hl : next_id w <> l).
  { assert (l < next_id w)%nat by (apply Halloc; eauto). lia. }
  set (w2 := mkWorld
                (<[next_id w :=
                     new_connection cfg server (Some sid) rc
                       (clock E (Datatypes.S (Datatypes.S (ticks io))))
                       (clock E (Datatypes.S (ticks io)))]> (heap w))
                (Datatypes.S (next_id w))
                (<[sid := next_id w]> (_aufe_connections w)) [l]).
  assert (Hr2 : create_or_get_connection E cfg server sid rc (w, io)
                = (Ret (next_id w), (w2, ticked (ticked (ticked io))))).
  { rewrite create_or_get_run, Hp, Hc, Ho, Hstale, construct_run.
    unfold constructed, with_task, w2.
    cbn [heap next_id _aufe_connections tasks ticked ticks].
    now rewrite Hneb, Hnone. }
  destruct (close_registered sid l c
              (mkWorld (heap w2) (next_id w2) (_aufe_connections w2) [])
              (ticked (ticked (ticked io)))) as (r & Hclose).
  { cbn [heap w2]. now rewrite lookup_insert_ne by exact Hl. }
  { exact Ho. }
  { exact Hs. }
  { exact Hne. }
  { cbn [_aufe_connections w2]. rewrite lookup_insert_eq. eauto. }
  assert (Hr3 : run_task E (w2, ticked (ticked (ticked io)))
                = (r, (mkWorld (alter (set_is_closed true) l (heap w2))
                         (next_id w2) (delete sid (_aufe_connections w2)) [],
                       closed_session (ticked (ticked (ticked io)))))).
  { unfold run_task, bind at 1, Effects.get, ret. cbn [fst snd tasks w2].
    unfold bind at 1, modify. cbn [fst snd]. exact Hclose. }
  cbv zeta. rewrite Hr2. cbn [snd]. rewrite Hr3.
  unfold state_of, result_of.
  cbn [fst snd heap next_id _aufe_connections tasks w2].
  split; [reflexivity|]. split; [exact Hl|].
  split; [apply lookup_insert_eq|]. split; [reflexivity|].
  split; [|split].
  - rewrite lookup_alter_eq, lookup_insert_ne by exact Hl. now rewrite Hc.
  - rewrite lookup_alter_ne by congruence. rewrite lookup_insert_eq.
    reflexivity.
  - apply lookup_delete_eq.
Qed.
End PoolLife.

(** ** Redirects followed by hand *)

Section RedirectFacts.
Import Redirect.
Context {Model : Type}.
Variable E : Env.
Variable cfg : Settings.
Implicit Type c : Connection Model.

(** A wrapped operation that never raises is run once. *)
Lemma retry_async_total {S A} config (func : M S A) s :
  1 <= max_attempts config ->
  (forall e, fst (func s) <> Raise e) ->
  exists a,
    func s = (Ret a, snd (func s))
    /\ retry_async E config func s = (Ret (Some a), snd (func s)).
Proof.
  intros Hmax Hret. destruct (func s) as [[a | e] s'] eqn:Hf.
  - exists a. split; [reflexivity|]. now apply retry_async_returns.
  - now contradiction (Hret e).
Qed.

Lemma redirect_to_unfold depth url cookies :
  redirect_to E cfg (Datatypes.S depth) url cookies
  = activity_tracker E
      (returned <-
         retry_async E (default_retry_config cfg)
           (try_except
              (response <- (send E (mkRequest "GET" url []
                                      (cookie_list cookies)
                                      "follow_redirects=False")
                            : M (Connection Model) Response) ;;
               match next_location response with
               | Some location =>
                   redirect_to E cfg depth location
                     (Some (Effects.cookies response ∪ default ∅ cookies))
               | None =>
                   ret (Some (response,
                              match cookies with
                              | None => Effects.cookies response
                              | Some jar => Effects.cookies response ∪ jar
                              end))
               end)
              (fun e => ret None)) ;;
       ret (default None returned)).
Proof. reflexivity. Qed.

(** X24.  [redirect_to] swallows every failure. A call the interpreter
    admits never raises, whatever the network does; and when its request
    meets an exception, of whatever class, it returns [None] after that
    one request: the body has caught the exception, so the retry policy
    around it never sees one and nothing is retried. *)
Theorem redirect_to_never_raises depth url cookies c io :
  1 <= MAX_RETRIES cfg ->
  let out := redirect_to E cfg (Datatypes.S depth) url cookies (c, io) in
  (exists v, result_of out = Ret v)
  /\ (forall e, net E (List.length (wire io)) = Raise e ->
        out = (Ret None,
               (set_last_activity (clock E (ticks io)) c,
                sent (mkRequest "GET" url [] (cookie_list cookies)
                        "follow_redirects=False") (ticked io)))).
Proof.
  intros Hmax. cbv zeta.
  split.
  - revert url cookies c io.
    induction depth as [|depth IH]; intros url cookies c io;
      rewrite redirect_to_unfold, activity_tracker_run; unfold bind at 1.
    + match goal with
      | |- context [retry_async E ?cf ?f ?s] =>
          destruct (retry_async_total cf f s Hmax) as (a & _ & ->)
      end.
      * intros e. unfold try_except, bind, send. cbn [fst snd].
        destruct (net E _) as [resp | e0]; [|discriminate].
        destruct (next_location resp); discriminate.
      * eexists. reflexivity.
    + match goal with
      | |- context [retry_async E ?cf ?f ?s] =>
          destruct (retry_async_total cf f s Hmax) as (a & _ & ->)
      end.
      * intros e. unfold try_except, bind at 1, send. cbn [fst snd].
        destruct (net E _) as [resp | e0]; [|discriminate].
        destruct (next_location resp) as [loc|]; [|discriminate].
        match goal with
        | |- context [redirect_to E cfg (Datatypes.S depth) ?u ?k
                        (?c1, ?io1)] =>
            destruct (IH u k c1 io1) as (v & Hv)
        end.
        unfold result_of in Hv.
        destruct (redirect_to E cfg (Datatypes.S depth) _ _ _)
          as [[v' | e'] s'];
          [discriminate | discriminate Hv].
      * eexists. reflexivity.
  - intros e Hnet. rewrite redirect_to_unfold, activity_tracker_run.
    unfold bind at 1.
    rewrite (retry_async_returns E (default_retry_config cfg) _ _ None
               (set_last_activity (clock E (ticks io)) c,
                sent (mkRequest "GET" url [] (cookie_list cookies)
                        "follow_redirects=False") (ticked io)) Hmax).
    + reflexivity.
    + unfold try_except, bind, send. cbn [fst snd ticked wire].
      now rewrite Hnet.
Qed.

Lemma redirect_to_chain hops :
  forall depth url cookies c io last,
    1 <= MAX_RETRIES cfg ->
    (List.length hops < depth)%nat ->
    (forall i h, nth_error hops i = Some h ->
       net E (List.length (wire io) + i) = Ret h
       /\ is_Some (next_location h)) ->
    net E (List.length (wire io) + List.length hops) = Ret last ->
    next_location last = None ->
    exists s',
      redirect_to E cfg depth url cookies (c, io)
      = (Ret (Some (last, gathered cookies (hops ++ [last]))), s')
      /\ map req_url (wire (snd s'))
         = (rev (url :: omap next_location hops) ++ map req_url (wire io))%list.
Proof.
  induction hops as [|h rest IH];
    intros depth url cookies c io last Hmax Hdepth Hhops Hlast Hend;
    (destruct depth as [|depth]; [cbn in Hdepth; lia|]);
    rewrite redirect_to_unfold, activity_tracker_run;
    unfold bind at 1.
  - cbn [List.length] in Hlast. rewrite Nat.add_0_r in Hlast.
    rewrite (retry_async_returns E (default_retry_config cfg) _ _
               (Some (last, gathered cookies [last]))
               (set_last_activity (clock E (ticks io)) c,
                sent (mkRequest "GET" url [] (cookie_list cookies)
                        "follow_redirects=False") (ticked io)) Hmax).
    + eexists. split; reflexivity.
    + unfold try_except, bind, send. cbn [fst snd ticked wire].
      rewrite Hlast, Hend. unfold ret, gathered. cbn [foldl].
      destruct cookies as [jar|]; cbn [default]; [reflexivity|].
      now rewrite (right_id_L ∅ (∪)).
  - destruct (Hhops 0%nat h eq_refl) as [Hnet [loc Hloc]].
    rewrite Nat.add_0_r in Hnet.
    destruct (IH depth loc
                (Some (Effects.cookies h ∪ default ∅ cookies))
                (set_last_activity (clock E (ticks io)) c)
                (sent (mkRequest "GET" url [] (cookie_list cookies)
                         "follow_redirects=False") (ticked io))
                last Hmax) as (s' & Hres & Hurls).
    + cbn [List.length] in Hdepth. lia.
    + intros i h' Hi. cbn [sent ticked wire List.length].
      replace (Datatypes.S (List.length (wire io)) + i)%nat
        with (List.length (wire io) + Datatypes.S i)%nat by lia.
      now apply Hhops.
    + cbn [sent ticked wire List.length].
      replace (Datatypes.S (List.length (wire io)) + List.length rest)%nat
        with (List.length (wire io) + List.length (h :: rest))%nat
        by (cbn [List.length]; lia).
      exact Hlast.
    + exact Hend.
    + rewrite (retry_async_returns E (default_retry_config cfg) _ _
                 (Some (last, gathered cookies ((h :: rest) ++ [last])))
                 s' Hmax).
      * exists s'. split; [reflexivity|]. rewrite Hurls.
        cbn [sent ticked wire map req_url].
        change (omap next_location (h :: rest))
          with (match next_location h with
                | Some y => y :: omap next_location rest
                | None => omap next_location rest
                end).
        rewrite Hloc. cbn [rev]. rewrite <- !app_assoc. reflexivity.
      * unfold try_except, bind, send. cbn [fst snd ticked wire].
        rewrite Hnet, Hloc, Hres. reflexivity.
Qed.

(** X25.  Following a chain of redirects. When the requests are answered
    by the responses [hops], each a redirect with an address, and then
    by [last], which is none, a call that the interpreter allows that
    many nested calls returns [last] with the cookies gathered along the
    chain on top of those it was given, the later response winning; and
    it has asked for the first address and then, in order, for the
    address each redirect gave. *)
Theorem redirect_to_follows hops depth url cookies c io last :
  1 <= MAX_RETRIES cfg ->
  (List.length hops < depth)%nat ->
  (forall i h, nth_error hops i = Some h ->
     net E (List.length (wire io) + i) = Ret h
     /\ is_Some (next_location h)) ->
  net E (List.length (wire io) + List.length hops) = Ret last ->
  next_location last = None ->
  let out := redirect_to E cfg depth url cookies (c, io) in
  result_of out = Ret (Some (last, gathered cookies (hops ++ [last])))
  /\ map req_url (wire (io_of out))
     = (rev (url :: omap next_location hops) ++ map req_url (wire io))%list
  /\ (forall name,
        gathered cookies (hops ++ [last]) !! name
        = match Effects.cookies last !! name with
          | Some value => Some value
          | None => gathered cookies hops !! name
          end).
Proof.
  intros Hmax Hdepth Hhops Hlast Hend.
  destruct (redirect_to_chain hops depth url cookies c io last
              Hmax Hdepth Hhops Hlast Hend) as (s' & Hrun & Hurls).
  cbv zeta. rewrite Hrun. split; [reflexivity|]. split; [exact Hurls|].
  intros name. unfold gathered. rewrite foldl_app. cbn [foldl].
  rewrite lookup_union.
  destruct (Effects.cookies last !! name) as [value|];
    [now destruct (foldl _ _ hops !! name) | now rewrite (left_id_L None _)].
Qed.
End RedirectFacts.

(** ** The callers and the monitor *)

Section ServiceFacts.
Import Pool Service.
Context {Model : Type} `{Portal Model} `{BlockCipher}.
Variable E : Env.
Variable cfg : Settings.
Implicit Type c : Connection Model.
Implicit Type w : World Model.

(** A wrapped call that returns a value returns what a run of the
    operation returned, from the state that run left. *)
Lemma retry_loop_returned {S A} config (func : M S A) n :
  forall attempt last s a s',
    retry_loop E config func n attempt last s = (Ret (Some a), s') ->
    exists s0, func s0 = (Ret a, s').
Proof.
  induction n as [|n IH]; intros attempt last s a s' Hrun.
  - cbn in Hrun. destruct last; discriminate Hrun.
  - cbn [retry_loop] in Hrun. unfold try_except, bind in Hrun.
    destruct (func s) as [[a0 | e] s1] eqn:Hf.
    + injection Hrun as <- <-. eauto.
    + destruct (isinstance e _); [|discriminate Hrun].
      destruct (attempt =? _); [discriminate Hrun|].
      destruct (next_delay E config attempt s1) as [[d | e'] s2];
        [|discriminate Hrun].
      unfold sleep in Hrun. cbn [fst snd] in Hrun. eauto.
Qed.

Lemma uaap_login_body_true username password c io s' :
  uaap_login_body E username password (c, io) = (Ret true, s') ->
  _uaap_logged_in (fst s') = true.
Proof.
  unfold uaap_login_body, try_except, bind, Effects.get, send, modify,
    health_mark_error, time_time, raise, ret.
  cbn [fst snd].
  destruct (net E (List.length (wire io))) as [page | e0].
  - destruct (negb (status_code page =? 200)); [cbn; discriminate|].
    destruct (find_input "lt" (text page)) as [[lt|]|]; [| |cbn; discriminate].
    + destruct (find_input "execution" (text page)) as [ex|];
        [|cbn; discriminate].
      cbn [fst snd sent wire List.length].
      destruct (net E (Datatypes.S (List.length (wire io)))) as [resp | e1].
      * destruct (status_code resp =? 302); [|cbn; discriminate].
        destruct (negb (String.eqb _ _)); cbn; [|discriminate].
        intros [= <-]. reflexivity.
      * destruct (issubclass e1 RequestError); cbn; discriminate.
    + destruct (find_input "execution" (text page)) as [ex|];
        [|cbn; discriminate].
      destruct (issubclass Exception_ RequestError); cbn; discriminate.
  - destruct (issubclass e0 RequestError); cbn; discriminate.
Qed.

(** A login that returns true has set its flag. *)
Lemma login_true username password s s' :
  login E cfg username password s = (Ret (Some true), s') ->
  _logged_in (fst s') = true.
Proof.
  destruct s as [c io]. unfold login. rewrite activity_tracker_run.
  unfold retry_async. intros Hrun.
  destruct (retry_loop_returned _ _ _ _ _ _ _ _ Hrun) as ([c0 io0] & Hbody).
  now destruct (login_body_outcomes E _ _ _ _ _ _ Hbody) as (_ & _ & Htrue);
    apply Htrue.
Qed.

Lemma uaap_login_true username password s s' :
  uaap_login E cfg username password s = (Ret (Some true), s') ->
  _uaap_logged_in (fst s') = true /\ _logged_in (fst s') = _logged_in (fst s).
Proof.
  intros Hrun. split; [|exact (uaap_login_keeps_vpn E cfg _ _ _ _ _ Hrun)].
  destruct s as [c io]. unfold uaap_login in Hrun.
  rewrite activity_tracker_run in Hrun. unfold retry_async in Hrun.
  destruct (retry_loop_returned _ _ _ _ _ _ _ _ Hrun) as ([c0 io0] & Hbody).
  exact (uaap_login_body_true _ _ _ _ _ Hbody).
Qed.

Lemma login_status_run c io :
  login_status E (c, io)
  = (Ret (_logged_in c && is_healthy (_health c)),
     (set_last_activity (clock E (ticks io)) c, ticked io)).
Proof. reflexivity. Qed.

Lemma uaap_login_status_run c io :
  uaap_login_status E (c, io)
  = (Ret (_uaap_logged_in c && is_healthy (_health c)),
     (set_last_activity (clock E (ticks io)) c, ticked io)).
Proof. reflexivity. Qed.

Lemma on_connection_run {A} l (method : M (Connection Model) A) c w io :
  heap w !! l = Some c ->
  on_connection l method (w, io)
  = (fst (method (c, io)),
     (set_heap (<[l := fst (snd (method (c, io)))]> (heap w)) w,
      snd (snd (method (c, io))))).
Proof. intros Hc. unfold on_connection. cbn [fst snd]. now rewrite Hc. Qed.


Lemma login_attempts_same_identity config username password :
  respects same_identity
    (retry_async E config (login_body (Model := Model) E username password)).
Proof.
  unfold login_body, health_mark_error. frame; reflexivity.
Qed.

Lemma uaap_login_attempts_same_identity config username password :
  respects same_identity
    (retry_async E config
       (uaap_login_body (Model := Model) E username password)).
Proof.
  unfold uaap_login_body, health_mark_error. frame; reflexivity.
Qed.

Lemma login_same_identity username password :
  respects same_identity (login (Model := Model) E cfg username password).
Proof.
  unfold login, activity_tracker, _update_activity, login_body,
    health_mark_error.
  frame; reflexivity.
Qed.

Lemma uaap_login_same_identity username password :
  respects same_identity
    (uaap_login (Model := Model) E cfg username password).
Proof.
  unfold uaap_login, activity_tracker, _update_activity, uaap_login_body,
    health_mark_error.
  frame; reflexivity.
Qed.

(** A task that is run returns to the event loop, however it ends. *)
Lemma settle_task_run (s : World Model * IO) :
  settle_task E s = (Ret tt, snd (run_task E s)).
Proof.
  unfold settle_task, try_except.
  now destruct (run_task E s) as [[[] | e] s'].
Qed.

Lemma run_tasks_returns n :
  forall s : World Model * IO, fst (run_tasks E n s) = Ret tt.
Proof.
  induction n as [|n IH]; intros s; [reflexivity|].
  cbn [run_tasks]. unfold bind at 1. rewrite settle_task_run. apply IH.
Qed.

Lemma run_pending_returns (s : World Model * IO) :
  run_pending E s = (Ret tt, snd (run_pending E s)).
Proof.
  unfold run_pending, bind, Effects.get. cbn [fst snd].
  pose proof (run_tasks_returns (List.length (tasks (fst s))) s) as Hr.
  destruct (run_tasks E _ s) as [r s']. cbn [fst snd] in *. now subst r.
Qed.

Lemma run_pending_idle w io :
  tasks w = [] -> run_pending E (w, io) = (Ret tt, (w, io)).
Proof.
  intros Ht. unfold run_pending, bind, Effects.get. cbn [fst snd].
  now rewrite Ht.
Qed.

(** One pending task: the close it stands for is run to its end. *)
Lemma run_pending_one l w io :
  tasks w = [l] ->
  run_pending E (w, io)
  = (Ret tt,
     snd (close E l (mkWorld (heap w) (next_id w) (_aufe_connections w) [],
                     io))).
Proof.
  intros Ht. unfold run_pending, bind at 1, Effects.get. cbn [fst snd].
  rewrite Ht. cbn [List.length run_tasks]. unfold bind at 1.
  rewrite settle_task_run. unfold ret.
  unfold run_task, bind at 1, Effects.get. cbn [fst snd]. rewrite Ht.
  unfold bind at 1, modify. cbn [fst snd].
  now destruct (close E l _) as [[[] | e] s'].
Qed.

(** An awaited method, from an instance that exists: the activity
    time is set, the event loop runs what is pending where an attempt
    is allowed, and the attempts are made. *)
Lemma awaited_run {A} l c config (func : M (Connection Model) A) w io :
  heap w !! l = Some c ->
  awaited E l config func (w, io)
  = on_connection l (retry_async E config func)
      (let s1 :=
         (set_heap
            (<[l := set_last_activity (clock E (ticks io)) c]> (heap w)) w,
          ticked io) in
       if 1 <=? max_attempts config then snd (run_pending E s1) else s1).
Proof.
  intros Hc. unfold awaited, bind at 1.
  rewrite (on_connection_run l _ c w io Hc). cbn [fst snd _update_activity].
  unfold bind at 1. cbv zeta. destruct (1 <=? max_attempts config).
  - now rewrite run_pending_returns.
  - reflexivity.
Qed.

(** With nothing pending an awaited method is the decorated method,
    run on the instance. *)
Lemma awaited_idle {A} l c config (func : M (Connection Model) A) w io :
  tasks w = [] ->
  heap w !! l = Some c ->
  awaited E l config func (w, io)
  = on_connection l (activity_tracker E (retry_async E config func)) (w, io).
Proof.
  intros Ht Hc. rewrite (awaited_run l c) by exact Hc. cbv zeta.
  rewrite run_pending_idle by exact Ht.
  replace (if 1 <=? max_attempts config then _ else _)
    with (set_heap
            (<[l := set_last_activity (clock E (ticks io)) c]> (heap w)) w,
          ticked io)
    by now destruct (1 <=? max_attempts config).
  rewrite (on_connection_run l _ (set_last_activity (clock E (ticks io)) c))
    by (unfold set_heap; cbn [heap]; apply lookup_insert_eq).
  rewrite (on_connection_run l _ c w io Hc), activity_tracker_run.
  unfold set_heap. cbn [heap next_id _aufe_connections tasks].
  now rewrite insert_insert_eq.
Qed.

Lemma retry_async_no_attempt {S A} config (func : M S A) s :
  max_attempts config <= 0 -> retry_async E config func s = (Ret None, s).
Proof.
  intros Hmax. unfold retry_async.
  now replace (Z.to_nat (max_attempts config)) with 0%nat by lia.
Qed.

(** The first [if] of [get_jwc_client] with nothing pending. *)
Lemma ensure_vpn_idle l c w io userid easyconnect_password r w' io' :
  tasks w = [] ->
  heap w !! l = Some c ->
  ensure_vpn E cfg l userid easyconnect_password (w, io) = (r, (w', io')) ->
  exists c',
    w' = set_heap (<[l := c']> (heap w)) w
    /\ same_identity c c'
    /\ (r = Ret true -> _logged_in c' = true).
Proof.
  intros Ht Hc. unfold ensure_vpn, bind at 1.
  rewrite (on_connection_run l _ c w io Hc), login_status_run.
  cbn [fst snd].
  destruct (_logged_in c && is_healthy (_health c)) eqn:Hst; cbn [negb].
  - intros [= <- <- <-]. eexists. split; [reflexivity|].
    split; [reflexivity|]. intros _. cbn.
    now apply andb_true_iff in Hst as [-> _].
  - unfold bind at 1.
    rewrite (awaited_idle l (set_last_activity (clock E (ticks io)) c))
      by (unfold set_heap; cbn [heap tasks];
          first [exact Ht | apply lookup_insert_eq]).
    rewrite (on_connection_run l _ (set_last_activity (clock E (ticks io)) c))
      by (unfold set_heap; cbn [heap]; apply lookup_insert_eq).
    change (activity_tracker E
              (retry_async E (default_retry_config cfg)
                 (login_body E userid easyconnect_password)))
      with (login E cfg userid easyconnect_password).
    destruct (login E cfg userid easyconnect_password _)
      as [returned [c2 io2]] eqn:Hl.
    pose proof (login_same_identity _ _ _ _ _ Hl) as Hid.
    cbn [fst snd] in Hid |- *. unfold set_heap.
    cbn [heap next_id _aufe_connections tasks]. rewrite insert_insert_eq.
    destruct returned as [[[|]|] | e]; cbn; intros [= <- <- <-];
      (exists c2; split; [reflexivity|]; split; [exact Hid|]);
      try discriminate.
    intros _. exact (login_true _ _ _ _ Hl).
Qed.

(** The second [if] with nothing pending. *)
Lemma ensure_uaap_idle l c w io userid password r w' io' :
  tasks w = [] ->
  heap w !! l = Some c ->
  ensure_uaap E cfg l userid password (w, io) = (r, (w', io')) ->
  exists c',
    w' = set_heap (<[l := c']> (heap w)) w
    /\ same_identity c c'
    /\ (r = Ret true ->
        _uaap_logged_in c' = true /\ _logged_in c' = _logged_in c).
Proof.
  intros Ht Hc. unfold ensure_uaap, bind at 1.
  rewrite (on_connection_run l _ c w io Hc), uaap_login_status_run.
  cbn [fst snd].
  destruct (_uaap_logged_in c && is_healthy (_health c)) eqn:Hst; cbn [negb].
  - intros [= <- <- <-]. eexists. split; [reflexivity|].
    split; [reflexivity|]. intros _. cbn.
    now apply andb_true_iff in Hst as [-> _].
  - unfold bind at 1.
    rewrite (awaited_idle l (set_last_activity (clock E (ticks io)) c))
      by (unfold set_heap; cbn [heap tasks];
          first [exact Ht | apply lookup_insert_eq]).
    rewrite (on_connection_run l _ (set_last_activity (clock E (ticks io)) c))
      by (unfold set_heap; cbn [heap]; apply lookup_insert_eq).
    change (activity_tracker E
              (retry_async E (default_retry_config cfg)
                 (uaap_login_body E userid password)))
      with (uaap_login E cfg userid password).
    destruct (uaap_login E cfg userid password _)
      as [returned [c2 io2]] eqn:Hl.
    pose proof (uaap_login_same_identity _ _ _ _ _ Hl) as Hid.
    cbn [fst snd] in Hid |- *. unfold set_heap.
    cbn [heap next_id _aufe_connections tasks]. rewrite insert_insert_eq.
    destruct returned as [[[|]|] | e]; cbn; intros [= <- <- <-];
      (exists c2; split; [reflexivity|]; split; [exact Hid|]);
      try discriminate.
    intros _. exact (uaap_login_true _ _ _ _ Hl).
Qed.

(** The first [if] on a new instance while the close of the instance
    it replaces is pending: when the login succeeds, the close has
    run. *)
Lemma ensure_vpn_replacing l c l0 c0 sid w io userid easyconnect_password
    w' io' :
  tasks w = [l0] ->
  l0 <> l ->
  heap w !! l = Some c ->
  _logged_in c = false ->
  heap w !! l0 = Some c0 ->
  _is_closed c0 = false ->
  student_id c0 = Some sid ->
  sid <> "" ->
  is_Some (_aufe_connections w !! sid) ->
  ensure_vpn E cfg l userid easyconnect_password (w, io)
  = (Ret true, (w', io')) ->
  exists c',
    w' = mkWorld (<[l := c']> (alter (set_is_closed true) l0 (heap w)))
           (next_id w) (delete sid (_aufe_connections w)) []
    /\ same_identity c c'
    /\ _logged_in c' = true.
Proof.
  intros Ht Hne Hc Hout Hc0 Ho0 Hs0 Hsid Hp. unfold ensure_vpn, bind at 1.
  rewrite (on_connection_run l _ c w io Hc), login_status_run, Hout.
  cbn [fst snd andb negb]. unfold bind at 1.
  set (c1 := set_last_activity (clock E (ticks io)) c).
  rewrite (awaited_run l c1)
    by (unfold set_heap; cbn [heap]; apply lookup_insert_eq).
  cbv zeta. set (c2 := set_last_activity _ c1).
  destruct (Z.leb_spec 1 (max_attempts (default_retry_config cfg)))
    as [Hmax | Hmax].
  - rewrite (run_pending_one l0) by exact Ht.
    unfold set_heap. cbn [heap next_id _aufe_connections tasks].
    rewrite insert_insert_eq.
    destruct (close_registered E sid l0 c0
                (mkWorld (<[l := c2]> (heap w)) (next_id w)
                   (_aufe_connections w) [])
                (ticked (ticked io))) as (closed & ->);
      cbn [heap _aufe_connections]; try assumption.
    { now rewrite lookup_insert_ne by (intros Heq; now apply Hne). }
    cbn [fst snd heap next_id _aufe_connections tasks].
    rewrite (on_connection_run l _ c2)
      by (cbn [heap]; rewrite lookup_alter_ne by exact Hne;
          apply lookup_insert_eq).
    destruct (retry_async E (default_retry_config cfg)
                (login_body E userid easyconnect_password) _)
      as [returned [c3 io3]] eqn:Hl.
    pose proof (login_attempts_same_identity _ _ _ _ _ _ Hl) as Hid.
    cbn [fst snd] in Hid |- *. unfold set_heap.
    cbn [heap next_id _aufe_connections tasks].
    destruct returned as [[[|]|] | e]; cbn; try discriminate.
    intros [= <- <-]. exists c3. split.
    + f_equal. rewrite alter_insert_ne by exact Hne.
      now rewrite insert_insert_eq.
    + split; [exact Hid|].
      unfold retry_async in Hl.
      destruct (retry_loop_returned _ _ _ _ _ _ _ _ Hl) as ([c4 io4] & Hbody).
      now destruct (login_body_outcomes E _ _ _ _ _ _ Hbody)
        as (_ & _ & Htrue); apply Htrue.
  - rewrite (on_connection_run l _ c2)
      by (unfold set_heap; cbn [heap]; apply lookup_insert_eq).
    rewrite retry_async_no_attempt by lia. cbn. discriminate.
Qed.

(** The two [if]s with nothing pending: a client is built on the
    instance with both flags set, and only the instance has
    changed. *)
Lemma ensure_logged_in_idle l c w io userid easyconnect_password password
    w' io' :
  tasks w = [] ->
  heap w !! l = Some c ->
  ensure_logged_in E cfg l userid easyconnect_password password (w, io)
  = (Ret ClientReady, (w', io')) ->
  exists c',
    w' = set_heap (<[l := c']> (heap w)) w
    /\ same_identity c c'
    /\ _logged_in c' = true
    /\ _uaap_logged_in c' = true.
Proof.
  intros Ht Hc. unfold ensure_logged_in, bind at 1.
  destruct (ensure_vpn E cfg l userid easyconnect_password (w, io))
    as [[[|] | e] [w1 io1]] eqn:Hvpn; cbn [negb]; try discriminate.
  destruct (ensure_vpn_idle _ _ _ _ _ _ _ _ _ Ht Hc Hvpn)
    as (c1 & -> & Hid1 & Hl1).
  specialize (Hl1 eq_refl). unfold bind at 1.
  destruct (ensure_uaap E cfg l userid password _)
    as [[[|] | e] [w2 io2]] eqn:Hsso; cbn [negb]; try discriminate.
  intros [= <- <-].
  destruct (ensure_uaap_idle l c1 (set_heap (<[l := c1]> (heap w)) w)
              _ _ _ _ _ _ Ht (lookup_insert_eq _ _ _) Hsso)
    as (c2 & -> & Hid2 & Hl2).
  destruct (Hl2 eq_refl) as [Hu Hkeep]. exists c2.
  unfold set_heap. cbn [heap next_id _aufe_connections tasks].
  rewrite insert_insert_eq. split; [reflexivity|].
  split; [now transitivity c1|]. split; [congruence | exact Hu].
Qed.

(** The two [if]s on a new instance while the close of the instance
    it replaces is pending. *)
Lemma ensure_logged_in_replacing l c l0 c0 sid w io userid
    easyconnect_password password w' io' :
  tasks w = [l0] ->
  l0 <> l ->
  heap w !! l = Some c ->
  _logged_in c = false ->
  heap w !! l0 = Some c0 ->
  _is_closed c0 = false ->
  student_id c0 = Some sid ->
  sid <> "" ->
  is_Some (_aufe_connections w !! sid) ->
  ensure_logged_in E cfg l userid easyconnect_password password (w, io)
  = (Ret ClientReady, (w', io')) ->
  exists c',
    w' = mkWorld (<[l := c']> (alter (set_is_closed true) l0 (heap w)))
           (next_id w) (delete sid (_aufe_connections w)) []
    /\ same_identity c c'
    /\ _logged_in c' = true
    /\ _uaap_logged_in c' = true.
Proof.
  intros Ht Hne Hc Hout Hc0 Ho0 Hs0 Hsid Hp.
  unfold ensure_logged_in, bind at 1.
  destruct (ensure_vpn E cfg l userid easyconnect_password (w, io))
    as [[[|] | e] [w1 io1]] eqn:Hvpn; cbn [negb]; try discriminate.
  destruct (ensure_vpn_replacing _ _ _ _ _ _ _ _ _ _ _ Ht Hne Hc Hout Hc0
              Ho0 Hs0 Hsid Hp Hvpn) as (c1 & -> & Hid1 & Hl1).
  unfold bind at 1.
  destruct (ensure_uaap E cfg l userid password _)
    as [[[|] | e] [w2 io2]] eqn:Hsso; cbn [negb]; try discriminate.
  intros [= <- <-].
  destruct (ensure_uaap_idle l c1
              (mkWorld (<[l := c1]> (alter (set_is_closed true) l0 (heap w)))
                 (next_id w) (delete sid (_aufe_connections w)) [])
              _ _ _ _ _ _ eq_refl (lookup_insert_eq _ _ _) Hsso)
    as (c2 & -> & Hid2 & Hl2).
  destruct (Hl2 eq_refl) as [Hu Hkeep]. exists c2.
  unfold set_heap. cbn [heap next_id _aufe_connections tasks].
  rewrite insert_insert_eq. split; [reflexivity|].
  split; [now transitivity c1|]. split; [congruence | exact Hu].
Qed.

(** On a healthy instance with both flags set the two status queries
    are all that happens. *)
Lemma ensure_logged_in_fast l c w io userid easyconnect_password password :
  heap w !! l = Some c ->
  _logged_in c = true -> _uaap_logged_in c = true ->
  is_healthy (_health c) = true ->
  ensure_logged_in E cfg l userid easyconnect_password password (w, io)
  = (Ret ClientReady,
     (set_heap
        (<[l := set_last_activity (clock E (Datatypes.S (ticks io))) c]>
           (heap w)) w,
      ticked (ticked io))).
Proof.
  intros Hc Hl Hu Hh. unfold ensure_logged_in, bind at 1, ensure_vpn, bind at 1.
  rewrite (on_connection_run l _ c w io Hc), login_status_run, Hl, Hh.
  cbn [fst snd andb negb]. unfold ret at 1. cbn [negb].
  unfold bind at 1, ensure_uaap, bind at 1.
  rewrite (on_connection_run l _ (set_last_activity (clock E (ticks io)) c))
    by (unfold set_heap; cbn [heap]; apply lookup_insert_eq).
  rewrite uaap_login_status_run.
  cbn [fst snd set_last_activity _uaap_logged_in _health]. rewrite Hu, Hh.
  cbn [andb negb]. unfold ret. cbn [negb]. unfold set_heap.
  cbn [heap next_id _aufe_connections tasks]. now rewrite insert_insert_eq.
Qed.

(** X26.  [get_jwc_client], from the pool to the client, for a user id
    that is not empty, in a well-formed pool with no task pending.
    Whenever it ends with a client, the client is built on an open
    instance for the user that has both login flags set, and no task is
    pending. Where no instance had to be replaced, that instance is the
    one registered for the user. Where an instance that is no longer
    active had to be replaced, the client is built on a new instance,
    the replaced one is closed, and its close, run while the login
    waited, has removed the user's id from the pool: the instance of the
    client is not registered. And when the instance registered for the
    user is active and has both flags set, a client is built on that
    very instance without sending anything, and the pool is as it was. *)
Theorem get_jwc_client_outcome userid easyconnect_password password w io :
  well_formed w ->
  userid <> "" ->
  tasks w = [] ->
  let now := clock E (ticks io) in
  let out := get_jwc_client E cfg userid easyconnect_password password
               (w, io) in
  (forall l, result_of out = Ret (l, ClientReady) ->
     (exists c, heap (state_of out) !! l = Some c
                /\ student_id c = Some userid
                /\ _is_closed c = false
                /\ _logged_in c = true
                /\ _uaap_logged_in c = true)
     /\ tasks (state_of out) = []
     /\ (replaces cfg now userid w = false ->
         _aufe_connections (state_of out) !! userid = Some l)
     /\ (replaces cfg now userid w = true ->
         l = next_id w
         /\ _aufe_connections (state_of out) !! userid = None
         /\ forall l0, _aufe_connections w !! userid = Some l0 ->
              (_is_closed <$> heap (state_of out) !! l0) = Some true))
  /\ (forall l c,
        _aufe_connections w !! userid = Some l ->
        heap w !! l = Some c ->
        is_active cfg now c = true ->
        _logged_in c = true -> _uaap_logged_in c = true ->
        result_of out = Ret (l, ClientReady)
        /\ wire (io_of out) = wire io
        /\ _aufe_connections (state_of out) = _aufe_connections w).
Proof.
  intros Hwf Hne Ht. cbv zeta.
  assert (Hneb : String.eqb userid "" = false) by now apply String.eqb_neq.
  split.
  - intros l.
    destruct (get_jwc_client E cfg userid easyconnect_password password (w, io))
      as [r [w' io']] eqn:Hout.
    unfold result_of, state_of. cbn [fst snd]. intros ->. revert Hout.
    unfold get_jwc_client, bind at 1. rewrite create_or_get_run.
    unfold replaces.
    destruct (_aufe_connections w !! userid) as [l0|] eqn:Hp.
    + destruct Hwf as (Hreg & Halloc & _).
      destruct (Hreg userid l0 Hp) as (_ & c0 & Hc0 & Hs0 & Ho0).
      rewrite Hc0, Ho0.
      destruct (is_active cfg (clock E (ticks io)) c0) eqn:Hact; cbn [negb].
      * unfold bind at 1.
        destruct (ensure_logged_in E cfg l0 userid _ _ _)
          as [[[| |] | e] [w2 io2]] eqn:Hens; cbn; try discriminate.
        intros [= <- <- <-].
        assert (Hc1 :
          heap (touched l0 (clock E (Datatypes.S (ticks io))) w) !! l0
          = Some (set_last_activity (clock E (Datatypes.S (ticks io))) c0))
          by (unfold touched, set_heap; cbn [heap];
              now rewrite lookup_alter_eq, Hc0).
        destruct (ensure_logged_in_idle l0 _
                    (touched l0 (clock E (Datatypes.S (ticks io))) w)
                    _ _ _ _ _ _ Ht Hc1 Hens)
          as (c2 & -> & Hid & Hl & Hu).
        unfold same_identity, identity_of in Hid. cbn in Hid.
        injection Hid as _ Hs2 _ _ _ Ho2.
        unfold touched, set_heap. cbn [heap next_id _aufe_connections tasks].
        split; [|split; [exact Ht | split; [intros _; exact Hp|discriminate]]].
        exists c2. rewrite lookup_insert_eq. split; [reflexivity|].
        repeat split; congruence.
      * rewrite construct_run. unfold bind at 1.
        change (next_id (with_task l0 w)) with (next_id w).
        change (ticks (ticked io)) with (Datatypes.S (ticks io)).
        assert (Hfresh : l0 <> next_id w).
        { assert (l0 < next_id w)%nat by (apply Halloc; eauto). lia. }
        destruct (ensure_logged_in E cfg (next_id w) userid _ _ _)
          as [[[| |] | e] [w2 io2]] eqn:Hens; cbn; try discriminate.
        intros [= <- <- <-].
        set (w1 := constructed cfg "vpn.aufe.edu.cn" userid None
                     (clock E (Datatypes.S (ticks io)))
                     (clock E (Datatypes.S (Datatypes.S (ticks io))))
                     (with_task l0 w)) in *.
        assert (Ht1 : tasks w1 = [l0])
          by (unfold w1, constructed, with_task; cbn [tasks]; now rewrite Ht).
        assert (Hc1 : heap w1 !! next_id w
                      = Some (new_connection cfg "vpn.aufe.edu.cn"
                                (Some userid) None
                                (clock E
                                   (Datatypes.S (Datatypes.S (ticks io))))
                                (clock E (Datatypes.S (ticks io)))))
          by (unfold w1, constructed; cbn [heap]; apply lookup_insert_eq).
        assert (Hc0' : heap w1 !! l0 = Some c0)
          by (unfold w1, constructed, with_task; cbn [heap];
              now rewrite lookup_insert_ne by auto).
        assert (Hp1 : is_Some (_aufe_connections w1 !! userid))
          by (unfold w1, constructed, with_task;
              cbn [_aufe_connections next_id];
              rewrite Hneb, lookup_insert_eq; eauto).
        destruct (ensure_logged_in_replacing (next_id w) _ l0 c0 userid w1
                    _ _ _ _ _ _ Ht1 Hfresh Hc1 eq_refl Hc0' Ho0 Hs0 Hne Hp1
                    Hens)
          as (c2 & -> & Hid & Hl & Hu).
        unfold same_identity, identity_of in Hid. cbn in Hid.
        injection Hid as _ Hs2 _ _ _ Ho2.
        cbn [heap next_id _aufe_connections tasks].
        split; [|split; [reflexivity | split; [discriminate|intros _]]].
        -- exists c2. rewrite lookup_insert_eq. split; [reflexivity|].
           repeat split; congruence.
        -- split; [reflexivity|]. split; [apply lookup_delete_eq|].
           intros l1 [= <-]. rewrite lookup_insert_ne by auto.
           now rewrite lookup_alter_eq, Hc0'.
    + rewrite construct_run. unfold bind at 1.
      destruct (ensure_logged_in E cfg (next_id w) userid _ _ _)
        as [[[| |] | e] [w2 io2]] eqn:Hens; cbn; try discriminate.
      intros [= <- <- <-].
      set (w1 := constructed cfg "vpn.aufe.edu.cn" userid None
                   (clock E (ticks io)) (clock E (Datatypes.S (ticks io))) w)
        in *.
      assert (Hc1 : heap w1 !! next_id w
                    = Some (new_connection cfg "vpn.aufe.edu.cn"
                              (Some userid) None
                              (clock E (Datatypes.S (ticks io)))
                              (clock E (ticks io))))
        by (unfold w1, constructed; cbn [heap]; apply lookup_insert_eq).
      destruct (ensure_logged_in_idle (next_id w) _ w1 _ _ _ _ _ _ Ht Hc1
                  Hens)
        as (c2 & -> & Hid & Hl & Hu).
      unfold same_identity, identity_of in Hid. cbn in Hid.
      injection Hid as _ Hs2 _ _ _ Ho2.
      unfold w1, constructed, set_heap.
      cbn [heap next_id _aufe_connections tasks]. rewrite Hneb.
      split; [|split; [exact Ht | split; [intros _|discriminate]]].
      * exists c2. rewrite lookup_insert_eq. split; [reflexivity|].
        repeat split; congruence.
      * apply lookup_insert_eq.
  - intros l c Hp Hc Hact Hl Hu.
    assert (Ho : _is_closed c = false).
    { unfold is_active in Hact. apply andb_true_iff in Hact as [Hact _].
      apply andb_true_iff in Hact as [Hact _]. now apply negb_true_iff. }
    assert (Hh : is_healthy (_health c) = true).
    { unfold is_active in Hact. now apply andb_true_iff in Hact as [_ Hact]. }
    assert (Hout :
      get_jwc_client E cfg userid easyconnect_password password (w, io)
      = (Ret (l, ClientReady),
         (set_heap
            (<[l := set_last_activity
                      (clock E
                         (Datatypes.S (Datatypes.S (Datatypes.S (ticks io)))))
                      (set_last_activity (clock E (Datatypes.S (ticks io))) c)]>
               (heap (touched l (clock E (Datatypes.S (ticks io))) w)))
            (touched l (clock E (Datatypes.S (ticks io))) w),
          ticked (ticked (ticked (ticked io)))))).
    { unfold get_jwc_client, bind at 1.
      rewrite create_or_get_run, Hp, Hc, Ho, Hact.
      unfold bind at 1.
      rewrite (ensure_logged_in_fast l
                 (set_last_activity (clock E (Datatypes.S (ticks io))) c))
        by (first [assumption
                  | unfold touched, set_heap; cbn [heap];
                    now rewrite lookup_alter_eq, Hc]).
      reflexivity. }
    rewrite Hout. unfold result_of, state_of, io_of, touched, set_heap.
    cbn. auto.
Qed.
End ServiceFacts.

Section MonitorFacts.
Import Pool Service.
Context {Model : Type} `{Portal Model} `{BlockCipher}.
Variable E : Env.
Variable cfg : Settings.
Implicit Type c : Connection Model.

Lemma health_check_returns c io :
  exists c',
    _health_check E (c, io)
    = (Ret tt, (c', snd (snd (_health_check E (c, io)))))
    /\ last_activity c' = last_activity c
    /\ _is_closed c' = _is_closed c.
Proof.
  unfold _health_check, try_except, bind, Effects.get, send,
    health_mark_healthy, health_mark_error, bind, time_time, modify, ret.
  cbn [fst snd]. destruct (_logged_in c).
  - cbn [fst snd]. destruct (net E (List.length (wire io))) as [resp | e].
    + destruct (status_code resp =? 200); eexists; cbn; repeat split.
    + eexists; cbn; repeat split.
  - eexists; cbn; repeat split.
Qed.

(** X27.  The monitor when it wakes up on an open connection. It never
    raises. A connection idle for longer than [ACTIVITY_TIMEOUT] is
    closed without a probe, its student id leaves the pool, and the loop
    ends, also when closing the session fails. Any other connection is
    probed and the loop goes on; the pool is as it was and the probe has
    not counted as activity, so the idle time keeps running. *)
Theorem monitor_wakes_outcome l c w io :
  well_formed w ->
  heap w !! l = Some c ->
  _is_closed c = false ->
  let now := clock E (ticks io) in
  let out := monitor_wakes E cfg l (w, io) in
  (now - last_activity c > ACTIVITY_TIMEOUT cfg ->
   result_of out = Ret false
   /\ (_is_closed <$> heap (state_of out) !! l) = Some true
   /\ (forall sid, student_id c = Some sid ->
         _aufe_connections (state_of out) !! sid = None)
   /\ wire (io_of out) = wire io)
  /\ (now - last_activity c <= ACTIVITY_TIMEOUT cfg ->
      result_of out = Ret true
      /\ heap (state_of out) !! l
         = Some (state_of (_health_check E (c, ticked io)))
      /\ _aufe_connections (state_of out) = _aufe_connections w
      /\ (last_activity <$> heap (state_of out) !! l)
         = Some (last_activity c)).
Proof.
  intros (Hreg & _) Hc Ho. cbv zeta. split.
  - intros Hidle.
    assert (Hout : exists p,
      monitor_wakes E cfg l (w, io)
      = (Ret false,
         (mkWorld (alter (set_is_closed true) l (heap w)) (next_id w) p
            (tasks w),
          closed_session (ticked io)))
      /\ forall sid, student_id c = Some sid -> p !! sid = None).
    { unfold monitor_wakes, try_except, bind at 1, time_time. cbn [fst snd].
      unfold bind at 1, deref, bind at 1, Effects.get, ret. cbn [fst snd].
      rewrite Hc.
      destruct (Z.gtb_spec (clock E (ticks io) - last_activity c)
                  (ACTIVITY_TIMEOUT cfg)) as [_ | Hle]; [|lia].
      unfold bind at 1. rewrite close_run, Hc, Ho.
      cbv zeta. unfold set_pool, set_heap.
      cbn [_aufe_connections heap next_id tasks].
      destruct (student_id c) as [sid|] eqn:Hs.
      - destruct (String.eqb_spec sid "") as [-> | Hne]; cbn [negb andb].
        + exists (_aufe_connections w). split.
          * destruct (aclose E (closes (ticked io))); reflexivity.
          * intros sid' [= <-].
            destruct (_aufe_connections w !! "") as [l'|] eqn:Hp;
              [|reflexivity].
            now destruct (Hreg "" l' Hp) as [Hne _].
        + destruct (_aufe_connections w !! sid) as [l'|] eqn:Hp.
          * rewrite bool_decide_eq_true_2 by eauto.
            exists (delete sid (_aufe_connections w)). split.
            -- destruct (aclose E (closes (ticked io))); reflexivity.
            -- intros sid' [= <-]. apply lookup_delete_eq.
          * rewrite bool_decide_eq_false_2 by (intros [x Hx]; discriminate Hx).
            exists (_aufe_connections w). split.
            -- destruct (aclose E (closes (ticked io))); reflexivity.
            -- intros sid' [= <-]. exact Hp.
      - exists (_aufe_connections w). split.
        + destruct (aclose E (closes (ticked io))); reflexivity.
        + intros sid' Hs'. discriminate Hs'. }
    destruct Hout as (p & -> & Hp).
    unfold result_of, state_of, io_of. cbn [fst snd heap _aufe_connections].
    split; [reflexivity|]. split; [now rewrite lookup_alter_eq, Hc|].
    split; [exact Hp | reflexivity].
  - intros Hfresh.
    destruct (health_check_returns c (ticked io))
      as (c' & Hprobe & Hact & Hopen).
    assert (Hout :
      monitor_wakes E cfg l (w, io)
      = (Ret true,
         (set_heap (<[l := c']> (heap w)) w,
          snd (snd (_health_check E (c, ticked io)))))).
    { unfold monitor_wakes, try_except, bind at 1, time_time. cbn [fst snd].
      unfold bind at 1, deref, bind at 1, Effects.get, ret. cbn [fst snd].
      rewrite Hc.
      destruct (Z.gtb_spec (clock E (ticks io) - last_activity c)
                  (ACTIVITY_TIMEOUT cfg)) as [Hgt | _]; [lia|].
      unfold bind at 1.
      rewrite (on_connection_run l _ c w (ticked io) Hc).
      rewrite Hprobe. cbn [fst snd].
      unfold bind at 1, bind at 1. cbn [fst snd set_heap heap].
      rewrite lookup_insert_eq. cbn [fst snd]. now rewrite Hopen, Ho. }
    rewrite Hout. unfold result_of, state_of, io_of, set_heap.
    cbn [fst snd heap _aufe_connections]. rewrite lookup_insert_eq.
    rewrite Hprobe. cbn [fst snd].
    split; [reflexivity|]. split; [reflexivity|]. split; [reflexivity|].
    cbn. now rewrite Hact.
Qed.

Lemma on_connection_well_formed {A} l (method : M (Connection Model) A) w io :
  respects same_identity method ->
  well_formed w ->
  well_formed (state_of (on_connection l method (w, io))).
Proof.
  intros Hid (Hreg & Halloc & Htasks). unfold on_connection, state_of.
  cbn [fst snd]. destruct (heap w !! l) as [c|] eqn:Hc;
    [|split; [|split]; assumption].
  cbn [fst snd]. unfold set_heap.
  pose proof (Hid (c, io) (fst (method (c, io))) (snd (method (c, io))))
    as Hsame.
  destruct (method (c, io)) as [r [c' io']]. cbn [fst snd] in *.
  specialize (Hsame eq_refl). unfold same_identity, identity_of in Hsame.
  injection Hsame as _ Hs _ _ _ Ho.
  split; [|split]; cbn [heap next_id _aufe_connections tasks].
  - intros sid l' Hl'.
    destruct (Hreg sid l' Hl') as (Hne & c0 & Hc0 & Hs0 & Ho0).
    split; [exact Hne|]. destruct (decide (l = l')) as [<- | Hd].
    + exists c'. rewrite lookup_insert_eq. split; [reflexivity|].
      rewrite Hc in Hc0. injection Hc0 as <-. split; congruence.
    + exists c0. now rewrite lookup_insert_ne by exact Hd.
  - intros l' Hl'. apply Halloc. destruct (decide (l = l')) as [<- | Hd].
    + eauto.
    + now rewrite lookup_insert_ne in Hl' by exact Hd.
  - intros l' Hl'. destruct (decide (l = l')) as [<- | Hd].
    + rewrite lookup_insert_eq. eauto.
    + rewrite lookup_insert_ne by exact Hd. now apply Htasks.
Qed.

Lemma health_check_same_identity :
  respects same_identity (@_health_check Model E).
Proof. exact (run_call_same_identity E cfg CallHealthCheck). Qed.


(** An invariant of the process holds after two steps when each step
    keeps it. *)
Lemma well_formed_bind {A B} (m : M (World Model) A)
    (k : A -> M (World Model) B) :
  (forall w io, well_formed w -> well_formed (state_of (m (w, io)))) ->
  (forall a w io, well_formed w -> well_formed (state_of (k a (w, io)))) ->
  forall w io, well_formed w -> well_formed (state_of (bind m k (w, io))).
Proof.
  intros Hm Hk w io Hwf. specialize (Hm w io Hwf). unfold bind, state_of in *.
  destruct (m (w, io)) as [[a | e] [w1 io1]]; cbn [fst snd] in *;
    [|exact Hm].
  now apply Hk.
Qed.

Lemma run_tasks_well_formed n :
  forall (w : World Model) io,
    well_formed w -> well_formed (state_of (run_tasks E n (w, io))).
Proof.
  induction n as [|n IH]; intros w io Hwf; [exact Hwf|].
  cbn [run_tasks]. unfold bind at 1. rewrite settle_task_run.
  pose proof (run_task_well_formed E w io Hwf) as Hrun.
  unfold state_of in Hrun.
  destruct (run_task E (w, io)) as [r [w1 io1]]. now apply IH.
Qed.

Lemma run_pending_well_formed (w : World Model) io :
  well_formed w -> well_formed (state_of (run_pending E (w, io))).
Proof.
  intros Hwf. unfold run_pending, bind, Effects.get. cbn [fst snd].
  now apply run_tasks_well_formed.
Qed.

Lemma awaited_well_formed {A} l config (func : M (Connection Model) A) w io :
  respects same_identity (retry_async E config func) ->
  well_formed w ->
  well_formed (state_of (awaited E l config func (w, io))).
Proof.
  intros Hid. unfold awaited. revert w io.
  apply well_formed_bind.
  - intros w io. apply on_connection_well_formed.
    unfold _update_activity. frame; reflexivity.
  - intros _. apply well_formed_bind.
    + intros w io Hwf. destruct (1 <=? max_attempts config);
        [now apply run_pending_well_formed | exact Hwf].
    + intros _ w io. now apply on_connection_well_formed.
Qed.

Lemma status_same_identity :
  respects same_identity (@login_status Model E)
  /\ respects same_identity (@uaap_login_status Model E).
Proof.
  unfold login_status, uaap_login_status, activity_tracker, _update_activity.
  split; frame; reflexivity.
Qed.

Lemma ensure_logged_in_well_formed l userid easyconnect_password password
    w io :
  well_formed w ->
  well_formed
    (state_of (ensure_logged_in E cfg l userid easyconnect_password password
                 (w, io))).
Proof.
  unfold ensure_logged_in, ensure_vpn, ensure_uaap. revert w io.
  apply well_formed_bind.
  - apply well_formed_bind.
    + intros w io. apply on_connection_well_formed.
      exact (proj1 status_same_identity).
    + intros vpn w io Hwf. destruct (negb vpn); [|exact Hwf]. revert w io Hwf.
      apply well_formed_bind; [|intros; assumption].
      intros w io. apply awaited_well_formed.
      apply login_attempts_same_identity.
  - intros vpn_ok w io Hwf. destruct (negb vpn_ok); [exact Hwf|].
    revert w io Hwf. apply well_formed_bind.
    + apply well_formed_bind.
      * intros w io. apply on_connection_well_formed.
        exact (proj2 status_same_identity).
      * intros sso w io Hwf. destruct (negb sso); [|exact Hwf].
        revert w io Hwf.
        apply well_formed_bind; [|intros; assumption].
        intros w io. apply awaited_well_formed.
        apply uaap_login_attempts_same_identity.
    + intros sso_ok w io Hwf. now destruct (negb sso_ok).
Qed.

Lemma get_jwc_client_well_formed userid easyconnect_password password w io :
  well_formed w ->
  well_formed
    (state_of (get_jwc_client E cfg userid easyconnect_password password
                 (w, io))).
Proof.
  unfold get_jwc_client. revert w io. apply well_formed_bind.
  - intros w io. apply create_or_get_well_formed.
  - intros l. apply well_formed_bind; [|intros; assumption].
    intros w io. apply ensure_logged_in_well_formed.
Qed.

(** X28.  The invariant of the pool. The empty pool is well formed, and
    every operation keeps the pool well formed: a call of
    [create_or_get_connection], the close of a connection, a pending
    task, a call on a connection, a turn of a monitor, a request through
    [get_jwc_client]. So, whatever the service has done, a name
    registered in the pool is a student id that is not empty and names
    an open instance built for that id. *)
Theorem pool_stays_well_formed w io :
  well_formed (@empty_world Model)
  /\ (well_formed w ->
      (forall server sid rc,
          well_formed
            (state_of (create_or_get_connection E cfg server sid rc (w, io))))
      /\ (forall l, well_formed (state_of (close E l (w, io))))
      /\ well_formed (state_of (run_task E (w, io)))
      /\ (forall l call,
            well_formed
              (state_of (on_connection l (run_call E cfg call) (w, io))))
      /\ (forall l, well_formed (state_of (monitor_wakes E cfg l (w, io))))
      /\ (forall userid easyconnect_password password,
            well_formed
              (state_of (get_jwc_client E cfg userid easyconnect_password
                           password (w, io))))).
Proof.
  split; [exact well_formed_empty|]. intros Hwf.
  split; [intros; now apply create_or_get_well_formed|].
  split; [intros; now apply close_well_formed|].
  split; [now apply run_task_well_formed|].
  split; [intros; apply on_connection_well_formed;
          [apply run_call_same_identity | exact Hwf]|].
  split.
  - intros l. unfold monitor_wakes, try_except, bind at 1, time_time.
    cbn [fst snd]. unfold bind at 1, deref, bind at 1, Effects.get, ret.
    cbn [fst snd]. destruct (heap w !! l) as [c|] eqn:Hc; [|exact Hwf].
    destruct (_ >? _).
    + unfold bind at 1.
      pose proof (close_well_formed E l w (ticked io) Hwf) as Hclosed.
      unfold state_of in *.
      destruct (close E l (w, ticked io)) as [[[] | e] s']; exact Hclosed.
    + unfold bind at 1.
      pose proof (on_connection_well_formed l (_health_check E) w (ticked io)
                    health_check_same_identity Hwf) as Hprobed.
      unfold state_of in *.
      destruct (on_connection l (_health_check E) (w, ticked io))
        as [[[] | e] [w' io']]; cbn [fst snd] in *; [|exact Hprobed].
      unfold bind at 1, bind at 1. cbn [fst snd].
      destruct (heap w' !! l); exact Hprobed.
  - intros userid easyconnect_password password.
    apply get_jwc_client_well_formed. exact Hwf.
Qed.
End MonitorFacts.

(** ** The properties above on concrete worlds *)

Section MoreScenarios.
Import Scenarios.

Lemma calculate_delay_bounds_witness :
  let config := default_retry_config cfg0 in
  (_calculate_delay 2 config (1 # 2) <= max_delay config)%Q.
Proof.
  intros config.
  apply (calculate_delay_bounds config 2 (1 # 2));
    [discriminate | discriminate |].
  left. reflexivity.
Defined.

Lemma retry_async_attempts_witness :
  let out := retry_async world_refusing two_attempts
               (counted (always_raises RequestError))
               ((0%nat, 0%nat), io0) in
  snd (state_of out) = 2%nat /\ List.length (sleeps (io_of out)) = 1%nat.
Proof.
  destruct (retry_async_attempts world_refusing two_attempts
              (always_raises RequestError) (0%nat, io0) 0%nat)
    as (Hruns & _ & _ & _ & Hsleeps).
  split; [exact Hruns|]. apply Hsleeps. intros s. reflexivity.
Defined.



Lemma clear_cache_invisible_witness :
  let c' := state_of (_clear_cache world_refusing fresh_with_cache) in
  cached_response_at 5 "GET:http://jwc/api:{}" c'
  = cached_response_at 5 "GET:http://jwc/api:{}" (fst fresh_with_cache)
  /\ _request_cache c' ⊆ _request_cache (fst fresh_with_cache).
Proof.
  apply (clear_cache_invisible world_refusing (fst fresh_with_cache)
           (snd fresh_with_cache) 5 "GET:http://jwc/api:{}").
  vm_compute. discriminate.
Defined.

Lemma cached_response_round_trip_witness :
  let s1 := snd (_cache_response world_refusing "GET:http://jwc/api:{}" "{}"
                   fresh) in
  result_of (_get_cached_response world_refusing "GET:http://jwc/api:{}" s1)
  = Ret (Some "{}").
Proof.
  destruct (cached_response_round_trip world_refusing
              "GET:http://jwc/api:{}" "{}" (fst fresh) (snd fresh))
    as [Hserved _].
  - intros k. cbn. lia.
  - apply Hserved. vm_compute. reflexivity.
Defined.

Lemma model_request_served_from_cache_witness :
  result_of (model_request world_refusing "http://jwc/api" "GET" true true "{}"
               fresh_with_cache)
  = Ret (Some "{}").
Proof.
  rewrite (model_request_served_from_cache world_refusing
             "http://jwc/api" "GET" true "{}" (fst fresh_with_cache)
             (snd fresh_with_cache) "{}").
  - reflexivity.
  - vm_compute. reflexivity.
Defined.

Lemma model_request_first_attempt_witness :
  let out := model_request world_api_answers "http://jwc/api" "GET" true false
               "{}" fresh in
  result_of out = Ret (Some "{}")
  /\ is_healthy (_health (state_of out)) = true.
Proof.
  destruct (model_request_first_attempt world_api_answers
              "http://jwc/api" "GET" true false "{}" (fst fresh) (snd fresh)
              (page 200 "{}") "{}")
    as (Hres & _ & _ & Hhealthy & _).
  - vm_compute. discriminate.
  - intros _. reflexivity.
  - intros Hrf. discriminate Hrf.
  - reflexivity.
  - reflexivity.
  - reflexivity.
  - split; [exact Hres | exact Hhealthy].
Defined.

Lemma model_request_foreign_exception_witness :
  result_of (_send_model_request_with_retry world_transport_breaks
               "http://jwc/api" "GET" "{}" fresh)
  = Raise Exception_
  /\ result_of (model_request world_transport_breaks "http://jwc/api" "GET"
                  false false "{}" fresh)
     = Ret None.
Proof.
  destruct (model_request_foreign_exception world_transport_breaks
              "http://jwc/api" "GET" false false "{}" (fst fresh) (snd fresh)
              Exception_)
    as (Hsend & Hres & _).
  - vm_compute. discriminate.
  - intros Hc. discriminate Hc.
  - reflexivity.
  - reflexivity.
  - reflexivity.
  - split; [|exact Hres]. change fresh with (fst fresh, snd fresh).
    rewrite Hsend. reflexivity.
Defined.




Lemma login_body_stores_token_witness :
  twf_id (state_of (login_body world_both_accept "20230001" "pw" fresh))
  = Some "ABC123".
Proof.
  apply (login_body_stores_token world_both_accept "20230001" "pw"
           (fst fresh) (snd fresh) vpn_auth_page "ABC123");
    reflexivity.
Defined.

Lemma uaap_login_without_form_witness :
  result_of (uaap_login world_sso_down cfg0 "20230001" "pw" fresh)
  = Ret (Some false).
Proof.
  change fresh with (fst fresh, snd fresh).
  rewrite (uaap_login_without_form world_sso_down cfg0 "20230001" "pw"
             (fst fresh) (snd fresh) (page 503 "maintenance")).
  - reflexivity.
  - vm_compute. discriminate.
  - reflexivity.
  - left. discriminate.
Defined.

Lemma uaap_login_lt_without_value_witness :
  result_of (uaap_login world_sso_lt_empty cfg0 "20230001" "pw" fresh)
  = Raise AUFELoginError.
Proof.
  change fresh with (fst fresh, snd fresh).
  rewrite (uaap_login_lt_without_value world_sso_lt_empty cfg0 "20230001" "pw"
             (fst fresh) (snd fresh)
             (page 200 ("<input name=lt>"
                        ++ String newline "<input name=execution value=e1s1>"))
             (Some "e1s1")).
  - reflexivity.
  - vm_compute. discriminate.
  - reflexivity.
  - reflexivity.
  - reflexivity.
  - reflexivity.
Defined.

Lemma close_unregisters_witness :
  let s1 := snd (Pool.close world_refusing 0%nat (pool_of_one, io0)) in
  Pool._aufe_connections (fst s1) !! "20230001" = None
  /\ Pool.close world_refusing 0%nat s1 = (Ret tt, s1).
Proof.
  destruct (close_unregisters world_refusing cfg0 "20230001" 0%nat
              pool_of_one io0)
    as (Hgone & _ & Hagain & _).
  - apply well_formed_constructed, well_formed_empty.
  - vm_compute. reflexivity.
  - split; [exact Hgone | exact Hagain].
Defined.

Lemma deferred_close_unregisters_replacement_witness :
  let r2 := Pool.create_or_get_connection world_refusing cfg0
              "vpn.aufe.edu.cn" "20230001" None (pool_of_one, much_later) in
  let r3 := Pool.run_task world_refusing (snd r2) in
  result_of r2 = Ret 1%nat
  /\ Pool._aufe_connections (state_of r2) !! "20230001" = Some 1%nat
  /\ Pool._aufe_connections (state_of r3) !! "20230001" = None.
Proof.
  destruct (deferred_close_unregisters_replacement world_refusing cfg0
              "vpn.aufe.edu.cn" "20230001" None 0%nat
              (new_connection cfg0 "vpn.aufe.edu.cn" (Some "20230001") None
                 1 0)
              pool_of_one much_later)
    as (Hnew & _ & Hreg & _ & _ & _ & Hgone).
  - apply well_formed_constructed, well_formed_empty.
  - vm_compute. reflexivity.
  - vm_compute. reflexivity.
  - vm_compute. reflexivity.
  - reflexivity.
  - split; [exact Hnew|]. split; [exact Hreg | exact Hgone].
Defined.

Lemma redirect_to_never_raises_witness :
  exists v,
    result_of (Redirect.redirect_to world_refusing cfg0 1 "http://jwc/" None
                 fresh) = Ret v.
Proof.
  destruct (redirect_to_never_raises world_refusing cfg0 0%nat "http://jwc/"
              None (fst fresh) (snd fresh)) as [Hret _].
  - vm_compute. discriminate.
  - exact Hret.
Defined.

Lemma redirect_to_follows_witness :
  let out := Redirect.redirect_to world_one_redirect cfg0 5 "http://jwc/" None
               fresh in
  result_of out
  = Ret (Some (page 200 "home",
               Redirect.gathered None
                 [redirect 302 "http://jwc/home"; page 200 "home"]))
  /\ map req_url (wire (io_of out)) = ["http://jwc/home"; "http://jwc/"].
Proof.
  destruct (redirect_to_follows world_one_redirect cfg0
              [redirect 302 "http://jwc/home"] 5%nat "http://jwc/" None
              (fst fresh) (snd fresh) (page 200 "home"))
    as (Hres & Hurls & _).
  - vm_compute. discriminate.
  - cbn. lia.
  - intros i h Hi. destruct i as [|i].
    + injection Hi as <-. split; [reflexivity|]. vm_compute. eauto.
    + destruct i; discriminate Hi.
  - reflexivity.
  - reflexivity.
  - split; [exact Hres | exact Hurls].
Defined.

Lemma get_jwc_client_outcome_witness :
  let out := Service.get_jwc_client world_both_accept cfg0 "20230001"
               "vpn-pw" "pw" (pool_of_one, much_later) in
  result_of out = Ret (1%nat, Service.ClientReady)
  /\ Pool._aufe_connections (state_of out) !! "20230001" = None
  /\ (_is_closed <$> Pool.heap (state_of out) !! 0%nat) = Some true.
Proof.
  assert (Hready :
    result_of (Service.get_jwc_client world_both_accept cfg0 "20230001"
                 "vpn-pw" "pw" (pool_of_one, much_later))
    = Ret (1%nat, Service.ClientReady)) by (vm_compute; reflexivity).
  destruct (get_jwc_client_outcome world_both_accept cfg0 "20230001"
              "vpn-pw" "pw" pool_of_one much_later) as [Hclient _].
  - apply well_formed_constructed, well_formed_empty.
  - discriminate.
  - reflexivity.
  - destruct (Hclient 1%nat Hready) as (_ & _ & _ & Hreplaced).
    destruct Hreplaced as (_ & Hgone & Hclosed); [vm_compute; reflexivity|].
    split; [exact Hready|]. split; [exact Hgone|].
    apply Hclosed. vm_compute. reflexivity.
Defined.

Lemma monitor_wakes_outcome_witness :
  let out := Service.monitor_wakes world_refusing cfg0 0%nat
               (pool_of_one, much_later) in
  result_of out = Ret false
  /\ Pool._aufe_connections (state_of out) !! "20230001" = None.
Proof.
  destruct (monitor_wakes_outcome world_refusing cfg0 0%nat
              (new_connection cfg0 "vpn.aufe.edu.cn" (Some "20230001") None
                 1 0)
              pool_of_one much_later)
    as [Hidle _].
  - apply well_formed_constructed, well_formed_empty.
  - vm_compute. reflexivity.
  - reflexivity.
  - destruct Hidle as (Hres & _ & Hgone & _).
    + vm_compute. reflexivity.
    + split; [exact Hres|]. now apply Hgone.
Defined.

Lemma model_request_leaves_logged_out_witness :
  let s := snd (login world_both_accept cfg0 "20230001" "pw" fresh) in
  _logged_in (fst s) = true
  /\ logged_out (state_of (model_request world_both_accept "http://jwc/api"
                             "GET" false true "{}" s)).
Proof.
  cbv zeta. split; [vm_compute; reflexivity|].
  rewrite (surjective_pairing
             (snd (login world_both_accept cfg0 "20230001" "pw" fresh))).
  apply (model_request_leaves_logged_out world_both_accept
           "http://jwc/api" "GET" false true "{}").
  - reflexivity.
  - intros Hc. discriminate Hc.
  - vm_compute. reflexivity.
Defined.

Lemma model_request_twice_sends_once_witness :
  let out1 := model_request world_api_answers "http://jwc/api" "GET" true
                false "{}" fresh in
  let out2 := model_request world_api_answers "http://jwc/api" "GET" true
                true "{}" (snd out1) in
  result_of out2 = Ret (Some "{}")
  /\ wire (io_of out2) = wire (io_of out1).
Proof.
  destruct (model_request_twice_sends_once world_api_answers
              "http://jwc/api" "GET" true "{}" (fst fresh) (snd fresh)
              (page 200 "{}") "{}")
    as (_ & Hres & Hwire & _).
  - vm_compute. discriminate.
  - reflexivity.
  - vm_compute. reflexivity.
  - reflexivity.
  - reflexivity.
  - reflexivity.
  - intros k. cbn. lia.
  - vm_compute. reflexivity.
  - split; [exact Hres | exact Hwire].
Defined.

(** C5.  A second [login] on a connection whose first login has
    succeeded, so that the VPN flag is set.  When the first response
    of the second login lacks the TwfID, or carries the TwfID and
    lacks the RSA modulus, [login] returns false after that one
    request and the VPN flag is still set: the early returns do not
    clear it.  When the portal rejects the second login on the result
    marker, [login] returns false as well and the flag is clear, as
    after every other failure of [login]. *)
Example login_early_return_leaves_flag_set :
  let first (E : Env) := login E cfg0 "20230001" "pw" fresh in
  let second (E : Env) := login E cfg0 "20230001" "pw" (snd (first E)) in
  (_logged_in (state_of (first world_token_missing)) = true
   /\ result_of (second world_token_missing) = Ret (Some false)
   /\ _logged_in (state_of (second world_token_missing)) = true
   /\ List.length (wire (io_of (second world_token_missing))) = 3%nat)
  /\ (_logged_in (state_of (first world_modulus_missing)) = true
      /\ result_of (second world_modulus_missing) = Ret (Some false)
      /\ _logged_in (state_of (second world_modulus_missing)) = true
      /\ List.length (wire (io_of (second world_modulus_missing))) = 3%nat)
  /\ (_logged_in (state_of (first world_second_login_rejected)) = true
      /\ result_of (second world_second_login_rejected) = Ret (Some false)
      /\ _logged_in (state_of (second world_second_login_rejected)) = false).
Proof. vm_compute. repeat split. Qed.
End MoreScenarios.
